(** * NetworkSettings: interface arbitration, admin access point, hostname

    A shallow embedding of [src/NetworkSettings.cpp] (OpenDTU) and the
    properties its specification states about it.

    Conventions.
    - [uint32_t] members are [Z] with the wrap-around modulo [2^32] written
      out at every arithmetic operation; the [uint8_t] index of
      [getHostname] is a [nat] wrapped modulo [256].
    - A [char] array is a [list ascii] of the array's length, written by
      index with stdpp's [<[i:=c]>]; a C string is the part of such an
      array before its first NUL.
    - Member functions are state-passing functions on [State].  Calls into
      the collaborators (WiFi, ETH, DNS server, MDNS, subscriber callbacks)
      are appended to the log [calls], oldest first.  What the collaborators
      report back during one invocation is read from an [Env].
    - [MessageOutput] lines never influence control flow and are left out. *)

From Stdlib Require Import ZArith Lia Bool Ascii String List.
From Stdlib Require Import DecimalString DecimalN.
From stdpp Require Import base list strings.

Local Open Scope Z_scope.

(** ** C strings in fixed-size arrays *)

Definition NUL : ascii := Ascii.zero.

Definition hyphen : ascii := "-"%char.

(** A stack array of [n] cells that has not been initialised: it holds
    whatever [junk] was there before. *)
Definition char_array (n : nat) (junk : list ascii) : list ascii :=
  take n (junk ++ replicate n NUL).

(** The characters of the C string stored at the start of [buf]. *)
Fixpoint c_chars (buf : list ascii) : list ascii :=
  match buf with
  | [] => []
  | c :: rest => if Ascii.eqb c NUL then [] else c :: c_chars rest
  end.

Definition strlen (buf : list ascii) : nat := length (c_chars buf).

(** The [String] constructed from a pointer into a [char] array. *)
Definition String_of (buf : list ascii) : string :=
  string_of_list_ascii (c_chars buf).

(** [isalnum] in the "C" locale. *)
Definition isalnum (c : ascii) : bool :=
  let n := nat_of_ascii c in
  ((48 <=? n) && (n <=? 57) || (65 <=? n) && (n <=? 90)
   || (97 <=? n) && (n <=? 122))%nat.

(** The characters line 462 of the source maps to a hyphen. *)
Definition is_separator (c : ascii) : bool :=
  Ascii.eqb c " " || Ascii.eqb c "_" || Ascii.eqb c "-" || Ascii.eqb c "+"
  || Ascii.eqb c "!" || Ascii.eqb c "?" || Ascii.eqb c "*".

(** ** Enumerations

    [NetworkSettings.h] declares them; it is not part of the source under
    study, so the constructors are the ones the source names. *)

Inductive network_mode := WiFi | Ethernet | Undefined.

Inductive network_event :=
| NETWORK_START
| NETWORK_STOP
| NETWORK_CONNECTED
| NETWORK_DISCONNECTED
| NETWORK_GOT_IP
| NETWORK_EVENT_MAX.

Inductive wifi_mode_t :=
| WIFI_MODE_NULL
| WIFI_MODE_STA
| WIFI_MODE_AP
| WIFI_MODE_APSTA.

(** The Arduino spellings of the same radio modes. *)
Definition WIFI_STA := WIFI_MODE_STA.
Definition WIFI_AP := WIFI_MODE_AP.
Definition WIFI_AP_STA := WIFI_MODE_APSTA.

(** The raw events [NetworkEvent] distinguishes; every other event of the
    stack takes the [default] branch. *)
Inductive WiFiEvent_t :=
| ARDUINO_EVENT_ETH_START
| ARDUINO_EVENT_ETH_STOP
| ARDUINO_EVENT_ETH_CONNECTED
| ARDUINO_EVENT_ETH_GOT_IP
| ARDUINO_EVENT_ETH_DISCONNECTED
| ARDUINO_EVENT_WIFI_STA_CONNECTED
| ARDUINO_EVENT_WIFI_STA_DISCONNECTED
| ARDUINO_EVENT_WIFI_STA_GOT_IP
| ARDUINO_EVENT_OTHER.

Global Instance network_mode_eq_dec : EqDecision network_mode.
Proof. solve_decision. Defined.

Global Instance network_event_eq_dec : EqDecision network_event.
Proof. solve_decision. Defined.

Global Instance wifi_mode_eq_dec : EqDecision wifi_mode_t.
Proof. solve_decision. Defined.

(** ** Addresses *)

(** An IPv4 address: four octets, each in [0, 256). *)
Record IPAddress := mkIP { octet0 : Z; octet1 : Z; octet2 : Z; octet3 : Z }.

(** The address [0.0.0.0]. *)
Definition zero_ip (a : IPAddress) : bool :=
  (octet0 a =? 0) && (octet1 a =? 0) && (octet2 a =? 0) && (octet3 a =? 0).

(** ** Collaborators *)

(** A subscriber callback, a [std::function]: [None] is the empty function
    object (the one [!cbEvent] is true on), [Some k] is the callable number
    [k]. *)
Definition DtuNetworkEventCb := option nat.

Record DtuNetworkEventCbList_t := mkEntry {
  cb : DtuNetworkEventCb;
  event : network_event
}.

(** One call into a collaborator.  Arguments that no property looks at
    (addresses, ports, credentials of the access point) are not recorded. *)
Inductive call :=
| WiFi_mode (m : wifi_mode_t)
| WiFi_softAPConfig
| WiFi_softAP
| WiFi_hostname (hostname : string)
| WiFi_begin_with (ssid password : string)
| WiFi_begin
| WiFi_disconnect (wifioff eraseap : bool)
| WiFi_config (dhcp : bool)
| ETH_config (dhcp : bool)
| ETH_setHostname (hostname : string)
| DNS_setErrorReplyCode
| DNS_start
| DNS_stop
| DNS_processNextRequest
| MDNS_end
| MDNS_begin (hostname : string)
| MDNS_addService (name : string)
| MDNS_addServiceTxt
| Callback (k : nat) (ev : network_event).

(** The part of [Configuration.get()] this file reads. *)
Record CONFIG_T := mkConfig {
  WiFi_Ssid : string;
  WiFi_Password : string;
  WiFi_Dhcp : bool;
  WiFi_ApTimeout : Z;
  WiFi_Hostname : string;
  Mdns_Enabled : bool
}.

(** What the collaborators answer during one invocation of a member
    function, each sampled once per invocation: the clock, the two
    interfaces' addresses, the credentials the radio has stored, the chip
    id, whether [MDNS.begin] succeeds, the configuration, and the junk the
    stack holds where [getHostname] places its two arrays. *)
Record Env := mkEnv {
  millis : Z;
  WiFi_localIP : IPAddress;
  ETH_localIP : IPAddress;
  WiFi_SSID : string;
  WiFi_psk : string;
  getChipId : Z;
  MDNS_begin_ok : bool;
  Configuration : CONFIG_T;
  junk_prepared : list ascii;
  junk_result : list ascii
}.

(** ** The members of [NetworkSettingsClass] *)

Record State := mkState {
  _networkMode : network_mode;
  _ethConnected : bool;
  _adminEnabled : bool;
  _forceDisconnection : bool;
  _adminTimeoutCounter : Z;
  _adminTimeoutCounterMax : Z;
  _connectTimeoutTimer : Z;
  _connectRedoTimer : Z;
  _lastTimerCall : Z;
  _dnsServerStatus : bool;
  _lastMdnsEnabled : bool;
  _cbEventList : list DtuNetworkEventCbList_t;
  calls : list call
}.

Definition set_networkMode (v : network_mode) (s : State) : State :=
  mkState v (_ethConnected s) (_adminEnabled s) (_forceDisconnection s)
    (_adminTimeoutCounter s) (_adminTimeoutCounterMax s)
    (_connectTimeoutTimer s) (_connectRedoTimer s) (_lastTimerCall s)
    (_dnsServerStatus s) (_lastMdnsEnabled s) (_cbEventList s) (calls s).

Definition set_ethConnected (v : bool) (s : State) : State :=
  mkState (_networkMode s) v (_adminEnabled s) (_forceDisconnection s)
    (_adminTimeoutCounter s) (_adminTimeoutCounterMax s)
    (_connectTimeoutTimer s) (_connectRedoTimer s) (_lastTimerCall s)
    (_dnsServerStatus s) (_lastMdnsEnabled s) (_cbEventList s) (calls s).

Definition set_adminEnabled (v : bool) (s : State) : State :=
  mkState (_networkMode s) (_ethConnected s) v (_forceDisconnection s)
    (_adminTimeoutCounter s) (_adminTimeoutCounterMax s)
    (_connectTimeoutTimer s) (_connectRedoTimer s) (_lastTimerCall s)
    (_dnsServerStatus s) (_lastMdnsEnabled s) (_cbEventList s) (calls s).

Definition set_forceDisconnection (v : bool) (s : State) : State :=
  mkState (_networkMode s) (_ethConnected s) (_adminEnabled s) v
    (_adminTimeoutCounter s) (_adminTimeoutCounterMax s)
    (_connectTimeoutTimer s) (_connectRedoTimer s) (_lastTimerCall s)
    (_dnsServerStatus s) (_lastMdnsEnabled s) (_cbEventList s) (calls s).

Definition set_adminTimeoutCounter (v : Z) (s : State) : State :=
  mkState (_networkMode s) (_ethConnected s) (_adminEnabled s)
    (_forceDisconnection s) v (_adminTimeoutCounterMax s)
    (_connectTimeoutTimer s) (_connectRedoTimer s) (_lastTimerCall s)
    (_dnsServerStatus s) (_lastMdnsEnabled s) (_cbEventList s) (calls s).

Definition set_adminTimeoutCounterMax (v : Z) (s : State) : State :=
  mkState (_networkMode s) (_ethConnected s) (_adminEnabled s)
    (_forceDisconnection s) (_adminTimeoutCounter s) v
    (_connectTimeoutTimer s) (_connectRedoTimer s) (_lastTimerCall s)
    (_dnsServerStatus s) (_lastMdnsEnabled s) (_cbEventList s) (calls s).

Definition set_connectTimeoutTimer (v : Z) (s : State) : State :=
  mkState (_networkMode s) (_ethConnected s) (_adminEnabled s)
    (_forceDisconnection s) (_adminTimeoutCounter s)
    (_adminTimeoutCounterMax s) v (_connectRedoTimer s) (_lastTimerCall s)
    (_dnsServerStatus s) (_lastMdnsEnabled s) (_cbEventList s) (calls s).

Definition set_connectRedoTimer (v : Z) (s : State) : State :=
  mkState (_networkMode s) (_ethConnected s) (_adminEnabled s)
    (_forceDisconnection s) (_adminTimeoutCounter s)
    (_adminTimeoutCounterMax s) (_connectTimeoutTimer s) v (_lastTimerCall s)
    (_dnsServerStatus s) (_lastMdnsEnabled s) (_cbEventList s) (calls s).

Definition set_lastTimerCall (v : Z) (s : State) : State :=
  mkState (_networkMode s) (_ethConnected s) (_adminEnabled s)
    (_forceDisconnection s) (_adminTimeoutCounter s)
    (_adminTimeoutCounterMax s) (_connectTimeoutTimer s) (_connectRedoTimer s)
    v (_dnsServerStatus s) (_lastMdnsEnabled s) (_cbEventList s) (calls s).

Definition set_dnsServerStatus (v : bool) (s : State) : State :=
  mkState (_networkMode s) (_ethConnected s) (_adminEnabled s)
    (_forceDisconnection s) (_adminTimeoutCounter s)
    (_adminTimeoutCounterMax s) (_connectTimeoutTimer s) (_connectRedoTimer s)
    (_lastTimerCall s) v (_lastMdnsEnabled s) (_cbEventList s) (calls s).

Definition set_lastMdnsEnabled (v : bool) (s : State) : State :=
  mkState (_networkMode s) (_ethConnected s) (_adminEnabled s)
    (_forceDisconnection s) (_adminTimeoutCounter s)
    (_adminTimeoutCounterMax s) (_connectTimeoutTimer s) (_connectRedoTimer s)
    (_lastTimerCall s) (_dnsServerStatus s) v (_cbEventList s) (calls s).

Definition set_cbEventList (v : list DtuNetworkEventCbList_t) (s : State)
  : State :=
  mkState (_networkMode s) (_ethConnected s) (_adminEnabled s)
    (_forceDisconnection s) (_adminTimeoutCounter s)
    (_adminTimeoutCounterMax s) (_connectTimeoutTimer s) (_connectRedoTimer s)
    (_lastTimerCall s) (_dnsServerStatus s) (_lastMdnsEnabled s) v (calls s).

(** Perform one call into a collaborator. *)
Definition emit (c : call) (s : State) : State :=
  mkState (_networkMode s) (_ethConnected s) (_adminEnabled s)
    (_forceDisconnection s) (_adminTimeoutCounter s)
    (_adminTimeoutCounterMax s) (_connectTimeoutTimer s) (_connectRedoTimer s)
    (_lastTimerCall s) (_dnsServerStatus s) (_lastMdnsEnabled s)
    (_cbEventList s) (calls s ++ [c]).

(** Statement sequencing: [s ;> f ;> g] runs [f], then [g]. *)
Notation "s ;> f" := (f s) (at level 61, left associativity, only parsing).

(** Arithmetic of [uint32_t]. *)
Definition u32 (z : Z) : Z := z mod 2 ^ 32.

(** ** Member functions that do not depend on compile-time constants *)

(** [isConnected] (lines 486-489): index [0] of an [IPAddress] is its first
    octet. *)
Definition isConnected (e : Env) : bool :=
  negb (octet0 (WiFi_localIP e) =? 0) || negb (octet0 (ETH_localIP e) =? 0).

(** [onEvent] (lines 120-130): the returned flag and the state after. *)
Definition onEvent (cbEvent : DtuNetworkEventCb) (ev : network_event)
    (s : State) : bool * State :=
  match cbEvent with
  | None => (false, s)
  | Some _ =>
      let newEventHandler := mkEntry cbEvent ev in
      (true, set_cbEventList (_cbEventList s ++ [newEventHandler]) s)
  end.

(** The body of the loop of [raiseEvent] for one entry. *)
Definition raise_entry (ev : network_event) (entry : DtuNetworkEventCbList_t)
    (s : State) : State :=
  match cb entry with
  | Some k =>
      if bool_decide (event entry = ev)
         || bool_decide (event entry = NETWORK_EVENT_MAX)
      then emit (Callback k ev) s
      else s
  | None => s
  end.

(** [raiseEvent] (lines 132-141). *)
Definition raiseEvent (ev : network_event) (s : State) : State :=
  fold_left (fun acc entry => raise_entry ev entry acc) (_cbEventList s) s.

(** [NetworkEvent] (lines 60-118). *)
Definition NetworkEvent (ev : WiFiEvent_t) (s : State) : State :=
  match ev with
  | ARDUINO_EVENT_ETH_START =>
      if bool_decide (_networkMode s = Ethernet)
      then raiseEvent NETWORK_START s else s
  | ARDUINO_EVENT_ETH_STOP =>
      if bool_decide (_networkMode s = Ethernet)
      then raiseEvent NETWORK_STOP s else s
  | ARDUINO_EVENT_ETH_CONNECTED =>
      s ;> set_ethConnected true ;> raiseEvent NETWORK_CONNECTED
  | ARDUINO_EVENT_ETH_GOT_IP =>
      if bool_decide (_networkMode s = Ethernet)
      then raiseEvent NETWORK_GOT_IP s else s
  | ARDUINO_EVENT_ETH_DISCONNECTED =>
      let s := set_ethConnected false s in
      if bool_decide (_networkMode s = Ethernet)
      then raiseEvent NETWORK_DISCONNECTED s else s
  | ARDUINO_EVENT_WIFI_STA_CONNECTED =>
      if bool_decide (_networkMode s = WiFi)
      then raiseEvent NETWORK_CONNECTED s else s
  | ARDUINO_EVENT_WIFI_STA_DISCONNECTED =>
      if bool_decide (_networkMode s = WiFi)
      then s ;> emit (WiFi_disconnect true false) ;> emit WiFi_begin
             ;> raiseEvent NETWORK_DISCONNECTED
      else s
  | ARDUINO_EVENT_WIFI_STA_GOT_IP =>
      if bool_decide (_networkMode s = WiFi)
      then raiseEvent NETWORK_GOT_IP s else s
  | ARDUINO_EVENT_OTHER => s
  end.

(** [setupMode] (lines 174-193). *)
Definition setupMode (s : State) : State :=
  if _adminEnabled s then
    s ;> emit (WiFi_mode WIFI_AP_STA) ;> emit WiFi_softAPConfig
      ;> emit WiFi_softAP ;> emit DNS_setErrorReplyCode ;> emit DNS_start
      ;> set_dnsServerStatus true
  else
    let s := s ;> set_dnsServerStatus false ;> emit DNS_stop in
    if bool_decide (_networkMode s = WiFi)
    then emit (WiFi_mode WIFI_STA) s
    else emit (WiFi_mode WIFI_MODE_NULL) s.

(** [enableAdminMode] (lines 195-201). *)
Definition enableAdminMode (e : Env) (s : State) : State :=
  s ;> set_adminEnabled true
    ;> set_adminTimeoutCounter 0
    ;> set_adminTimeoutCounterMax (u32 (WiFi_ApTimeout (Configuration e) * 60))
    ;> setupMode.

(** One step of an execution: the scheduler invokes [loop] in some
    environment, or the network stack delivers a raw event. *)
Inductive Step :=
| Tick (e : Env)
| Raw (ev : WiFiEvent_t).

(** ** The hostname rule as the specification words it

    "keep alphanumeric characters; map space/underscore/hyphen/plus/
    exclamation/question/asterisk to a single hyphen; drop all other
    characters; strip trailing hyphens; if the result is empty, fall back to
    a default template". *)

Definition spec_keep (c : ascii) : option ascii :=
  if isalnum c then Some c
  else if is_separator c then Some hyphen
  else None.

Fixpoint spec_strip_trailing (l : list ascii) : list ascii :=
  match l with
  | [] => []
  | c :: rest =>
      match spec_strip_trailing rest with
      | [] => if Ascii.eqb c hyphen then [] else [c]
      | kept => c :: kept
      end
  end.

Definition spec_sanitize (text : list ascii) : list ascii :=
  spec_strip_trailing (omap spec_keep text).

Definition spec_hostname (text fallback : list ascii) : list ascii :=
  match spec_sanitize text with
  | [] => fallback
  | name => name
  end.

(** What the implicit claim about the returned hostname asks of it. *)
Definition hostname_charb (c : ascii) : bool :=
  isalnum c || Ascii.eqb c hyphen.

Definition clean_hostname (maxlen : nat) (name : list ascii) : Prop :=
  (length name <= maxlen)%nat
  /\ forallb hostname_charb name = true
  /\ last name <> Some hyphen.

(** ** Observations on logs and histories *)

(** The radio mode the log leaves the WiFi driver in: the argument of the
    last [WiFi.mode] call, if there is one. *)
Fixpoint last_WiFi_mode (log : list call) : option wifi_mode_t :=
  match log with
  | [] => None
  | c :: rest =>
      match last_WiFi_mode rest with
      | Some m => Some m
      | None => match c with WiFi_mode m => Some m | _ => None end
      end
  end.

(** The station connection attempts in a log. *)
Definition is_station_begin (c : call) : bool :=
  match c with
  | WiFi_begin_with _ _ | WiFi_begin => true
  | _ => false
  end.

(** The address applications in a log. *)
Definition is_address_config (c : call) : bool :=
  match c with
  | WiFi_config _ | ETH_config _ => true
  | _ => false
  end.

(** How often a flag goes from [true] to [false] along a history. *)
Fixpoint falling_edges (history : list bool) : nat :=
  match history with
  | true :: (false :: _) as rest => S (falling_edges rest)
  | _ :: rest => falling_edges rest
  | [] => O
  end.

(** How often a flag goes from [false] to [true] along a history. *)
Fixpoint rising_edges (history : list bool) : nat :=
  match history with
  | false :: (true :: _) as rest => S (rising_edges rest)
  | _ :: rest => rising_edges rest
  | [] => O
  end.

(** The invocations of subscriber callbacks. *)
Definition is_callback (c : call) : bool :=
  match c with
  | Callback _ _ => true
  | _ => false
  end.

(** The dispatches of a captive-portal DNS request. *)
Definition is_dns_dispatch (c : call) : bool :=
  match c with
  | DNS_processNextRequest => true
  | _ => false
  end.

Definition dns_dispatches (s : State) : list call :=
  List.filter is_dns_dispatch (calls s).

(** The calls that set the radio mode or start a station connection. *)
Definition is_radio_call (c : call) : bool :=
  match c with
  | WiFi_mode _ | WiFi_begin_with _ _ | WiFi_begin => true
  | _ => false
  end.

Definition radio_calls (s : State) : list call :=
  List.filter is_radio_call (calls s).

(** The calls [s'] logged after [s]. *)
Definition new_calls (s s' : State) : list call :=
  drop (length (calls s)) (calls s').

(** ** The event bus as the specification words it *)

(** A subscription: a callable and its event filter. *)
Definition subscription : Type := nat * network_event.

Definition entry_of (sub : subscription) : DtuNetworkEventCbList_t :=
  mkEntry (Some (fst sub)) (snd sub).

(** "whose filter matches [ev] or is wildcard". *)
Definition spec_matches (ev : network_event) (sub : subscription) : bool :=
  bool_decide (snd sub = ev) || bool_decide (snd sub = NETWORK_EVENT_MAX).

(** The invocations one [publish] owes: the matching subscriptions, in
    subscription order. *)
Definition spec_deliveries (subs : list subscription) (ev : network_event)
  : list call :=
  map (fun sub => Callback (fst sub) ev) (List.filter (spec_matches ev) subs).

(** Publishing a sequence of events, in order. *)
Definition publish (evs : list network_event) (s : State) : State :=
  fold_left (fun acc ev => raiseEvent ev acc) evs s.

(** Subscribing a sequence of callbacks through [onEvent], in order. *)
Definition subscribe_all (subs : list (DtuNetworkEventCb * network_event))
    (s : State) : State :=
  fold_left (fun acc sub => snd (onEvent (fst sub) (snd sub) acc)) subs s.

(** The events a log hands to callable [k], in order. *)
Definition received_by (k : nat) (log : list call) : list network_event :=
  omap (fun c =>
          match c with
          | Callback k' ev => if Nat.eqb k' k then Some ev else None
          | _ => None
          end) log.

(** ** A concrete build and concrete inputs

    Values to run the definitions on: a [printf] that knows literal text
    and the conversion [%06X], builds of configurations, environments and
    states, and runs of invocations one counted second apart. *)

Definition hex_digit (d : Z) : ascii :=
  ascii_of_nat (Z.to_nat (if d <? 10 then 48 + d else 55 + d)).

Fixpoint hex_digits (n : nat) (z : Z) : string :=
  match n with
  | O => EmptyString
  | S k =>
      (hex_digits k (z / 16) ++ String (hex_digit (z mod 16)) EmptyString)
        %string
  end.

Definition fmt_06X (z : Z) : string :=
  let z := u32 z in
  if z <? 16 ^ 6 then hex_digits 6 z
  else if z <? 16 ^ 7 then hex_digits 7 z
  else hex_digits 8 z.

Fixpoint printf_hex6 (fmt : string) (arg : Z) : string :=
  match fmt with
  | String "%" (String "0" (String "6" (String "X" rest))) =>
      (fmt_06X arg ++ printf_hex6 rest arg)%string
  | String c rest => String c (printf_hex6 rest arg)
  | EmptyString => EmptyString
  end.

(** A [printf] that knows literal text only and copies its format. *)
Definition printf_literal (fmt : string) (arg : Z) : string := fmt.

Definition no_ip : IPAddress := mkIP 0 0 0 0.

Definition lan_ip : IPAddress := mkIP 192 168 1 23.

Definition odd_ip : IPAddress := mkIP 0 0 0 1.

Definition sample_config (ssid hostname : string) (ap_timeout : Z)
  : CONFIG_T :=
  mkConfig ssid "secret" true ap_timeout hostname false.

Definition sample_env (cfg : CONFIG_T) (wifi eth : IPAddress) (now : Z)
  : Env :=
  mkEnv now wifi eth "" "" 11259375 true cfg
    (list_ascii_of_string "stale bytes") (list_ascii_of_string "xx").

Definition sample_state (mode : network_mode) (eth : bool) (max : Z)
  : State :=
  mkState mode eth true false 0 max 0 0 0 false false [] [].

(** [count] environments, number [from] onwards, 1001 ms apart. *)
Definition seconds (cfg : CONFIG_T) (wifi : IPAddress) (from count : nat)
  : list Env :=
  map (fun i => sample_env cfg wifi no_ip (1001 * Z.of_nat i))
      (seq from count).

(** SSID "home", hostname template "My Router!!", admin timeout 1 min. *)
Definition home_config : CONFIG_T := sample_config "home" "My Router!!" 1.

(** No SSID, hostname template "abc_123", admin timeout 0. *)
Definition open_config : CONFIG_T := sample_config "" "abc_123" 0.

(** A hostname template with characters of every kind. *)
Definition messy_config : CONFIG_T :=
  sample_config "home" "-a.b.c..--d%06X@@@__" 1.

Definition online_env (cfg : CONFIG_T) (now : Z) : Env :=
  sample_env cfg lan_ip no_ip now.

Definition offline_env (cfg : CONFIG_T) (now : Z) : Env :=
  sample_env cfg no_ip no_ip now.

(** WiFi reports 0.0.0.1, Ethernet 0.0.0.0. *)
Definition odd_env : Env := sample_env home_config odd_ip no_ip 0.

(** WiFi authoritative, wired link down, admin session armed for 60 s. *)
Definition wifi_state : State := sample_state WiFi false 60.

(** The same with a zero timeout. *)
Definition wifi_state_no_timeout : State := sample_state WiFi false 0.

(** The session [enableAdminMode] arms for a configured timeout of 1 min. *)
Definition armed_state : State :=
  enableAdminMode (online_env home_config 0) (sample_state WiFi false 0).

Definition link_up : list Step :=
  [Raw ARDUINO_EVENT_ETH_CONNECTED].

Definition offline_steps : list Step :=
  [Tick (offline_env home_config 1001);
   Raw ARDUINO_EVENT_WIFI_STA_DISCONNECTED;
   Tick (offline_env home_config 2002);
   Raw ARDUINO_EVENT_ETH_CONNECTED;
   Tick (offline_env home_config 3003)].

Definition no_timeout_steps : list Step :=
  [Tick (online_env open_config 1001);
   Raw ARDUINO_EVENT_ETH_CONNECTED;
   Tick (online_env open_config 2002);
   Raw ARDUINO_EVENT_ETH_DISCONNECTED;
   Tick (offline_env open_config 3003);
   Tick (online_env open_config 4004)].

Definition bus_subscriptions : list subscription :=
  [(1%nat, NETWORK_CONNECTED); (2%nat, NETWORK_EVENT_MAX);
   (3%nat, NETWORK_GOT_IP)].

Definition bus_state : State :=
  subscribe_all
    [(Some 1%nat, NETWORK_CONNECTED); (None, NETWORK_STOP);
     (Some 2%nat, NETWORK_EVENT_MAX); (Some 3%nat, NETWORK_GOT_IP)]
    wifi_state.

Definition bus_events : list network_event :=
  [NETWORK_CONNECTED; NETWORK_DISCONNECTED; NETWORK_GOT_IP; NETWORK_START].

(** MDNS enabled in the configuration, and [MDNS.begin] failing. *)
Definition mdns_failing_env : Env :=
  mkEnv 0 lan_ip no_ip "" "" 11259375 false
    (mkConfig "home" "secret" true 1 "My Router!!" true) [] [].

(** The configuration and chip id of [online_env home_config 0], all else
    different. *)
Definition other_stack_env : Env :=
  mkEnv 99 no_ip lan_ip "home" "secret" 11259375 false home_config
    (list_ascii_of_string "----") (list_ascii_of_string "%%%%%%%%%%%%").

(** A hostname template that is a hostname already. *)
Definition tidy_config : CONFIG_T := sample_config "home" "opendtu-1" 1.

(** Wired link up while WiFi is still the mode. *)
Definition wired_state : State := sample_state WiFi true 60.

(** Before the first invocation of [loop]. *)
Definition undefined_state : State := sample_state Undefined false 0.

(** WiFi authoritative, the session's counter at its timeout of 60 s. *)
Definition expiring_state : State :=
  mkState WiFi false true false 60 60 0 0 0 true false [] [].

(** WiFi authoritative, both back-off timers running. *)
Definition searching_state : State :=
  mkState WiFi false true false 0 60 7 9 0 true false [] [].

(** The same with the admin session disabled. *)
Definition disabled_state : State :=
  mkState WiFi false false false 0 60 7 9 0 false false [] [].

(** Ethernet was authoritative and the admin session has expired long ago;
    the wired link has just gone down. *)
Definition unplugged_state : State :=
  mkState Ethernet false false false 0 180 4000 4000 0 false false [] [].

(** Ethernet authoritative without an address, search timer at 30 s. *)
Definition wired_searching_state : State :=
  mkState Ethernet true true false 0 60 30 0 0 true false [] [].

(** The same with the search timer at 39 s and [_forceDisconnection] still
    set by an earlier suspension. *)
Definition wired_stale_state : State :=
  mkState Ethernet true true true 0 60 39 5 0 true false [] [].

(** Ethernet was authoritative with the admin session enabled; the station
    search had been suspended 18 s before, 49 s after it began; the wired
    link has just gone down. *)
Definition unplugged_stale_state : State :=
  mkState Ethernet false true true 0 60 49 18 0 true false [] [].

(** [count] environments, number [from] onwards, 1001 ms apart, with
    Ethernet holding an address. *)
Definition wired_seconds (from count : nat) : list Env :=
  map (fun i => sample_env home_config no_ip lan_ip (1001 * Z.of_nat i))
      (seq from count).

(** From power-up: 31 counted seconds without connectivity, at the last of
    which the station search is suspended; the wired link comes up and
    Ethernet holds an address for 5 s; the link goes down and the next
    invocation of [loop] fails over to WiFi. *)
Definition stale_flag_steps : list Step :=
  map Tick (seconds home_config no_ip 1 31)
  ++ [Raw ARDUINO_EVENT_ETH_CONNECTED]
  ++ map Tick (wired_seconds 32 5)
  ++ [Raw ARDUINO_EVENT_ETH_DISCONNECTED;
      Tick (offline_env home_config (1001 * 37))].

(** The 100 counted seconds after that, still without connectivity. *)
Definition still_searching : list Env := seconds home_config no_ip 38 100.

(** One back-off cycle for a search timeout of 30 s and a redo timeout of
    600 s: 30 counted seconds, the 31st, 600 more, the 632nd. *)
Definition cycle_searching : list Env := seconds home_config no_ip 1 30.

Definition cycle_suspend : Env := offline_env home_config (1001 * 31).

Definition cycle_suspended : list Env := seconds home_config no_ip 32 600.

Definition cycle_resume : Env := offline_env home_config (1001 * 632).

(** ** Member functions that depend on compile-time constants

    [defaults.h], [Configuration.h] and the C library are not part of the
    source under study.  Their constants, and the text the [printf] family
    produces for a format and one [uint32_t] argument, are parameters.  The
    two reconnect timeouts are compared with [uint32_t] members; the
    properties that depend on them assume them in that type's range. *)

Section NetworkSettings.

Variable WIFI_MAX_HOSTNAME_STRLEN : nat.
Variable APP_HOSTNAME : string.
Variable WIFI_RECONNECT_TIMEOUT : Z.
Variable WIFI_RECONNECT_REDO_TIMEOUT : Z.

(** [printf_text fmt arg]: the complete text a [printf]-family function
    produces for format [fmt] and argument [arg], before any truncation.
    For a format with more than one conversion the C library reads
    arguments that were not passed; [printf_text] then stands for what it
    made of them in the execution at hand. *)
Variable printf_text : string -> Z -> string.

(** [snprintf(buf, size, fmt, arg)]: at most [size - 1] characters of the
    text, then a NUL; the cells after it keep their content. *)
Definition snprintf (buf : list ascii) (size : nat) (fmt : string) (arg : Z)
  : list ascii :=
  match size with
  | O => buf
  | S room =>
      let out := take room (list_ascii_of_string (printf_text fmt arg)) in
      out ++ NUL :: drop (S (length out)) buf
  end.

(** The first [while] loop of [getHostname] (lines 458-468).  [pC] is the
    part of [preparedHostname] from the read pointer on; [snprintf] put a
    NUL inside the array, so the pointer never runs off its end. *)
Fixpoint sanitize_loop (pC : list ascii) (resultHostname : list ascii)
    (pos : nat) : list ascii * nat :=
  match pC with
  | [] => (resultHostname, pos)
  | c :: pC' =>
      if negb (Ascii.eqb c NUL) && (pos <? WIFI_MAX_HOSTNAME_STRLEN)%nat then
        if isalnum c then
          sanitize_loop pC' (<[pos := c]> resultHostname)
            ((pos + 1) mod 256)%nat
        else if is_separator c then
          sanitize_loop pC' (<[pos := hyphen]> resultHostname)
            ((pos + 1) mod 256)%nat
        else sanitize_loop pC' resultHostname pos
      else (resultHostname, pos)
  end.

(** The second [while] loop (lines 473-476); it ends because [pos] drops by
    one in every round. *)
Fixpoint strip_loop (pos : nat) (resultHostname : list ascii)
  : list ascii * nat :=
  match pos with
  | O => (resultHostname, O)
  | S p =>
      if Ascii.eqb (nth p resultHostname NUL) hyphen
      then strip_loop p (<[p := NUL]> resultHostname)
      else (resultHostname, pos)
  end.

(** [getHostname] (lines 447-484). *)
Definition getHostname (e : Env) : string :=
  let config := Configuration e in
  let preparedHostname :=
    char_array (WIFI_MAX_HOSTNAME_STRLEN + 1) (junk_prepared e) in
  let resultHostname :=
    char_array (WIFI_MAX_HOSTNAME_STRLEN + 1) (junk_result e) in
  let pos := O in
  let chipId := getChipId e in
  let preparedHostname :=
    snprintf preparedHostname (WIFI_MAX_HOSTNAME_STRLEN + 1)
      (WiFi_Hostname config) chipId in
  let '(resultHostname, pos) :=
    sanitize_loop preparedHostname resultHostname pos in
  let resultHostname := <[pos := NUL]> resultHostname in
  let '(resultHostname, pos) := strip_loop pos resultHostname in
  let resultHostname :=
    if (strlen resultHostname =? 0)%nat
    then snprintf resultHostname (WIFI_MAX_HOSTNAME_STRLEN + 1)
           APP_HOSTNAME chipId
    else resultHostname in
  String_of resultHostname.

(** [handleMDNS] (lines 143-172). *)
Definition handleMDNS (e : Env) (s : State) : State :=
  let mdnsEnabled := Mdns_Enabled (Configuration e) in
  if Bool.eqb (_lastMdnsEnabled s) mdnsEnabled then s
  else
    let s := s ;> set_lastMdnsEnabled mdnsEnabled ;> emit MDNS_end in
    if negb mdnsEnabled then s
    else
      let s := emit (MDNS_begin (getHostname e)) s in
      if negb (MDNS_begin_ok e) then s
      else
        s ;> emit (MDNS_addService "http") ;> emit (MDNS_addService "opendtu")
          ;> emit MDNS_addServiceTxt.

(** [setHostname] (lines 310-332). *)
Definition setHostname (e : Env) (s : State) : State :=
  if bool_decide (_networkMode s = Undefined) then s
  else
    let hostname := getHostname e in
    if bool_decide (_networkMode s = WiFi) then
      s ;> emit (WiFi_hostname hostname) ;> emit (WiFi_mode WIFI_MODE_APSTA)
        ;> emit (WiFi_mode WIFI_MODE_STA) ;> setupMode
    else if bool_decide (_networkMode s = Ethernet) then
      emit (ETH_setHostname hostname) s
    else s.

(** [setStaticIp] (lines 334-372). *)
Definition setStaticIp (e : Env) (s : State) : State :=
  if bool_decide (_networkMode s = Undefined) then s
  else
    let config := Configuration e in
    if bool_decide (_networkMode s = WiFi) then
      emit (WiFi_config (WiFi_Dhcp config)) s
    else if bool_decide (_networkMode s = Ethernet) then
      emit (ETH_config (WiFi_Dhcp config)) s
    else s.

(** [applyConfig] (lines 279-308).  The configured strings are C strings,
    so [strcmp] is equality of their characters. *)
Definition applyConfig (e : Env) (s : State) : State :=
  let s := setHostname e s in
  let config := Configuration e in
  if String.eqb (WiFi_Ssid config) "" then s
  else
    let newCredentials :=
      negb (String.eqb (WiFi_SSID e) (WiFi_Ssid config))
      || negb (String.eqb (WiFi_psk e) (WiFi_Password config)) in
    let s :=
      if newCredentials
      then emit (WiFi_begin_with (WiFi_Ssid config) (WiFi_Password config)) s
      else emit WiFi_begin s in
    setStaticIp e s.

(** [loop], lines 210-225: choosing the authoritative interface. *)
Definition loop_arbitrate (e : Env) (s : State) : State :=
  if _ethConnected s then
    if negb (bool_decide (_networkMode s = Ethernet)) then
      s ;> set_networkMode Ethernet ;> emit (WiFi_mode WIFI_MODE_NULL)
        ;> setStaticIp e ;> setHostname e
    else s
  else if negb (bool_decide (_networkMode s = WiFi)) then
    s ;> set_networkMode WiFi ;> enableAdminMode e ;> applyConfig e
  else s.

(** Whether more than 1000 ms passed since the counters last advanced
    (the condition of line 227, in [uint32_t] arithmetic). *)
Definition second_elapsed (e : Env) (s : State) : bool :=
  u32 (millis e - _lastTimerCall s) >? 1000.

(** [loop], lines 227-237: the once-per-second counters. *)
Definition loop_timers (e : Env) (s : State) : State :=
  if second_elapsed e s then
    let s :=
      if _adminEnabled s && (_adminTimeoutCounterMax s >? 0)
      then set_adminTimeoutCounter (u32 (_adminTimeoutCounter s + 1)) s
      else s in
    let s := set_connectTimeoutTimer (u32 (_connectTimeoutTimer s + 1)) s in
    let s := set_connectRedoTimer (u32 (_connectRedoTimer s + 1)) s in
    set_lastTimerCall (millis e) s
  else s.

(** [loop], lines 238-271: admin timeout and reconnect back-off. *)
Definition loop_admin (e : Env) (s : State) : State :=
  if _adminEnabled s then
    let s := if negb (isConnected e) then set_adminTimeoutCounter 0 s else s in
    let s :=
      if _adminTimeoutCounter s >? _adminTimeoutCounterMax s
      then s ;> set_adminEnabled false ;> setupMode
      else s in
    if isConnected e then
      s ;> set_connectTimeoutTimer 0 ;> set_connectRedoTimer 0
    else
      let s :=
        if (_connectTimeoutTimer s >? WIFI_RECONNECT_TIMEOUT)
           && negb (_forceDisconnection s)
        then s ;> emit (WiFi_mode WIFI_AP) ;> set_connectRedoTimer 0
               ;> set_forceDisconnection true
        else s in
      if (_connectRedoTimer s >? WIFI_RECONNECT_REDO_TIMEOUT)
         && _forceDisconnection s
      then s ;> emit (WiFi_mode WIFI_AP_STA) ;> applyConfig e
             ;> set_connectTimeoutTimer 0 ;> set_forceDisconnection false
      else s
  else s.

(** [loop], lines 272-274: one captive-portal DNS request. *)
Definition loop_dns (s : State) : State :=
  if _dnsServerStatus s then emit DNS_processNextRequest s else s.

(** [loop] (lines 208-277). *)
Definition loop (e : Env) (s : State) : State :=
  s ;> loop_arbitrate e ;> loop_timers e ;> loop_admin e ;> loop_dns
    ;> handleMDNS e.


(** The C string [snprintf] leaves in a buffer of
    [WIFI_MAX_HOSTNAME_STRLEN + 1] cells for format [fmt]. *)
Definition stored_text (fmt : string) (arg : Z) : list ascii :=
  c_chars (take WIFI_MAX_HOSTNAME_STRLEN
             (list_ascii_of_string (printf_text fmt arg))).

(** The template-substituted hostname, [preparedHostname]. *)
Definition prepared_text (e : Env) : list ascii :=
  stored_text (WiFi_Hostname (Configuration e)) (getChipId e).

(** The default template with the same substitution. *)
Definition default_text (e : Env) : list ascii :=
  stored_text APP_HOSTNAME (getChipId e).

(** The station connection attempt of [applyConfig] (lines 286-302): none
    for an empty SSID. *)
Definition station_begin (e : Env) : list call :=
  let config := Configuration e in
  if String.eqb (WiFi_Ssid config) "" then []
  else if negb (String.eqb (WiFi_SSID e) (WiFi_Ssid config))
          || negb (String.eqb (WiFi_psk e) (WiFi_Password config))
       then [WiFi_begin_with (WiFi_Ssid config) (WiFi_Password config)]
       else [WiFi_begin].

(** ** Executions

    The scheduler invokes [loop]; the network stack delivers raw events to
    [NetworkEvent] in between. *)

Definition step (st : Step) (s : State) : State :=
  match st with
  | Tick e => loop e s
  | Raw ev => NetworkEvent ev s
  end.

Definition run (steps : list Step) (s : State) : State :=
  fold_left (fun acc st => step st acc) steps s.

(** Consecutive invocations of [loop], one per environment. *)
Definition ticks (envs : list Env) (s : State) : State :=
  fold_left (fun acc e => loop e acc) envs s.

(** How many of these invocations advance the once-per-second counters. *)
Fixpoint seconds_counted (envs : list Env) (s : State) : Z :=
  match envs with
  | [] => 0
  | e :: rest =>
      (if second_elapsed e s then 1 else 0) + seconds_counted rest (loop e s)
  end.

(** The value of [_adminEnabled] before the first and after each of these
    invocations. *)
Fixpoint enabled_history (envs : list Env) (s : State) : list bool :=
  _adminEnabled s ::
  match envs with
  | [] => []
  | e :: rest => enabled_history rest (loop e s)
  end.

(** The interface [loop] settled on agrees with the wired-link flag, so the
    next invocation does not switch. *)
Definition settled (s : State) : Prop :=
  _networkMode s = (if _ethConnected s then Ethernet else WiFi).

(** WiFi is authoritative and stays so (wired link down), and the admin
    session is armed. *)
Definition admin_on_wifi (s : State) : Prop :=
  _ethConnected s = false
  /\ _networkMode s = WiFi
  /\ _adminEnabled s = true
  /\ 0 <= _adminTimeoutCounterMax s.

(** [only_io s s']: [s'] differs from [s] at most in the DNS and MDNS
    status flags and by further calls into the collaborators. *)
Definition only_io (s s' : State) : Prop :=
  _networkMode s' = _networkMode s
  /\ _ethConnected s' = _ethConnected s
  /\ _adminEnabled s' = _adminEnabled s
  /\ _forceDisconnection s' = _forceDisconnection s
  /\ _adminTimeoutCounter s' = _adminTimeoutCounter s
  /\ _adminTimeoutCounterMax s' = _adminTimeoutCounterMax s
  /\ _connectTimeoutTimer s' = _connectTimeoutTimer s
  /\ _connectRedoTimer s' = _connectRedoTimer s
  /\ _lastTimerCall s' = _lastTimerCall s
  /\ _cbEventList s' = _cbEventList s
  /\ exists more, calls s' = calls s ++ more.

(** ** Raw events, as [NetworkEvent] sorts them

    The guard each [case] of lines 62-117 puts in front of [raiseEvent], and
    the lifecycle event it raises. *)

(** The mode a raw event is published in; [None] when the [case] has no
    guard on the mode. *)
Definition published_in (ev : WiFiEvent_t) : option network_mode :=
  match ev with
  | ARDUINO_EVENT_ETH_START | ARDUINO_EVENT_ETH_STOP
  | ARDUINO_EVENT_ETH_GOT_IP | ARDUINO_EVENT_ETH_DISCONNECTED => Some Ethernet
  | ARDUINO_EVENT_WIFI_STA_CONNECTED | ARDUINO_EVENT_WIFI_STA_DISCONNECTED
  | ARDUINO_EVENT_WIFI_STA_GOT_IP => Some WiFi
  | ARDUINO_EVENT_ETH_CONNECTED | ARDUINO_EVENT_OTHER => None
  end.

(** The lifecycle event a raw event is turned into. *)
Definition normalized (ev : WiFiEvent_t) : option network_event :=
  match ev with
  | ARDUINO_EVENT_ETH_START => Some NETWORK_START
  | ARDUINO_EVENT_ETH_STOP => Some NETWORK_STOP
  | ARDUINO_EVENT_ETH_CONNECTED | ARDUINO_EVENT_WIFI_STA_CONNECTED =>
      Some NETWORK_CONNECTED
  | ARDUINO_EVENT_ETH_GOT_IP | ARDUINO_EVENT_WIFI_STA_GOT_IP =>
      Some NETWORK_GOT_IP
  | ARDUINO_EVENT_ETH_DISCONNECTED | ARDUINO_EVENT_WIFI_STA_DISCONNECTED =>
      Some NETWORK_DISCONNECTED
  | ARDUINO_EVENT_OTHER => None
  end.

(** The wired-link flag after a raw event. *)
Definition flag_after (ev : WiFiEvent_t) (flag : bool) : bool :=
  match ev with
  | ARDUINO_EVENT_ETH_CONNECTED => true
  | ARDUINO_EVENT_ETH_DISCONNECTED => false
  | _ => flag
  end.

(** The DNS flag agrees with the admin flag: the captive DNS is dispatched
    exactly while the admin session is enabled. *)
Definition dns_follows_admin (s : State) : Prop :=
  _dnsServerStatus s = _adminEnabled s.

(** What [handleMDNS] calls when the configured flag differs from the
    remembered one (lines 152-171). *)
Definition mdns_restart (e : Env) : list call :=
  if negb (Mdns_Enabled (Configuration e)) then [MDNS_end]
  else if negb (MDNS_begin_ok e) then [MDNS_end; MDNS_begin (getHostname e)]
  else [MDNS_end; MDNS_begin (getHostname e); MDNS_addService "http";
        MDNS_addService "opendtu"; MDNS_addServiceTxt].

(** ** Accessors and names *)

(** [String(value)] for an unsigned 32-bit [value]: its decimal digits. *)
Definition String_of_u32 (value : Z) : string :=
  NilEmpty.string_of_uint (N.to_uint (Z.to_N (u32 value))).

(** [getApName] (lines 203-206); [ACCESS_POINT_NAME] comes from
    [defaults.h]. *)
Definition getApName (ACCESS_POINT_NAME : string) (e : Env) : string :=
  (ACCESS_POINT_NAME ++ String_of_u32 (getChipId e))%string.

(** [localIP] (lines 374-386); [INADDR_NONE] comes from the Arduino core. *)
Definition localIP (INADDR_NONE : IPAddress) (e : Env) (s : State)
  : IPAddress :=
  match _networkMode s with
  | Ethernet => ETH_localIP e
  | WiFi => WiFi_localIP e
  | Undefined => INADDR_NONE
  end.

(** [NetworkMode] (lines 491-494). *)
Definition NetworkMode (s : State) : network_mode := _networkMode s.

(** The wired-link flag a sequence of steps leaves: that of the last raw
    Ethernet link event in it, if any. *)
Definition flag_after_steps (steps : list Step) (flag : bool) : bool :=
  fold_left (fun f st => match st with
                         | Raw ev => flag_after ev f
                         | Tick _ => f
                         end) steps flag.

(** The address application of [setStaticIp], by mode. *)
Definition address_calls (e : Env) (mode : network_mode) : list call :=
  match mode with
  | WiFi => [WiFi_config (WiFi_Dhcp (Configuration e))]
  | Ethernet => [ETH_config (WiFi_Dhcp (Configuration e))]
  | Undefined => []
  end.

(** * Properties *)

(** ** C strings and the two loops of [getHostname] *)

Lemma length_char_array n junk : length (char_array n junk) = n.
Proof.
  unfold char_array.
  rewrite length_take, length_app, length_replicate. lia.
Qed.

Lemma c_chars_app_NUL l r : c_chars (l ++ NUL :: r) = c_chars l.
Proof.
  induction l as [|c l IH]; simpl; [reflexivity|].
  destruct (Ascii.eqb c NUL); [reflexivity|]. now rewrite IH.
Qed.

Lemma c_chars_no_NUL l :
  Forall (fun c => c <> NUL) l -> c_chars l = l.
Proof.
  induction 1 as [|c l Hc _ IH]; simpl; [reflexivity|].
  destruct (Ascii.eqb_spec c NUL); [contradiction|]. now rewrite IH.
Qed.

Lemma length_c_chars l : (length (c_chars l) <= length l)%nat.
Proof.
  induction l as [|c l IH]; simpl; [lia|].
  destruct (Ascii.eqb c NUL); simpl; lia.
Qed.

Lemma c_chars_snprintf buf fmt arg :
  c_chars (snprintf buf (WIFI_MAX_HOSTNAME_STRLEN + 1) fmt arg)
  = stored_text fmt arg.
Proof.
  unfold snprintf, stored_text.
  replace (WIFI_MAX_HOSTNAME_STRLEN + 1)%nat
    with (S WIFI_MAX_HOSTNAME_STRLEN) by lia.
  apply c_chars_app_NUL.
Qed.

Lemma length_stored_text fmt arg :
  (length (stored_text fmt arg) <= WIFI_MAX_HOSTNAME_STRLEN)%nat.
Proof.
  unfold stored_text.
  etransitivity; [apply length_c_chars|]. rewrite length_take. lia.
Qed.

Lemma isalnum_not_NUL c : isalnum c = true -> c <> NUL.
Proof. intros H ->. discriminate H. Qed.

Lemma spec_keep_Some c d :
  spec_keep c = Some d -> hostname_charb d = true /\ d <> NUL.
Proof.
  unfold spec_keep, hostname_charb.
  destruct (isalnum c) eqn:Ha.
  - intros [= <-]. rewrite Ha. split; [reflexivity|].
    now apply isalnum_not_NUL.
  - destruct (is_separator c); [|discriminate].
    intros [= <-]. split; [apply orb_true_r | discriminate].
Qed.

Lemma omap_spec_keep_chars text :
  Forall (fun d => hostname_charb d = true /\ d <> NUL)
    (omap spec_keep text).
Proof.
  induction text as [|c text IH]; simpl; [constructor|].
  destruct (spec_keep c) eqn:Hk; simpl; [|exact IH].
  constructor; [now apply (spec_keep_Some c)|exact IH].
Qed.

Lemma length_omap_spec_keep text :
  (length (omap spec_keep text) <= length text)%nat.
Proof.
  induction text as [|c text IH]; [simpl; lia|].
  change (omap spec_keep (c :: text))
    with (from_option (fun d => d :: omap spec_keep text)
            (omap spec_keep text) (spec_keep c)).
  destruct (spec_keep c); simpl; lia.
Qed.

Lemma spec_strip_trailing_hyphen l :
  spec_strip_trailing (l ++ [hyphen]) = spec_strip_trailing l.
Proof.
  induction l as [|c l IH]; simpl; [reflexivity|]. now rewrite IH.
Qed.

Lemma spec_strip_trailing_other l c :
  c <> hyphen -> spec_strip_trailing (l ++ [c]) = l ++ [c].
Proof.
  intros Hc. induction l as [|d l IH]; simpl.
  - destruct (Ascii.eqb_spec c hyphen); [contradiction|reflexivity].
  - rewrite IH. destruct l; reflexivity.
Qed.

Lemma spec_strip_trailing_last l :
  last (spec_strip_trailing l) <> Some hyphen.
Proof.
  induction l as [|c l IH] using rev_ind; [discriminate|].
  destruct (Ascii.eqb_spec c hyphen) as [->|Hc].
  - now rewrite spec_strip_trailing_hyphen.
  - rewrite spec_strip_trailing_other by assumption.
    rewrite last_snoc. congruence.
Qed.

Lemma spec_strip_trailing_prefix l :
  exists dropped, l = spec_strip_trailing l ++ dropped.
Proof.
  induction l as [|c l IH] using rev_ind; [now exists []|].
  destruct (Ascii.eqb_spec c hyphen) as [->|Hc].
  - rewrite spec_strip_trailing_hyphen. destruct IH as [d Hd].
    exists (d ++ [hyphen]). rewrite app_assoc. now rewrite <- Hd.
  - rewrite spec_strip_trailing_other by assumption.
    exists []. now rewrite app_nil_r.
Qed.

Local Arguments Nat.modulo : simpl never.
Local Arguments u32 : simpl never.
Local Arguments getHostname : simpl never.

Lemma omap_spec_keep_cons c text :
  omap spec_keep (c :: text)
  = match spec_keep c with
    | Some d => d :: omap spec_keep text
    | None => omap spec_keep text
    end.
Proof. reflexivity. Qed.

(** One round of the first loop, in terms of the rule of the
    specification. *)
Lemma sanitize_loop_cons c pC resultHostname pos :
  Ascii.eqb c NUL = false ->
  (pos < WIFI_MAX_HOSTNAME_STRLEN)%nat ->
  sanitize_loop (c :: pC) resultHostname pos
  = match spec_keep c with
    | Some d =>
        sanitize_loop pC (<[pos := d]> resultHostname) ((pos + 1) mod 256)%nat
    | None => sanitize_loop pC resultHostname pos
    end.
Proof.
  intros Hc Hpos. apply Nat.ltb_lt in Hpos.
  cbn [sanitize_loop]. rewrite Hc, Hpos. unfold spec_keep.
  destruct (isalnum c), (is_separator c); reflexivity.
Qed.

(** The first loop copies the kept characters to the front of
    [resultHostname] and leaves [pos] behind them. *)
Lemma sanitize_loop_spec pC : forall acc room,
  (WIFI_MAX_HOSTNAME_STRLEN <= 255)%nat ->
  (length acc + length (c_chars pC) <= WIFI_MAX_HOSTNAME_STRLEN)%nat ->
  (length (c_chars pC) <= length room)%nat ->
  sanitize_loop pC (acc ++ room) (length acc)
  = (acc ++ omap spec_keep (c_chars pC)
       ++ drop (length (omap spec_keep (c_chars pC))) room,
     (length acc + length (omap spec_keep (c_chars pC)))%nat).
Proof.
  induction pC as [|c pC IH]; intros acc room Hmax Hfit Hroom.
  - simpl. rewrite drop_0, Nat.add_0_r. reflexivity.
  - cbn [c_chars] in *.
    destruct (Ascii.eqb c NUL) eqn:Hc.
    + cbn [sanitize_loop]. rewrite Hc. simpl.
      rewrite drop_0, Nat.add_0_r. reflexivity.
    + cbn [length] in Hfit, Hroom.
      rewrite sanitize_loop_cons by (assumption || lia).
      rewrite omap_spec_keep_cons.
      destruct (spec_keep c) as [d|].
      * destruct room as [|x room]; [simpl in Hroom; lia|].
        replace (<[length acc := d]> (acc ++ x :: room))
          with ((acc ++ [d]) ++ room).
        2:{ rewrite insert_app_r_alt by lia.
            rewrite Nat.sub_diag. simpl. now rewrite <- app_assoc. }
        replace ((length acc + 1) mod 256)%nat with (length (acc ++ [d]))
          by (rewrite length_app; cbn [length];
              symmetry; apply Nat.mod_small; lia).
        cbn [length] in Hroom.
        rewrite IH; [|assumption|rewrite length_app; cbn [length]; lia|lia].
        rewrite length_app. cbn [length drop].
        rewrite <- !app_assoc. cbn [app].
        f_equal. lia.
      * rewrite IH; [reflexivity|assumption|lia|lia].
Qed.

(** The second loop blanks the trailing hyphens. *)
Lemma strip_loop_spec acc : forall tail,
  exists tail',
    strip_loop (length acc) (acc ++ NUL :: tail)
    = (spec_strip_trailing acc ++ NUL :: tail',
       length (spec_strip_trailing acc)).
Proof.
  induction acc as [|c acc IH] using rev_ind; intros tail.
  - exists tail. reflexivity.
  - rewrite length_app, Nat.add_1_r. cbn [length strip_loop].
    rewrite <- app_assoc. cbn [app]. rewrite nth_middle.
    destruct (Ascii.eqb_spec c hyphen) as [->|Hc].
    + rewrite insert_app_r_alt by lia. rewrite Nat.sub_diag. cbn.
      rewrite spec_strip_trailing_hyphen. apply IH.
    + exists tail. rewrite spec_strip_trailing_other by assumption.
      rewrite <- app_assoc, length_app, Nat.add_1_r. reflexivity.
Qed.

Lemma spec_sanitize_no_NUL text :
  Forall (fun c => c <> NUL) (spec_sanitize text).
Proof.
  unfold spec_sanitize.
  destruct (spec_strip_trailing_prefix (omap spec_keep text)) as [d Hd].
  pose proof (omap_spec_keep_chars text) as H. rewrite Hd in H.
  apply Forall_app in H as [H _].
  eapply Forall_impl; [exact H|]. now intros c [_ Hc].
Qed.

(** [getHostname] computes the rule of the specification on the stored
    template text. *)
Lemma getHostname_spec e :
  (WIFI_MAX_HOSTNAME_STRLEN <= 255)%nat ->
  getHostname e
  = string_of_list_ascii (spec_hostname (prepared_text e) (default_text e)).
Proof.
  intros Hmax. unfold getHostname.
  set (P := snprintf _ _ _ _).
  assert (HP : c_chars P = prepared_text e) by apply c_chars_snprintf.
  set (R0 := char_array _ (junk_result e)).
  assert (HR0 : length R0 = S WIFI_MAX_HOSTNAME_STRLEN)
    by (unfold R0; rewrite length_char_array; lia).
  pose proof (length_stored_text (WiFi_Hostname (Configuration e))
                (getChipId e)) as Hlen.
  fold (prepared_text e) in Hlen.
  pose proof (sanitize_loop_spec P [] R0 Hmax) as Hloop.
  rewrite HP in Hloop. cbn [app length Nat.add] in Hloop.
  rewrite Hloop by lia. clear Hloop.
  set (san := omap spec_keep (prepared_text e)).
  assert (Hsan : (length san <= WIFI_MAX_HOSTNAME_STRLEN)%nat).
  { unfold san. etransitivity; [apply length_omap_spec_keep|exact Hlen]. }
  destruct (drop (length san) R0) as [|x rest] eqn:Hdrop.
  { apply (f_equal length) in Hdrop. rewrite length_drop in Hdrop.
    simpl in Hdrop. lia. }
  rewrite insert_app_r_alt by lia. rewrite Nat.sub_diag.
  change (<[0%nat := NUL]> (x :: rest)) with (NUL :: rest).
  destruct (strip_loop_spec san rest) as [tail' ->].
  cbv beta iota. subst san.
  change (spec_strip_trailing (omap spec_keep (prepared_text e)))
    with (spec_sanitize (prepared_text e)).
  unfold strlen, spec_hostname.
  rewrite c_chars_app_NUL.
  rewrite (c_chars_no_NUL _ (spec_sanitize_no_NUL (prepared_text e))).
  destruct (spec_sanitize (prepared_text e)) as [|c name] eqn:Hname.
  - cbn [length Nat.eqb]. unfold String_of.
    now rewrite c_chars_snprintf.
  - cbn [length Nat.eqb]. unfold String_of.
    rewrite c_chars_app_NUL.
    pose proof (spec_sanitize_no_NUL (prepared_text e)) as Hn.
    rewrite Hname in Hn. now rewrite (c_chars_no_NUL _ Hn).
Qed.

(** ** What the configuration helpers leave alone *)

Lemma only_io_refl s : only_io s s.
Proof.
  unfold only_io. repeat split. exists []. now rewrite app_nil_r.
Qed.

Lemma only_io_trans s1 s2 s3 :
  only_io s1 s2 -> only_io s2 s3 -> only_io s1 s3.
Proof.
  unfold only_io.
  intros (A1 & A2 & A3 & A4 & A5 & A6 & A7 & A8 & A9 & A10 & m1 & A11)
         (B1 & B2 & B3 & B4 & B5 & B6 & B7 & B8 & B9 & B10 & m2 & B11).
  repeat split; try congruence.
  exists (m1 ++ m2). rewrite B11, A11. now rewrite app_assoc.
Qed.

Ltac only_io_steps :=
  repeat first
    [ apply only_io_refl
    | assumption
    | match goal with
      | |- only_io _ (if ?b then _ else _) => destruct b
      | |- only_io _ (match ?x with _ => _ end) => destruct x
      | |- only_io ?s (?f ?s') =>
          lazymatch s' with
          | s => fail
          | _ => apply (only_io_trans s s' (f s'))
          end
      end ].

Lemma only_io_emit c s : only_io s (emit c s).
Proof. unfold only_io, emit; simpl. repeat split. now exists [c]. Qed.

Lemma only_io_set_dnsServerStatus v s : only_io s (set_dnsServerStatus v s).
Proof.
  unfold only_io; simpl. repeat split. exists []. now rewrite app_nil_r.
Qed.

Lemma only_io_set_lastMdnsEnabled v s : only_io s (set_lastMdnsEnabled v s).
Proof.
  unfold only_io; simpl. repeat split. exists []. now rewrite app_nil_r.
Qed.

Create HintDb only_io.

Hint Resolve only_io_refl only_io_emit only_io_set_dnsServerStatus
  only_io_set_lastMdnsEnabled : only_io.

Lemma only_io_setupMode s : only_io s (setupMode s).
Proof.
  unfold setupMode.
  only_io_steps; auto with only_io.
Qed.

Hint Resolve only_io_setupMode : only_io.

Lemma only_io_setHostname e s : only_io s (setHostname e s).
Proof.
  unfold setHostname.
  only_io_steps; auto with only_io.
Qed.

Lemma only_io_setStaticIp e s : only_io s (setStaticIp e s).
Proof.
  unfold setStaticIp.
  only_io_steps; auto with only_io.
Qed.

Hint Resolve only_io_setHostname only_io_setStaticIp : only_io.

Lemma only_io_applyConfig e s : only_io s (applyConfig e s).
Proof.
  unfold applyConfig.
  only_io_steps; auto with only_io.
Qed.

Lemma only_io_handleMDNS e s : only_io s (handleMDNS e s).
Proof.
  unfold handleMDNS.
  only_io_steps; auto with only_io.
Qed.

Lemma only_io_loop_dns s : only_io s (loop_dns s).
Proof.
  unfold loop_dns.
  only_io_steps; auto with only_io.
Qed.

Hint Resolve only_io_applyConfig only_io_handleMDNS only_io_loop_dns
  : only_io.

Lemma only_io_raise_entry ev entry s : only_io s (raise_entry ev entry s).
Proof.
  unfold raise_entry.
  only_io_steps; auto with only_io.
Qed.

Lemma only_io_raiseEvent ev s : only_io s (raiseEvent ev s).
Proof.
  unfold raiseEvent.
  assert (G : forall l acc, only_io s acc ->
              only_io s (fold_left (fun a en => raise_entry ev en a) l acc)).
  { induction l as [|en l IH]; intros acc Hacc; [exact Hacc|].
    apply IH. eapply only_io_trans; [exact Hacc|].
    apply only_io_raise_entry. }
  apply G, only_io_refl.
Qed.

Lemma only_io_networkMode s s' :
  only_io s s' -> _networkMode s' = _networkMode s.
Proof. now intros (H & _). Qed.

Lemma only_io_ethConnected s s' :
  only_io s s' -> _ethConnected s' = _ethConnected s.
Proof. now intros (_ & H & _). Qed.

Lemma only_io_adminEnabled s s' :
  only_io s s' -> _adminEnabled s' = _adminEnabled s.
Proof. now intros (_ & _ & H & _). Qed.

Lemma only_io_forceDisconnection s s' :
  only_io s s' -> _forceDisconnection s' = _forceDisconnection s.
Proof. now intros (_ & _ & _ & H & _). Qed.

Lemma only_io_adminTimeoutCounter s s' :
  only_io s s' -> _adminTimeoutCounter s' = _adminTimeoutCounter s.
Proof. now intros (_ & _ & _ & _ & H & _). Qed.

Lemma only_io_adminTimeoutCounterMax s s' :
  only_io s s' -> _adminTimeoutCounterMax s' = _adminTimeoutCounterMax s.
Proof. now intros (_ & _ & _ & _ & _ & H & _). Qed.

Lemma only_io_connectTimeoutTimer s s' :
  only_io s s' -> _connectTimeoutTimer s' = _connectTimeoutTimer s.
Proof. now intros (_ & _ & _ & _ & _ & _ & H & _). Qed.

Lemma only_io_connectRedoTimer s s' :
  only_io s s' -> _connectRedoTimer s' = _connectRedoTimer s.
Proof. now intros (_ & _ & _ & _ & _ & _ & _ & H & _). Qed.

Lemma only_io_lastTimerCall s s' :
  only_io s s' -> _lastTimerCall s' = _lastTimerCall s.
Proof. now intros (_ & _ & _ & _ & _ & _ & _ & _ & H & _). Qed.

Lemma only_io_cbEventList s s' :
  only_io s s' -> _cbEventList s' = _cbEventList s.
Proof. now intros (_ & _ & _ & _ & _ & _ & _ & _ & _ & H & _). Qed.

(** Rewrite the members of [f s] to those of [s], for [L : only_io s (f s)]. *)
Tactic Notation "io_fields_of" uconstr(L) :=
  rewrite ?(only_io_networkMode _ _ L), ?(only_io_ethConnected _ _ L),
    ?(only_io_adminEnabled _ _ L), ?(only_io_forceDisconnection _ _ L),
    ?(only_io_adminTimeoutCounter _ _ L),
    ?(only_io_adminTimeoutCounterMax _ _ L),
    ?(only_io_connectTimeoutTimer _ _ L), ?(only_io_connectRedoTimer _ _ L),
    ?(only_io_lastTimerCall _ _ L), ?(only_io_cbEventList _ _ L).

Ltac member_simpl :=
  cbn [_networkMode _ethConnected _adminEnabled _forceDisconnection
       _adminTimeoutCounter _adminTimeoutCounterMax _connectTimeoutTimer
       _connectRedoTimer _lastTimerCall _cbEventList
       set_networkMode set_ethConnected set_adminEnabled
       set_forceDisconnection set_adminTimeoutCounter
       set_adminTimeoutCounterMax set_connectTimeoutTimer
       set_connectRedoTimer set_lastTimerCall set_dnsServerStatus
       set_lastMdnsEnabled set_cbEventList].

(** The members after the functions that need no constant. *)
Ltac bus_fields :=
  repeat progress
    (io_fields_of (only_io_setupMode _);
     io_fields_of (only_io_raiseEvent _ _);
     io_fields_of (only_io_emit _ _);
     member_simpl).

(** The members after any of the helpers. *)
Ltac io_fields :=
  repeat progress
    (io_fields_of (only_io_handleMDNS _ _);
     io_fields_of (only_io_loop_dns _);
     io_fields_of (only_io_applyConfig _ _);
     io_fields_of (only_io_setHostname _ _);
     io_fields_of (only_io_setStaticIp _ _);
     bus_fields).

(** ** Choosing the interface (lines 210-225) *)

Lemma arbitrate_settled e s : settled s -> loop_arbitrate e s = s.
Proof.
  unfold settled, loop_arbitrate. intros H.
  destruct (_ethConnected s); rewrite H; reflexivity.
Qed.

Lemma arbitrate_networkMode e s :
  _networkMode (loop_arbitrate e s)
  = if _ethConnected s then Ethernet else WiFi.
Proof.
  unfold loop_arbitrate, enableAdminMode.
  destruct (_ethConnected s);
    destruct (_networkMode s) eqn:Hm; cbn [negb bool_decide decide_rel];
    simpl; io_fields; solve [reflexivity | assumption].
Qed.

Ltac split_ifs :=
  repeat match goal with
         | |- context [if ?b then _ else _] => destruct b eqn:?
         end.

Ltac arbitrate_cases s :=
  unfold loop_arbitrate, enableAdminMode;
  destruct (_ethConnected s) eqn:?; destruct (_networkMode s) eqn:?;
  simpl; io_fields.

Lemma arbitrate_ethConnected e s :
  _ethConnected (loop_arbitrate e s) = _ethConnected s.
Proof. arbitrate_cases s; congruence. Qed.

Lemma arbitrate_cbEventList e s :
  _cbEventList (loop_arbitrate e s) = _cbEventList s.
Proof. arbitrate_cases s; congruence. Qed.

Lemma arbitrate_lastTimerCall e s :
  _lastTimerCall (loop_arbitrate e s) = _lastTimerCall s.
Proof. arbitrate_cases s; congruence. Qed.

Lemma arbitrate_settles e s : settled (loop_arbitrate e s).
Proof.
  unfold settled.
  now rewrite arbitrate_networkMode, arbitrate_ethConnected.
Qed.

Lemma arbitrate_adminEnabled e s :
  _adminEnabled s = true -> _adminEnabled (loop_arbitrate e s) = true.
Proof. intros H. arbitrate_cases s; congruence. Qed.

Lemma u32_range z : 0 <= u32 z < 2 ^ 32.
Proof. unfold u32. apply Z.mod_pos_bound. reflexivity. Qed.

Lemma u32_small z : 0 <= z < 2 ^ 32 -> u32 z = z.
Proof. intros H. unfold u32. now apply Z.mod_small. Qed.

Lemma arbitrate_max_nonneg e s :
  0 <= _adminTimeoutCounterMax s ->
  0 <= _adminTimeoutCounterMax (loop_arbitrate e s).
Proof.
  intros H. arbitrate_cases s; try assumption; apply u32_range.
Qed.

(** [loop] re-arms the admin session only in the branch of lines 219-224,
    the one that calls [enableAdminMode]. *)
Lemma arbitrate_rearms e s :
  _adminEnabled s = false ->
  _adminEnabled (loop_arbitrate e s) = true ->
  _ethConnected s = false /\ _networkMode s <> WiFi.
Proof.
  intros H. arbitrate_cases s; intros; try congruence; split; congruence.
Qed.

(** ** The once-per-second counters (lines 227-237) *)

Lemma timers_only_counters e s :
  _networkMode (loop_timers e s) = _networkMode s
  /\ _ethConnected (loop_timers e s) = _ethConnected s
  /\ _adminEnabled (loop_timers e s) = _adminEnabled s
  /\ _forceDisconnection (loop_timers e s) = _forceDisconnection s
  /\ _adminTimeoutCounterMax (loop_timers e s) = _adminTimeoutCounterMax s
  /\ _cbEventList (loop_timers e s) = _cbEventList s
  /\ calls (loop_timers e s) = calls s.
Proof.
  unfold loop_timers. split_ifs; simpl; repeat split.
Qed.

Lemma timers_adminTimeoutCounter e s :
  _adminTimeoutCounter (loop_timers e s)
  = if second_elapsed e s && _adminEnabled s
       && (_adminTimeoutCounterMax s >? 0)
    then u32 (_adminTimeoutCounter s + 1)
    else _adminTimeoutCounter s.
Proof.
  unfold loop_timers.
  destruct (second_elapsed e s), (_adminEnabled s),
    (_adminTimeoutCounterMax s >? 0); reflexivity.
Qed.

Lemma timers_connectTimeoutTimer e s :
  _connectTimeoutTimer (loop_timers e s)
  = if second_elapsed e s then u32 (_connectTimeoutTimer s + 1)
    else _connectTimeoutTimer s.
Proof.
  unfold loop_timers. split_ifs; reflexivity.
Qed.

Lemma timers_connectRedoTimer e s :
  _connectRedoTimer (loop_timers e s)
  = if second_elapsed e s then u32 (_connectRedoTimer s + 1)
    else _connectRedoTimer s.
Proof.
  unfold loop_timers. split_ifs; reflexivity.
Qed.

Ltac timers_fields e s :=
  let H := fresh in
  pose proof (timers_only_counters e s)
    as (?Hmode & ?Heth & ?Hen & ?Hforce & ?Hmax & ?Hcb & ?Hcalls).

(** ** Radio calls of the helpers *)

Lemma radio_calls_emit c s :
  radio_calls (emit c s)
  = radio_calls s ++ (if is_radio_call c then [c] else []).
Proof.
  unfold radio_calls, emit; simpl. rewrite List.filter_app. simpl.
  destruct (is_radio_call c); reflexivity.
Qed.

Ltac radio_simpl :=
  repeat first
    [ rewrite radio_calls_emit; cbn [is_radio_call]
    | rewrite app_nil_r
    | progress change (radio_calls (set_dnsServerStatus ?v ?s))
        with (radio_calls s)
    | progress change (radio_calls (set_lastMdnsEnabled ?v ?s))
        with (radio_calls s)
    | progress change (radio_calls (set_connectTimeoutTimer ?v ?s))
        with (radio_calls s)
    | progress change (radio_calls (set_connectRedoTimer ?v ?s))
        with (radio_calls s)
    | progress change (radio_calls (set_forceDisconnection ?v ?s))
        with (radio_calls s)
    | progress change (radio_calls (set_adminTimeoutCounter ?v ?s))
        with (radio_calls s)
    | progress change (radio_calls (set_adminEnabled ?v ?s))
        with (radio_calls s) ].

Lemma radio_calls_handleMDNS e s :
  radio_calls (handleMDNS e s) = radio_calls s.
Proof.
  unfold handleMDNS. split_ifs; radio_simpl; reflexivity.
Qed.

Lemma radio_calls_loop_dns s : radio_calls (loop_dns s) = radio_calls s.
Proof.
  unfold loop_dns. split_ifs; radio_simpl; reflexivity.
Qed.

Lemma radio_calls_loop_timers e s :
  radio_calls (loop_timers e s) = radio_calls s.
Proof.
  unfold radio_calls.
  now destruct (timers_only_counters e s) as (_ & _ & _ & _ & _ & _ & ->).
Qed.

Lemma radio_calls_setupMode_admin s :
  _adminEnabled s = true ->
  radio_calls (setupMode s) = radio_calls s ++ [WiFi_mode WIFI_AP_STA].
Proof.
  intros H. unfold setupMode. rewrite H. radio_simpl. reflexivity.
Qed.

Lemma radio_calls_setStaticIp e s :
  radio_calls (setStaticIp e s) = radio_calls s.
Proof.
  unfold setStaticIp. split_ifs; radio_simpl; reflexivity.
Qed.

(** With WiFi authoritative and the admin session armed, [applyConfig]
    toggles the radio for the hostname, lands in AP+station mode and makes
    the station connection attempt. *)
Lemma radio_calls_applyConfig e s :
  _networkMode s = WiFi ->
  _adminEnabled s = true ->
  radio_calls (applyConfig e s)
  = radio_calls s
    ++ [WiFi_mode WIFI_MODE_APSTA; WiFi_mode WIFI_MODE_STA;
        WiFi_mode WIFI_AP_STA]
    ++ station_begin e.
Proof.
  intros Hm Ha. unfold applyConfig, station_begin, setHostname.
  rewrite Hm. cbn [bool_decide decide_rel network_mode_eq_dec
                   network_mode_rec network_mode_rect decide].
  simpl bool_decide.
  destruct (String.eqb (WiFi_Ssid (Configuration e)) "").
  - rewrite radio_calls_setupMode_admin by (io_fields; exact Ha).
    radio_simpl. now rewrite <- !app_assoc.
  - rewrite radio_calls_setStaticIp.
    destruct (negb _ || negb _); radio_simpl;
      rewrite radio_calls_setupMode_admin by (io_fields; exact Ha);
      radio_simpl; now rewrite <- !app_assoc.
Qed.

(** ** Admin timeout and reconnect back-off (lines 238-271) *)

Lemma admin_keeps_link e s :
  _networkMode (loop_admin e s) = _networkMode s
  /\ _ethConnected (loop_admin e s) = _ethConnected s
  /\ _adminTimeoutCounterMax (loop_admin e s) = _adminTimeoutCounterMax s
  /\ _lastTimerCall (loop_admin e s) = _lastTimerCall s
  /\ _cbEventList (loop_admin e s) = _cbEventList s.
Proof.
  unfold loop_admin. split_ifs; io_fields; repeat split.
Qed.

Lemma admin_disabled e s : _adminEnabled s = false -> loop_admin e s = s.
Proof. intros H. unfold loop_admin. now rewrite H. Qed.

(** Without connectivity the counter is cleared and the session stays. *)
Lemma admin_offline e s :
  _adminEnabled s = true ->
  0 <= _adminTimeoutCounterMax s ->
  isConnected e = false ->
  _adminEnabled (loop_admin e s) = true
  /\ _adminTimeoutCounter (loop_admin e s) = 0.
Proof.
  intros Ha Hmax Hc. unfold loop_admin. rewrite Ha, Hc. cbn [negb].
  cbn [_adminTimeoutCounter _adminTimeoutCounterMax set_adminTimeoutCounter].
  assert (Hgt : (0 >? _adminTimeoutCounterMax s) = false) by lia.
  rewrite Hgt.
  split_ifs; io_fields; split; assumption || reflexivity.
Qed.

(** With connectivity the session ends exactly when the counter exceeds
    its maximum; the counter itself is left alone. *)
Lemma admin_online e s :
  _adminEnabled s = true ->
  isConnected e = true ->
  _adminEnabled (loop_admin e s)
  = negb (_adminTimeoutCounter s >? _adminTimeoutCounterMax s)
  /\ _adminTimeoutCounter (loop_admin e s) = _adminTimeoutCounter s.
Proof.
  intros Ha Hc. unfold loop_admin. rewrite Ha, Hc. cbn [negb].
  destruct (_adminTimeoutCounter s >? _adminTimeoutCounterMax s);
    io_fields; split; assumption || reflexivity.
Qed.

Ltac admin_norm :=
  cbv zeta;
  cbn [negb andb _adminEnabled _adminTimeoutCounter _adminTimeoutCounterMax
       _connectTimeoutTimer _connectRedoTimer _forceDisconnection
       set_adminTimeoutCounter set_forceDisconnection set_connectRedoTimer
       set_connectTimeoutTimer emit].

(** The three things the back-off can do in one invocation without
    connectivity: nothing, suspend the station search, resume it. *)
Lemma backoff_quiet e s :
  _adminEnabled s = true ->
  0 <= _adminTimeoutCounterMax s ->
  isConnected e = false ->
  (_connectTimeoutTimer s >? WIFI_RECONNECT_TIMEOUT)
    && negb (_forceDisconnection s) = false ->
  (_connectRedoTimer s >? WIFI_RECONNECT_REDO_TIMEOUT)
    && _forceDisconnection s = false ->
  loop_admin e s = set_adminTimeoutCounter 0 s.
Proof.
  intros Ha Hmax Hc Henter Hleave. unfold loop_admin. rewrite Ha, Hc.
  assert (Hgt : (0 >? _adminTimeoutCounterMax s) = false) by lia.
  admin_norm. rewrite Hgt. admin_norm. rewrite Henter. admin_norm.
  now rewrite Hleave.
Qed.

Lemma backoff_suspends e s :
  _adminEnabled s = true ->
  0 <= _adminTimeoutCounterMax s ->
  0 <= WIFI_RECONNECT_REDO_TIMEOUT ->
  isConnected e = false ->
  _connectTimeoutTimer s > WIFI_RECONNECT_TIMEOUT ->
  _forceDisconnection s = false ->
  loop_admin e s
  = s ;> set_adminTimeoutCounter 0 ;> emit (WiFi_mode WIFI_AP)
      ;> set_connectRedoTimer 0 ;> set_forceDisconnection true.
Proof.
  intros Ha Hmax HR Hc Ht Hf. unfold loop_admin. rewrite Ha, Hc.
  assert (Hgt : (0 >? _adminTimeoutCounterMax s) = false) by lia.
  assert (Hgt' : (_connectTimeoutTimer s >? WIFI_RECONNECT_TIMEOUT) = true)
    by lia.
  assert (Hgt'' : (0 >? WIFI_RECONNECT_REDO_TIMEOUT) = false) by lia.
  admin_norm. rewrite Hgt. admin_norm. rewrite Hgt', Hf. admin_norm.
  now rewrite Hgt''.
Qed.

Lemma backoff_resumes e s :
  _adminEnabled s = true ->
  0 <= _adminTimeoutCounterMax s ->
  isConnected e = false ->
  _connectRedoTimer s > WIFI_RECONNECT_REDO_TIMEOUT ->
  _forceDisconnection s = true ->
  loop_admin e s
  = s ;> set_adminTimeoutCounter 0 ;> emit (WiFi_mode WIFI_AP_STA)
      ;> applyConfig e ;> set_connectTimeoutTimer 0
      ;> set_forceDisconnection false.
Proof.
  intros Ha Hmax Hc Hr Hf. unfold loop_admin. rewrite Ha, Hc.
  assert (Hgt : (0 >? _adminTimeoutCounterMax s) = false) by lia.
  assert (Hgt' : (_connectRedoTimer s >? WIFI_RECONNECT_REDO_TIMEOUT) = true)
    by lia.
  admin_norm. rewrite Hgt. admin_norm. rewrite Hf, andb_false_r.
  admin_norm. now rewrite Hgt', Hf.
Qed.

(** ** Logs *)

Lemma new_calls_app s s' more :
  calls s' = calls s ++ more -> new_calls s s' = more.
Proof.
  intros H. unfold new_calls. rewrite H. now rewrite drop_app_length.
Qed.

Lemma new_calls_trans s1 s2 s3 :
  only_io s1 s2 -> only_io s2 s3 ->
  new_calls s1 s3 = new_calls s1 s2 ++ new_calls s2 s3.
Proof.
  intros (_ & _ & _ & _ & _ & _ & _ & _ & _ & _ & m1 & H1)
         (_ & _ & _ & _ & _ & _ & _ & _ & _ & _ & m2 & H2).
  rewrite (new_calls_app s1 s2 m1 H1), (new_calls_app s2 s3 m2 H2).
  apply new_calls_app. rewrite H2, H1. now rewrite app_assoc.
Qed.

(** ** The event bus (lines 120-141) *)

Lemma raise_entries_calls ev subs : forall acc,
  calls (fold_left (fun a en => raise_entry ev en a) (map entry_of subs) acc)
  = calls acc ++ spec_deliveries subs ev.
Proof.
  unfold spec_deliveries.
  induction subs as [|[k f] subs IH]; intros acc; cbn [map fold_left].
  - cbn. now rewrite app_nil_r.
  - rewrite IH. unfold raise_entry, entry_of.
    cbn [cb event fst snd List.filter].
    change (spec_matches ev (k, f))
      with (bool_decide (f = ev) || bool_decide (f = NETWORK_EVENT_MAX)).
    destruct (bool_decide (f = ev) || bool_decide (f = NETWORK_EVENT_MAX)).
    + cbn [calls emit map fst]. now rewrite <- app_assoc.
    + reflexivity.
Qed.

Lemma raiseEvent_calls subs ev s :
  _cbEventList s = map entry_of subs ->
  calls (raiseEvent ev s) = calls s ++ spec_deliveries subs ev.
Proof.
  intros H. unfold raiseEvent. rewrite H. apply raise_entries_calls.
Qed.

Lemma publish_calls subs evs : forall s,
  _cbEventList s = map entry_of subs ->
  calls (publish evs s)
  = calls s ++ concat (map (spec_deliveries subs) evs).
Proof.
  unfold publish.
  induction evs as [|ev evs IH]; intros s H; cbn [fold_left map concat].
  - now rewrite app_nil_r.
  - rewrite IH by (bus_fields; exact H).
    rewrite (raiseEvent_calls subs ev s H). now rewrite <- app_assoc.
Qed.

Lemma subscribe_all_cbEventList subs : forall s,
  _cbEventList (subscribe_all (map (fun sub => (Some (fst sub), snd sub)) subs)
                  s)
  = _cbEventList s ++ map entry_of subs.
Proof.
  unfold subscribe_all.
  induction subs as [|sub subs IH]; intros s; cbn [map fold_left].
  - now rewrite app_nil_r.
  - rewrite IH. cbn. now rewrite <- app_assoc.
Qed.

Lemma received_by_app k l1 l2 :
  received_by k (l1 ++ l2) = received_by k l1 ++ received_by k l2.
Proof. unfold received_by. apply omap_app. Qed.

(** What one publish hands to [k]: one copy of the event per matching
    subscription of [k]. *)
Lemma received_by_deliveries k subs ev :
  received_by k (spec_deliveries subs ev)
  = map (fun _ => ev)
      (List.filter (fun sub => Nat.eqb (fst sub) k && spec_matches ev sub)
         subs).
Proof.
  unfold spec_deliveries.
  induction subs as [|[k' f] subs IH]; [reflexivity|].
  cbn [List.filter fst]. destruct (spec_matches ev (k', f)).
  - cbn [map fst]. unfold received_by in *.
    change (omap ?g (?c :: ?l))
      with (match g c with Some y => y :: omap g l | None => omap g l end).
    cbn beta iota. destruct (Nat.eqb k' k); cbn [andb map];
      now rewrite IH.
  - rewrite andb_false_r. exact IH.
Qed.

Lemma filter_none {A} (p : A -> bool) l :
  (forall x, In x l -> p x = false) -> List.filter p l = [].
Proof.
  induction l as [|x l IH]; intros H; [reflexivity|].
  cbn [List.filter]. rewrite (H x) by now left.
  apply IH. intros y Hy. apply H. now right.
Qed.

Lemma spec_matches_wildcard ev k : spec_matches ev (k, NETWORK_EVENT_MAX) = true.
Proof. unfold spec_matches. cbn [snd]. apply orb_true_r. Qed.

Lemma spec_matches_connected ev k :
  spec_matches ev (k, NETWORK_CONNECTED) = true -> ev = NETWORK_CONNECTED.
Proof.
  destruct ev; vm_compute; congruence.
Qed.

(** [onEvent] with an empty function object changes nothing. *)
Lemma onEvent_null ev s : onEvent None ev s = (false, s).
Proof. reflexivity. Qed.

(** C7. For every list of subscriptions and every published event,
    [raiseEvent] invokes exactly the subscriptions whose filter equals the
    event or is the wildcard [NETWORK_EVENT_MAX], in subscription order.
    Hence, over any sequence of published events, a callable subscribed
    only with filter [NETWORK_CONNECTED] is never handed
    [NETWORK_DISCONNECTED] or [NETWORK_GOT_IP], and a callable subscribed
    once, as wildcard, is handed every published event in publish order. *)
Theorem raiseEvent_delivers_matching
    (subs : list subscription) (evs : list network_event) (k : nat)
    (s : State) :
  _cbEventList s = map entry_of subs ->
  (forall ev, new_calls s (raiseEvent ev s) = spec_deliveries subs ev)
  /\ ((forall sub, In sub subs -> fst sub = k -> snd sub = NETWORK_CONNECTED)
      -> ~ In NETWORK_DISCONNECTED (received_by k (new_calls s (publish evs s)))
         /\ ~ In NETWORK_GOT_IP (received_by k (new_calls s (publish evs s))))
  /\ (forall before after,
        subs = before ++ (k, NETWORK_EVENT_MAX) :: after ->
        (forall sub, In sub (before ++ after) -> fst sub <> k) ->
        received_by k (new_calls s (publish evs s)) = evs).
Proof.
  intros Hsubs.
  rewrite (new_calls_app _ _ _ (publish_calls subs evs s Hsubs)).
  split; [|split].
  - intros ev. apply new_calls_app. now apply raiseEvent_calls.
  - intros Hk.
    assert (G : forall ev,
               In ev (received_by k (concat (map (spec_deliveries subs) evs)))
               -> ev = NETWORK_CONNECTED).
    { intros ev. induction evs as [|ev' evs IH]; cbn [map concat].
      - intros [].
      - rewrite received_by_app, in_app_iff, received_by_deliveries.
        intros [Hin|Hin]; [|now apply IH].
        apply in_map_iff in Hin as ([k' f] & <- & Hin).
        apply filter_In in Hin as [Hin Hm].
        apply andb_true_iff in Hm as [Hk' Hm]. cbn [fst] in Hk'.
        apply Nat.eqb_eq in Hk'. subst k'.
        specialize (Hk (k, f) Hin eq_refl). cbn [snd] in Hk. subst f.
        now apply (spec_matches_connected ev' k). }
    split; intros Hin; apply G in Hin; discriminate.
  - intros before after -> Hother.
    induction evs as [|ev evs IH]; cbn [map concat]; [reflexivity|].
    rewrite received_by_app, IH, received_by_deliveries. clear IH.
    rewrite List.filter_app. cbn [List.filter fst].
    rewrite Nat.eqb_refl, spec_matches_wildcard. cbn [andb].
    rewrite !filter_none; [reflexivity| |].
    + intros sub Hin. destruct (Nat.eqb_spec (fst sub) k) as [E|]; [|easy].
      exfalso. apply (Hother sub); [apply in_app_iff; now right|exact E].
    + intros sub Hin. destruct (Nat.eqb_spec (fst sub) k) as [E|]; [|easy].
      exfalso. apply (Hother sub); [apply in_app_iff; now left|exact E].
Qed.

(** ** Raw events (lines 60-118) *)

Lemma NetworkEvent_networkMode ev s :
  _networkMode (NetworkEvent ev s) = _networkMode s.
Proof.
  destruct ev; unfold NetworkEvent; cbv zeta; split_ifs; bus_fields;
    reflexivity.
Qed.

Lemma NetworkEvent_ethConnected ev s :
  _ethConnected (NetworkEvent ev s)
  = match ev with
    | ARDUINO_EVENT_ETH_CONNECTED => true
    | ARDUINO_EVENT_ETH_DISCONNECTED => false
    | _ => _ethConnected s
    end.
Proof.
  destruct ev; unfold NetworkEvent; cbv zeta; split_ifs; bus_fields;
    reflexivity.
Qed.

Lemma NetworkEvent_admin ev s :
  _adminEnabled (NetworkEvent ev s) = _adminEnabled s
  /\ _adminTimeoutCounter (NetworkEvent ev s) = _adminTimeoutCounter s
  /\ _adminTimeoutCounterMax (NetworkEvent ev s) = _adminTimeoutCounterMax s.
Proof.
  destruct ev; unfold NetworkEvent; cbv zeta; split_ifs; bus_fields;
    repeat split.
Qed.

(** ** One invocation of [loop] *)

Lemma run_app steps1 steps2 s :
  run (steps1 ++ steps2) s = run steps2 (run steps1 s).
Proof. unfold run. apply fold_left_app. Qed.

Lemma ticks_app envs1 envs2 s :
  ticks (envs1 ++ envs2) s = ticks envs2 (ticks envs1 s).
Proof. unfold ticks. apply fold_left_app. Qed.

Lemma loop_networkMode e s :
  _networkMode (loop e s) = if _ethConnected s then Ethernet else WiFi.
Proof.
  unfold loop. io_fields.
  destruct (admin_keeps_link e (loop_timers e (loop_arbitrate e s)))
    as (-> & _).
  destruct (timers_only_counters e (loop_arbitrate e s)) as (-> & _).
  apply arbitrate_networkMode.
Qed.

Lemma loop_ethConnected e s : _ethConnected (loop e s) = _ethConnected s.
Proof.
  unfold loop. io_fields.
  destruct (admin_keeps_link e (loop_timers e (loop_arbitrate e s)))
    as (_ & -> & _).
  destruct (timers_only_counters e (loop_arbitrate e s)) as (_ & -> & _).
  apply arbitrate_ethConnected.
Qed.

Lemma loop_settles e s : settled (loop e s).
Proof. unfold settled. now rewrite loop_networkMode, loop_ethConnected. Qed.

(** C1. For every sequence of raw link events and invocations of [loop]:
    when [_ethConnected] is true on entry to an invocation of [loop],
    [_networkMode] is [Ethernet], hence not [WiFi], when that invocation
    returns; and it stays [Ethernet] through every later step for as long
    as no raw Ethernet-disconnected event clears the flag. *)
Theorem wired_link_forces_ethernet
    (before : list Step) (e : Env) (later : list Step) (s0 : State) :
  _ethConnected (run before s0) = true ->
  _networkMode (run (before ++ [Tick e]) s0) = Ethernet
  /\ _networkMode (run (before ++ [Tick e]) s0) <> WiFi
  /\ (~ In (Raw ARDUINO_EVENT_ETH_DISCONNECTED) later ->
      _ethConnected (run (before ++ Tick e :: later) s0) = true
      /\ _networkMode (run (before ++ Tick e :: later) s0) = Ethernet).
Proof.
  intros Hflag.
  assert (H1 : _networkMode (run (before ++ [Tick e]) s0) = Ethernet).
  { rewrite run_app. cbn [run fold_left step].
    fold (run before s0). now rewrite loop_networkMode, Hflag. }
  split; [exact H1|]. split; [rewrite H1; discriminate|].
  intros Hlater.
  change (Tick e :: later) with ([Tick e] ++ later).
  rewrite app_assoc, run_app.
  assert (H2 : _ethConnected (run (before ++ [Tick e]) s0) = true).
  { rewrite run_app. cbn [run fold_left step].
    fold (run before s0). now rewrite loop_ethConnected. }
  revert H1 H2. generalize (run (before ++ [Tick e]) s0) as s.
  induction later as [|st later IH]; intros s Hmode Heth.
  - now split.
  - cbn [run fold_left]. apply IH.
    + intros Hin. apply Hlater. now right.
    + destruct st as [e'|ev]; cbn [step].
      * now rewrite loop_networkMode, Heth.
      * now rewrite NetworkEvent_networkMode.
    + destruct st as [e'|ev]; cbn [step].
      * now rewrite loop_ethConnected.
      * rewrite NetworkEvent_ethConnected.
        destruct ev; try assumption; try reflexivity.
        exfalso. apply Hlater. now left.
Qed.

(** C2, as the code has it. [isConnected] returns true if and only if the
    first octet of the address reported by the WiFi station or by the
    Ethernet interface is non-zero, for every pair of reported addresses. *)
Theorem isConnected_first_octet (e : Env) :
  isConnected e = true
  <-> octet0 (WiFi_localIP e) <> 0 \/ octet0 (ETH_localIP e) <> 0.
Proof.
  unfold isConnected.
  rewrite orb_true_iff, !negb_true_iff, !Z.eqb_neq. reflexivity.
Qed.

(** ** Station configuration (lines 279-332) *)

Ltac calls_norm :=
  cbn [calls emit set_dnsServerStatus set_lastMdnsEnabled
       set_adminTimeoutCounter set_connectRedoTimer set_connectTimeoutTimer
       set_forceDisconnection set_adminEnabled];
  rewrite <- ?app_assoc; cbn [app].

Lemma setHostname_calls e s :
  exists more,
    calls (setHostname e s) = calls s ++ more
    /\ List.filter is_station_begin more = []
    /\ List.filter is_address_config more = [].
Proof.
  unfold setHostname, setupMode.
  destruct (_networkMode s) eqn:Hm; simpl bool_decide; cbv iota.
  - cbn [_adminEnabled _networkMode emit].
    destruct (_adminEnabled s).
    + calls_norm. eexists. split; [reflexivity|]. split; reflexivity.
    + rewrite Hm. simpl bool_decide. cbv iota.
      calls_norm. eexists. split; [reflexivity|]. split; reflexivity.
  - calls_norm. eexists. split; [reflexivity|]. split; reflexivity.
  - exists []. rewrite app_nil_r. repeat split.
Qed.

(** C8. With an empty configured SSID, [applyConfig] stops right after
    [setHostname]: the calls it makes contain no station connection attempt
    and no address application, and it returns normally like any other
    invocation (the function cannot fail).  And [onEvent] with an empty
    callback returns false and leaves the subscription list, indeed the
    whole state, as it was. *)
Theorem empty_ssid_short_circuits
    (e : Env) (s : State) (ev : network_event) :
  WiFi_Ssid (Configuration e) = ""%string ->
  applyConfig e s = setHostname e s
  /\ List.filter is_station_begin (new_calls s (applyConfig e s)) = []
  /\ List.filter is_address_config (new_calls s (applyConfig e s)) = []
  /\ fst (onEvent None ev s) = false
  /\ snd (onEvent None ev s) = s
  /\ _cbEventList (snd (onEvent None ev s)) = _cbEventList s.
Proof.
  intros Hssid.
  assert (H : applyConfig e s = setHostname e s)
    by (unfold applyConfig; now rewrite Hssid).
  rewrite H.
  destruct (setHostname_calls e s) as (more & Hcalls & Hb & Hc).
  rewrite (new_calls_app _ _ _ Hcalls).
  repeat split; assumption.
Qed.

(** ** The hostname (lines 447-484) *)

Lemma spec_sanitize_no_alnum text :
  forallb (fun c => negb (isalnum c)) text = true -> spec_sanitize text = [].
Proof.
  unfold spec_sanitize.
  induction text as [|c text IH]; [reflexivity|].
  cbn [forallb]. intros H. apply andb_true_iff in H as [Hc Ht].
  apply negb_true_iff in Hc.
  assert (Hk : spec_keep c = if is_separator c then Some hyphen else None)
    by (unfold spec_keep; now rewrite Hc).
  rewrite omap_spec_keep_cons, Hk.
  destruct (is_separator c); [|now apply IH].
  cbn [spec_strip_trailing]. now rewrite (IH Ht).
Qed.

Lemma forallb_take {A} (p : A -> bool) n l :
  forallb p l = true -> forallb p (take n l) = true.
Proof.
  revert n. induction l as [|x l IH]; intros [|n] H; try reflexivity.
  cbn [take forallb] in *. apply andb_true_iff in H as [Hx Hl].
  now rewrite Hx, IH.
Qed.

Lemma forallb_c_chars p l :
  forallb p l = true -> forallb p (c_chars l) = true.
Proof.
  induction l as [|x l IH]; intros H; [reflexivity|].
  cbn [c_chars forallb] in *. apply andb_true_iff in H as [Hx Hl].
  destruct (Ascii.eqb x NUL); [reflexivity|].
  cbn [forallb]. now rewrite Hx, IH.
Qed.

Lemma length_list_ascii_of_string str :
  length (list_ascii_of_string str) = String.length str.
Proof.
  induction str as [|c str IH]; [reflexivity|].
  cbn [list_ascii_of_string length String.length]. now rewrite IH.
Qed.

Lemma stored_text_fits fmt arg :
  (String.length (printf_text fmt arg) <= WIFI_MAX_HOSTNAME_STRLEN)%nat ->
  stored_text fmt arg = c_chars (list_ascii_of_string (printf_text fmt arg)).
Proof.
  intros H. unfold stored_text. rewrite take_ge; [reflexivity|].
  now rewrite length_list_ascii_of_string.
Qed.

(** C3. For every configured template and chip id, [getHostname] returns
    what the rule of the specification gives on the template-substituted
    hostname [preparedHostname]: alphanumeric characters kept, each of
    space, underscore, hyphen, plus, exclamation mark, question mark and
    asterisk turned into a hyphen, every other character dropped, trailing
    hyphens stripped, and the default template (same substitution) used
    when nothing is left.  In particular "My Router!!" gives "My-Router",
    "abc_123" gives "abc-123", and "---" or any text without an
    alphanumeric character gives the default. *)
Theorem getHostname_sanitizes (e : Env) :
  (WIFI_MAX_HOSTNAME_STRLEN <= 255)%nat ->
  let text := printf_text (WiFi_Hostname (Configuration e)) (getChipId e) in
  getHostname e
  = string_of_list_ascii (spec_hostname (prepared_text e) (default_text e))
  /\ (text = "My Router!!"%string ->
      (11 <= WIFI_MAX_HOSTNAME_STRLEN)%nat ->
      getHostname e = "My-Router"%string)
  /\ (text = "abc_123"%string ->
      (7 <= WIFI_MAX_HOSTNAME_STRLEN)%nat ->
      getHostname e = "abc-123"%string)
  /\ (text = "---"%string ->
      getHostname e = string_of_list_ascii (default_text e))
  /\ (forallb (fun c => negb (isalnum c)) (list_ascii_of_string text) = true ->
      getHostname e = string_of_list_ascii (default_text e)).
Proof.
  intros Hmax text.
  pose proof (getHostname_spec e Hmax) as Hspec.
  assert (Hnone :
            forallb (fun c => negb (isalnum c)) (list_ascii_of_string text)
            = true ->
            getHostname e = string_of_list_ascii (default_text e)).
  { intros Hall. rewrite Hspec. unfold spec_hostname.
    rewrite spec_sanitize_no_alnum; [reflexivity|].
    unfold prepared_text, stored_text. fold text.
    now apply forallb_c_chars, forallb_take. }
  split; [exact Hspec|].
  split; [|split; [|split; [|exact Hnone]]].
  - intros Htext Hfit. rewrite Hspec.
    unfold prepared_text. rewrite stored_text_fits; fold text; rewrite Htext.
    + reflexivity.
    + exact Hfit.
  - intros Htext Hfit. rewrite Hspec.
    unfold prepared_text. rewrite stored_text_fits; fold text; rewrite Htext.
    + reflexivity.
    + exact Hfit.
  - intros Htext. apply Hnone. now rewrite Htext.
Qed.

(** C10. For every configured template and chip id, the text that is
    sanitized has been cut to [WIFI_MAX_HOSTNAME_STRLEN] characters, and the
    hostname [getHostname] returns is at most [WIFI_MAX_HOSTNAME_STRLEN]
    characters long, consists of alphanumeric characters and hyphens only
    and does not end with a hyphen.  On the fallback path the result is the
    default template's text as [snprintf] stores it, so the constant
    [APP_HOSTNAME] has to expand to such a name itself. *)
Theorem getHostname_clean (e : Env) :
  (WIFI_MAX_HOSTNAME_STRLEN <= 255)%nat ->
  clean_hostname WIFI_MAX_HOSTNAME_STRLEN (default_text e) ->
  (length (prepared_text e) <= WIFI_MAX_HOSTNAME_STRLEN)%nat
  /\ clean_hostname WIFI_MAX_HOSTNAME_STRLEN
       (list_ascii_of_string (getHostname e)).
Proof.
  intros Hmax Hdefault.
  pose proof (length_stored_text (WiFi_Hostname (Configuration e))
                (getChipId e)) as Hlen.
  fold (prepared_text e) in Hlen.
  split; [exact Hlen|].
  rewrite (getHostname_spec e Hmax), list_ascii_of_string_of_list_ascii.
  unfold spec_hostname.
  destruct (spec_sanitize (prepared_text e)) as [|c name] eqn:Hname;
    [exact Hdefault|].
  rewrite <- Hname. clear c name Hname. unfold spec_sanitize.
  destruct (spec_strip_trailing_prefix (omap spec_keep (prepared_text e)))
    as [dropped Hd].
  pose proof (length_omap_spec_keep (prepared_text e)) as Hlen'.
  pose proof (omap_spec_keep_chars (prepared_text e)) as Hchars.
  rewrite Hd in Hlen', Hchars. rewrite length_app in Hlen'.
  apply Forall_app in Hchars as [Hchars _].
  split; [lia|]. split; [|apply spec_strip_trailing_last].
  apply forallb_forall. intros c Hc.
  rewrite Forall_forall in Hchars.
  apply list_elem_of_In in Hc. now apply Hchars.
Qed.

(** ** The admin session across invocations *)

Lemma loop_offline e s :
  _adminEnabled s = true ->
  0 <= _adminTimeoutCounterMax s ->
  isConnected e = false ->
  _adminEnabled (loop e s) = true
  /\ _adminTimeoutCounter (loop e s) = 0
  /\ 0 <= _adminTimeoutCounterMax (loop e s).
Proof.
  intros Ha Hmax Hc. unfold loop. io_fields.
  pose proof (arbitrate_adminEnabled e s Ha) as Ha1.
  pose proof (arbitrate_max_nonneg e s Hmax) as Hmax1.
  set (s1 := loop_arbitrate e s) in *.
  destruct (timers_only_counters e s1) as (_ & _ & Ha2 & _ & Hmax2 & _).
  rewrite <- Ha2 in Ha1. rewrite <- Hmax2 in Hmax1.
  set (s2 := loop_timers e s1) in *.
  destruct (admin_offline e s2 Ha1 Hmax1 Hc) as [Ha3 Hc3].
  destruct (admin_keeps_link e s2) as (_ & _ & Hmax3 & _).
  rewrite Hmax3. auto.
Qed.

Lemma run_offline steps : forall s,
  _adminEnabled s = true ->
  0 <= _adminTimeoutCounterMax s ->
  (forall e, In (Tick e) steps -> isConnected e = false) ->
  _adminEnabled (run steps s) = true
  /\ 0 <= _adminTimeoutCounterMax (run steps s).
Proof.
  induction steps as [|st steps IH]; intros s Ha Hmax Hoff; [now split|].
  cbn [run fold_left]. fold (run steps (step st s)).
  assert (Hoff' : forall e, In (Tick e) steps -> isConnected e = false)
    by (intros e He; apply Hoff; now right).
  destruct st as [e|ev]; cbn [step].
  - destruct (loop_offline e s Ha Hmax (Hoff e (or_introl eq_refl)))
      as (Ha' & _ & Hmax').
    now apply IH.
  - destruct (NetworkEvent_admin ev s) as (Ha' & _ & Hmax').
    apply IH; [now rewrite Ha'|now rewrite Hmax'|exact Hoff'].
Qed.

(** C4. For any timeout greater than zero and any sequence of invocations
    of [loop] (with raw events in between) during which [isConnected] is
    false, the admin session never expires: [_adminEnabled] stays true, and
    every such invocation leaves [_adminTimeoutCounter] at 0. *)
Theorem admin_session_survives_offline (steps : list Step) (s : State) :
  0 < _adminTimeoutCounterMax s ->
  _adminEnabled s = true ->
  (forall e, In (Tick e) steps -> isConnected e = false) ->
  _adminEnabled (run steps s) = true
  /\ forall before e after,
       steps = before ++ Tick e :: after ->
       _adminEnabled (run (before ++ [Tick e]) s) = true
       /\ _adminTimeoutCounter (run (before ++ [Tick e]) s) = 0.
Proof.
  intros Hmax Ha Hoff.
  split; [apply run_offline; auto; lia|].
  intros before e after ->.
  destruct (run_offline before s Ha ltac:(lia)) as [Ha' Hmax'].
  { intros e' He'. apply Hoff, in_app_iff. now left. }
  rewrite run_app. cbn [run fold_left step]. fold (run before s).
  assert (He : isConnected e = false)
    by (apply Hoff, in_app_iff; right; now left).
  destruct (loop_offline e _ Ha' Hmax' He) as (? & ? & _). now split.
Qed.

(** What lines 210-225 do to the admin session: nothing, or re-arm it. *)
Lemma arbitrate_admin e s :
  (_adminEnabled (loop_arbitrate e s) = _adminEnabled s
   /\ _adminTimeoutCounter (loop_arbitrate e s) = _adminTimeoutCounter s
   /\ _adminTimeoutCounterMax (loop_arbitrate e s)
      = _adminTimeoutCounterMax s)
  \/ (_adminEnabled (loop_arbitrate e s) = true
      /\ _adminTimeoutCounter (loop_arbitrate e s) = 0
      /\ _adminTimeoutCounterMax (loop_arbitrate e s)
         = u32 (WiFi_ApTimeout (Configuration e) * 60)).
Proof.
  arbitrate_cases s; first [left; repeat split; reflexivity
                           |right; repeat split; reflexivity].
Qed.

(** An armed session with a zero timeout and a zero configured timeout
    stays as it is through one invocation. *)
Lemma loop_zero_timeout e s :
  _adminEnabled s = true ->
  _adminTimeoutCounter s = 0 ->
  _adminTimeoutCounterMax s = 0 ->
  WiFi_ApTimeout (Configuration e) = 0 ->
  _adminEnabled (loop e s) = true
  /\ _adminTimeoutCounter (loop e s) = 0
  /\ _adminTimeoutCounterMax (loop e s) = 0.
Proof.
  intros Ha Hc Hmax Hcfg. unfold loop. io_fields.
  assert (H1 : _adminEnabled (loop_arbitrate e s) = true
               /\ _adminTimeoutCounter (loop_arbitrate e s) = 0
               /\ _adminTimeoutCounterMax (loop_arbitrate e s) = 0).
  { destruct (arbitrate_admin e s) as [(-> & -> & ->)|(-> & -> & ->)].
    - auto.
    - rewrite Hcfg. repeat split. }
  destruct H1 as (Ha1 & Hc1 & Hmax1).
  set (s1 := loop_arbitrate e s) in *.
  destruct (timers_only_counters e s1) as (_ & _ & Ha2 & _ & Hmax2 & _).
  pose proof (timers_adminTimeoutCounter e s1) as Hc2.
  rewrite Hmax1 in Hc2. cbn [Z.gtb Z.compare] in Hc2.
  rewrite andb_false_r, Hc1 in Hc2.
  rewrite Ha1 in Ha2. rewrite Hmax1 in Hmax2.
  set (s2 := loop_timers e s1) in *.
  destruct (admin_keeps_link e s2) as (_ & _ & -> & _).
  destruct (isConnected e) eqn:Hconn.
  - destruct (admin_online e s2 Ha2 Hconn) as [-> ->].
    rewrite Hc2, Hmax2. repeat split.
  - destruct (admin_offline e s2 Ha2 ltac:(lia) Hconn) as [-> ->].
    now rewrite Hmax2.
Qed.

(** C9. With a zero admin-AP timeout (configured, and hence in the armed
    session), an enabled admin session is never disabled, whatever the
    sequence of invocations of [loop], raw events and connectivity: after
    every such sequence [_adminEnabled] is still true and
    [_adminTimeoutCounter] is still 0, so it was never counted up and the
    comparison of line 245 never held.  [enableAdminMode] arms exactly such
    a session. *)
Theorem zero_timeout_never_disables
    (steps : list Step) (e0 : Env) (s : State) :
  _adminEnabled s = true ->
  _adminTimeoutCounter s = 0 ->
  _adminTimeoutCounterMax s = 0 ->
  (forall e, In (Tick e) steps -> WiFi_ApTimeout (Configuration e) = 0) ->
  (_adminEnabled (run steps s) = true
   /\ _adminTimeoutCounter (run steps s) = 0
   /\ _adminTimeoutCounterMax (run steps s) = 0)
  /\ (WiFi_ApTimeout (Configuration e0) = 0 ->
      _adminEnabled (enableAdminMode e0 s) = true
      /\ _adminTimeoutCounter (enableAdminMode e0 s) = 0
      /\ _adminTimeoutCounterMax (enableAdminMode e0 s) = 0).
Proof.
  intros Ha Hc Hmax Hcfg. split.
  - revert s Ha Hc Hmax.
    induction steps as [|st steps IH]; intros s Ha Hc Hmax; [auto|].
    cbn [run fold_left]. fold (run steps (step st s)).
    assert (Hcfg' : forall e, In (Tick e) steps ->
                              WiFi_ApTimeout (Configuration e) = 0)
      by (intros e He; apply Hcfg; now right).
    destruct st as [e|ev]; cbn [step].
    + destruct (loop_zero_timeout e s Ha Hc Hmax
                  (Hcfg e (or_introl eq_refl))) as (? & ? & ?).
      now apply IH.
    + destruct (NetworkEvent_admin ev s) as (Ha' & Hc' & Hmax').
      apply IH; [exact Hcfg'|congruence..].
  - intros H0. unfold enableAdminMode. io_fields. rewrite H0.
    repeat split.
Qed.

(** One invocation with connectivity, when no interface switch is due. *)
Lemma loop_online e s :
  settled s ->
  isConnected e = true ->
  _adminEnabled (loop e s)
  = _adminEnabled s
    && negb (_adminTimeoutCounter (loop_timers e s)
             >? _adminTimeoutCounterMax s)
  /\ _adminTimeoutCounter (loop e s) = _adminTimeoutCounter (loop_timers e s)
  /\ _adminTimeoutCounterMax (loop e s) = _adminTimeoutCounterMax s.
Proof.
  intros Hs Hc. unfold loop. io_fields. rewrite (arbitrate_settled e s Hs).
  destruct (timers_only_counters e s) as (_ & _ & Ha2 & _ & Hmax2 & _).
  set (s2 := loop_timers e s) in *.
  destruct (admin_keeps_link e s2) as (_ & _ & -> & _).
  rewrite Hmax2.
  destruct (_adminEnabled s) eqn:Ha.
  - destruct (admin_online e s2 Ha2 Hc) as [-> ->].
    rewrite Hmax2. repeat split.
  - rewrite (admin_disabled e s2 Ha2). repeat split. exact Ha2.
Qed.

Lemma seconds_counted_nonneg envs : forall s, 0 <= seconds_counted envs s.
Proof.
  induction envs as [|e envs IH]; intros s; cbn [seconds_counted]; [lia|].
  specialize (IH (loop e s)). destruct (second_elapsed e s); lia.
Qed.

Lemma enabled_history_head envs s :
  exists rest, enabled_history envs s = _adminEnabled s :: rest.
Proof. destruct envs; eexists; reflexivity. Qed.

(** Once disabled, the session stays disabled while no switch is due. *)
Lemma ticks_stay_disabled envs : forall s,
  settled s ->
  _adminEnabled s = false ->
  _adminEnabled (ticks envs s) = false
  /\ falling_edges (enabled_history envs s) = 0%nat
  /\ rising_edges (enabled_history envs s) = 0%nat.
Proof.
  induction envs as [|e envs IH]; intros s Hs Ha.
  - cbn. rewrite Ha. auto.
  - cbn [ticks fold_left enabled_history]. fold (ticks envs (loop e s)).
    assert (Ha' : _adminEnabled (loop e s) = false).
    { unfold loop. io_fields. rewrite (arbitrate_settled e s Hs).
      destruct (timers_only_counters e s) as (_ & _ & Ha2 & _).
      rewrite admin_disabled; congruence. }
    destruct (IH (loop e s) (loop_settles e s) Ha') as (H1 & H2 & H3).
    split; [exact H1|].
    destruct (enabled_history_head envs (loop e s)) as [rest Hrest].
    rewrite Hrest in *. rewrite Ha, Ha' in *.
    cbn [falling_edges rising_edges] in *. auto.
Qed.

(** The session under continuous connectivity: it is enabled exactly while
    the counted seconds do not exceed the maximum. *)
Lemma ticks_online envs : forall s,
  settled s ->
  _adminEnabled s = true ->
  0 <= _adminTimeoutCounter s <= _adminTimeoutCounterMax s ->
  0 < _adminTimeoutCounterMax s < 2 ^ 32 - 1 ->
  Forall (fun e => isConnected e = true) envs ->
  _adminEnabled (ticks envs s)
  = (_adminTimeoutCounter s + seconds_counted envs s
     <=? _adminTimeoutCounterMax s)
  /\ falling_edges (enabled_history envs s)
     = (if _adminTimeoutCounter s + seconds_counted envs s
           <=? _adminTimeoutCounterMax s
        then 0%nat else 1%nat)
  /\ rising_edges (enabled_history envs s) = 0%nat.
Proof.
  induction envs as [|e envs IH]; intros s Hs Ha Hc Hmax Hall.
  - cbn. rewrite Ha, Z.add_0_r.
    destruct (Z.leb_spec (_adminTimeoutCounter s) (_adminTimeoutCounterMax s));
      [auto|lia].
  - apply Forall_cons in Hall as [He Hall].
    cbn [ticks fold_left enabled_history seconds_counted].
    fold (ticks envs (loop e s)).
    destruct (loop_online e s Hs He) as (Ha' & Hc' & Hmax').
    rewrite timers_adminTimeoutCounter, Ha in Hc', Ha'.
    assert (Hgt : (_adminTimeoutCounterMax s >? 0) = true) by lia.
    rewrite Hgt, !andb_true_r in Hc', Ha'. cbn [andb] in Ha'.
    pose proof (seconds_counted_nonneg envs (loop e s)) as Hnn.
    destruct (enabled_history_head envs (loop e s)) as [rest Hrest].
    destruct (second_elapsed e s).
    + rewrite u32_small in Hc', Ha' by lia.
      destruct (Z.gtb_spec (_adminTimeoutCounter s + 1)
                  (_adminTimeoutCounterMax s)) as [Hover|Hok];
        cbn [negb] in Ha'.
      * destruct (ticks_stay_disabled envs (loop e s) (loop_settles e s) Ha')
          as (H1 & H2 & H3).
        rewrite H1. rewrite Hrest in *. rewrite Ha, Ha' in *.
        cbn [falling_edges rising_edges] in *. rewrite H2, H3.
        destruct (Z.leb_spec
                    (_adminTimeoutCounter s
                     + (1 + seconds_counted envs (loop e s)))
                    (_adminTimeoutCounterMax s)); [lia|auto].
      * destruct (IH (loop e s) (loop_settles e s) Ha'
                    ltac:(rewrite Hc', Hmax'; lia)
                    ltac:(rewrite Hmax'; lia) Hall) as (H1 & H2 & H3).
        rewrite Hc', Hmax' in H1, H2.
        replace (_adminTimeoutCounter s
                 + (1 + seconds_counted envs (loop e s)))
          with (_adminTimeoutCounter s + 1 + seconds_counted envs (loop e s))
          by lia.
        rewrite H1. split; [reflexivity|].
        rewrite Hrest in *. rewrite Ha, Ha' in *.
        cbn [falling_edges rising_edges] in *. auto.
    + destruct (Z.gtb_spec (_adminTimeoutCounter s)
                  (_adminTimeoutCounterMax s)) as [Hover|Hok];
        [lia|]. cbn [negb] in Ha'.
      destruct (IH (loop e s) (loop_settles e s) Ha'
                  ltac:(rewrite Hc', Hmax'; lia)
                  ltac:(rewrite Hmax'; lia) Hall) as (H1 & H2 & H3).
      rewrite Hc', Hmax' in H1, H2. rewrite Z.add_0_l.
      rewrite H1. split; [reflexivity|].
      rewrite Hrest in *. rewrite Ha, Ha' in *.
      cbn [falling_edges rising_edges] in *. auto.
Qed.

Lemma loop_rearms e s :
  _adminEnabled s = false ->
  _adminEnabled (loop e s) = true ->
  _ethConnected s = false /\ _networkMode s <> WiFi.
Proof.
  intros Ha Ha'. apply (arbitrate_rearms e s Ha).
  unfold loop in Ha'. revert Ha'. io_fields.
  destruct (timers_only_counters e (loop_arbitrate e s))
    as (_ & _ & Ha2 & _).
  destruct (_adminEnabled (loop_arbitrate e s)) eqn:H1; [reflexivity|].
  rewrite admin_disabled by congruence. congruence.
Qed.

(** Whatever the configured minutes, the timeout [enableAdminMode] stores
    is a multiple of 4 below [2^32], so the counter can pass it. *)
Lemma enableAdminMode_arms e s :
  _adminEnabled (enableAdminMode e s) = true
  /\ _adminTimeoutCounter (enableAdminMode e s) = 0
  /\ 0 <= _adminTimeoutCounterMax (enableAdminMode e s) < 2 ^ 32 - 1.
Proof.
  unfold enableAdminMode. bus_fields. split; [reflexivity|].
  split; [reflexivity|].
  unfold u32.
  replace (WiFi_ApTimeout (Configuration e) * 60)
    with (4 * (WiFi_ApTimeout (Configuration e) * 15)) by lia.
  change (2 ^ 32) with (4 * 2 ^ 30).
  rewrite Z.mul_mod_distr_l by lia.
  pose proof (Z.mod_pos_bound (WiFi_ApTimeout (Configuration e) * 15)
                (2 ^ 30) ltac:(lia)).
  lia.
Qed.

(** C5, as the code has it. Starting from an enabled admin session with
    [_adminTimeoutCounter] 0 and a timeout greater than zero, under
    continuous connectivity and with no interface switch due, the session
    is enabled exactly as long as the counted seconds do not exceed the
    timeout: it is still enabled after [_adminTimeoutCounterMax] counted
    seconds and is disabled by the invocation that counts second
    [_adminTimeoutCounterMax + 1].  [_adminEnabled] goes from true to false
    at most once, exactly once when that many seconds were counted, and
    never back: it only becomes true again in the branch of [loop] that
    calls [enableAdminMode] (wired link down, mode not WiFi), and no raw
    event changes it.  Every session [enableAdminMode] arms starts like
    this, with a timeout below [2^32 - 1]. *)
Theorem admin_session_expires_past_timeout (envs : list Env) (s : State) :
  settled s ->
  _adminEnabled s = true ->
  _adminTimeoutCounter s = 0 ->
  0 < _adminTimeoutCounterMax s < 2 ^ 32 - 1 ->
  Forall (fun e => isConnected e = true) envs ->
  _adminEnabled (ticks envs s)
  = (seconds_counted envs s <=? _adminTimeoutCounterMax s)
  /\ falling_edges (enabled_history envs s)
     = (if seconds_counted envs s <=? _adminTimeoutCounterMax s
        then 0%nat else 1%nat)
  /\ rising_edges (enabled_history envs s) = 0%nat
  /\ (forall e' s',
        _adminEnabled s' = false -> _adminEnabled (loop e' s') = true ->
        _ethConnected s' = false /\ _networkMode s' <> WiFi)
  /\ (forall ev s', _adminEnabled (NetworkEvent ev s') = _adminEnabled s')
  /\ (forall e' s',
        _adminEnabled (enableAdminMode e' s') = true
        /\ _adminTimeoutCounter (enableAdminMode e' s') = 0
        /\ 0 <= _adminTimeoutCounterMax (enableAdminMode e' s') < 2 ^ 32 - 1).
Proof.
  intros Hs Ha Hc Hmax Hall.
  destruct (ticks_online envs s Hs Ha ltac:(lia) Hmax Hall) as (H1 & H2 & H3).
  rewrite Hc, Z.add_0_l in H1, H2.
  split; [exact H1|]. split; [exact H2|]. split; [exact H3|].
  split; [|split].
  - intros e' s'. apply loop_rearms.
  - intros ev s'. apply NetworkEvent_admin.
  - intros e' s'. apply enableAdminMode_arms.
Qed.

(** ** The reconnect back-off across invocations *)

Lemma admin_on_wifi_settled s : admin_on_wifi s -> settled s.
Proof. intros (He & Hm & _). unfold settled. now rewrite He. Qed.

Lemma loop_keeps_admin_on_wifi e s :
  admin_on_wifi s -> isConnected e = false -> admin_on_wifi (loop e s).
Proof.
  intros (He & Hm & Ha & Hmax) Hc.
  destruct (loop_offline e s Ha Hmax Hc) as (Ha' & _ & Hmax').
  unfold admin_on_wifi.
  rewrite loop_ethConnected, loop_networkMode, He. auto.
Qed.

Ltac loop_backoff_setup e s Hinv :=
  unfold loop; rewrite (arbitrate_settled e s (admin_on_wifi_settled s Hinv));
  destruct Hinv as (?He & ?Hm & ?Ha & ?Hmax);
  destruct (timers_only_counters e s)
    as (?Hm2 & ?He2 & ?Ha2 & ?Hf2 & ?Hmax2 & _ & ?Hcalls2);
  pose proof (radio_calls_loop_timers e s) as ?Hr2.

Lemma loop_backoff_quiet e s :
  admin_on_wifi s ->
  isConnected e = false ->
  (_connectTimeoutTimer (loop_timers e s) >? WIFI_RECONNECT_TIMEOUT)
    && negb (_forceDisconnection s) = false ->
  (_connectRedoTimer (loop_timers e s) >? WIFI_RECONNECT_REDO_TIMEOUT)
    && _forceDisconnection s = false ->
  _forceDisconnection (loop e s) = _forceDisconnection s
  /\ _connectTimeoutTimer (loop e s) = _connectTimeoutTimer (loop_timers e s)
  /\ _connectRedoTimer (loop e s) = _connectRedoTimer (loop_timers e s)
  /\ radio_calls (loop e s) = radio_calls s.
Proof.
  intros Hinv Hc Henter Hleave.
  loop_backoff_setup e s Hinv.
  rewrite radio_calls_handleMDNS, radio_calls_loop_dns. io_fields.
  rewrite backoff_quiet; try congruence.
  io_fields. radio_simpl. auto.
Qed.

Lemma loop_backoff_suspends e s :
  admin_on_wifi s ->
  0 <= WIFI_RECONNECT_REDO_TIMEOUT ->
  isConnected e = false ->
  _connectTimeoutTimer (loop_timers e s) > WIFI_RECONNECT_TIMEOUT ->
  _forceDisconnection s = false ->
  _forceDisconnection (loop e s) = true
  /\ _connectTimeoutTimer (loop e s) = _connectTimeoutTimer (loop_timers e s)
  /\ _connectRedoTimer (loop e s) = 0
  /\ radio_calls (loop e s) = radio_calls s ++ [WiFi_mode WIFI_AP].
Proof.
  intros Hinv HR Hc Ht Hf.
  loop_backoff_setup e s Hinv.
  rewrite radio_calls_handleMDNS, radio_calls_loop_dns. io_fields.
  rewrite backoff_suspends; try congruence.
  io_fields. radio_simpl. rewrite Hr2. auto.
Qed.

Lemma loop_backoff_resumes e s :
  admin_on_wifi s ->
  isConnected e = false ->
  _connectRedoTimer (loop_timers e s) > WIFI_RECONNECT_REDO_TIMEOUT ->
  _forceDisconnection s = true ->
  _forceDisconnection (loop e s) = false
  /\ _connectTimeoutTimer (loop e s) = 0
  /\ radio_calls (loop e s)
     = radio_calls s
       ++ [WiFi_mode WIFI_AP_STA; WiFi_mode WIFI_MODE_APSTA;
           WiFi_mode WIFI_MODE_STA; WiFi_mode WIFI_AP_STA]
       ++ station_begin e.
Proof.
  intros Hinv Hc Hr Hf.
  loop_backoff_setup e s Hinv.
  rewrite radio_calls_handleMDNS, radio_calls_loop_dns. io_fields.
  rewrite backoff_resumes; try congruence.
  io_fields. radio_simpl.
  rewrite radio_calls_applyConfig by (io_fields; congruence).
  radio_simpl. rewrite Hr2, <- !app_assoc. auto.
Qed.

(** While the station search is on and the timer has not passed the search
    timeout, nothing happens to the radio. *)
Lemma ticks_searching envs : forall s,
  admin_on_wifi s ->
  WIFI_RECONNECT_TIMEOUT < 2 ^ 32 - 1 ->
  _forceDisconnection s = false ->
  0 <= _connectTimeoutTimer s ->
  _connectTimeoutTimer s + seconds_counted envs s <= WIFI_RECONNECT_TIMEOUT ->
  Forall (fun e => isConnected e = false) envs ->
  admin_on_wifi (ticks envs s)
  /\ _forceDisconnection (ticks envs s) = false
  /\ _connectTimeoutTimer (ticks envs s)
     = _connectTimeoutTimer s + seconds_counted envs s
  /\ radio_calls (ticks envs s) = radio_calls s.
Proof.
  induction envs as [|e envs IH]; intros s Hinv HT Hf Ht Hsum Hall.
  - cbn. rewrite Z.add_0_r. auto.
  - apply Forall_cons in Hall as [He Hall].
    cbn [ticks fold_left seconds_counted] in *. fold (ticks envs (loop e s)).
    pose proof (seconds_counted_nonneg envs (loop e s)) as Hnn.
    pose proof (timers_connectTimeoutTimer e s) as Ht2.
    assert (Ht2' : _connectTimeoutTimer (loop_timers e s)
                   = _connectTimeoutTimer s
                     + (if second_elapsed e s then 1 else 0)).
    { rewrite Ht2. destruct (second_elapsed e s); [|lia].
      apply u32_small. lia. }
    destruct (loop_backoff_quiet e s Hinv He) as (Hf' & Ht' & _ & Hr').
    { rewrite Ht2'. apply andb_false_iff. left.
      destruct (second_elapsed e s); lia. }
    { rewrite Hf. apply andb_false_r. }
    destruct (IH (loop e s)) as (H1 & H2 & H3 & H4); try assumption.
    + now apply loop_keeps_admin_on_wifi.
    + congruence.
    + rewrite Ht', Ht2'. destruct (second_elapsed e s); lia.
    + rewrite Ht', Ht2'. lia.
    + split; [exact H1|]. split; [exact H2|].
      split; [rewrite H3, Ht', Ht2'; lia|congruence].
Qed.

(** While the station search is suspended and the redo timer has not passed
    the redo timeout, nothing happens to the radio either. *)
Lemma ticks_suspended envs : forall s,
  admin_on_wifi s ->
  WIFI_RECONNECT_REDO_TIMEOUT < 2 ^ 32 - 1 ->
  _forceDisconnection s = true ->
  0 <= _connectRedoTimer s ->
  _connectRedoTimer s + seconds_counted envs s
    <= WIFI_RECONNECT_REDO_TIMEOUT ->
  Forall (fun e => isConnected e = false) envs ->
  admin_on_wifi (ticks envs s)
  /\ _forceDisconnection (ticks envs s) = true
  /\ _connectRedoTimer (ticks envs s)
     = _connectRedoTimer s + seconds_counted envs s
  /\ radio_calls (ticks envs s) = radio_calls s.
Proof.
  induction envs as [|e envs IH]; intros s Hinv HR Hf Hr Hsum Hall.
  - cbn. rewrite Z.add_0_r. auto.
  - apply Forall_cons in Hall as [He Hall].
    cbn [ticks fold_left seconds_counted] in *. fold (ticks envs (loop e s)).
    pose proof (seconds_counted_nonneg envs (loop e s)) as Hnn.
    pose proof (timers_connectRedoTimer e s) as Hr2.
    assert (Hr2' : _connectRedoTimer (loop_timers e s)
                   = _connectRedoTimer s
                     + (if second_elapsed e s then 1 else 0)).
    { rewrite Hr2. destruct (second_elapsed e s); [|lia].
      apply u32_small. lia. }
    destruct (loop_backoff_quiet e s Hinv He) as (Hf' & _ & Hr' & Hc').
    { rewrite Hf. apply andb_false_r. }
    { rewrite Hr2'. apply andb_false_iff. left.
      destruct (second_elapsed e s); lia. }
    destruct (IH (loop e s)) as (H1 & H2 & H3 & H4); try assumption.
    + now apply loop_keeps_admin_on_wifi.
    + congruence.
    + rewrite Hr', Hr2'. destruct (second_elapsed e s); lia.
    + rewrite Hr', Hr2'. lia.
    + split; [exact H1|]. split; [exact H2|].
      split; [rewrite H3, Hr', Hr2'; lia|congruence].
Qed.

Lemma last_WiFi_mode_app l1 l2 :
  last_WiFi_mode (l1 ++ l2)
  = match last_WiFi_mode l2 with
    | Some m => Some m
    | None => last_WiFi_mode l1
    end.
Proof.
  induction l1 as [|c l1 IH]; cbn [app last_WiFi_mode].
  - now destruct (last_WiFi_mode l2).
  - rewrite IH. now destruct (last_WiFi_mode l2).
Qed.

Lemma last_WiFi_mode_radio log :
  last_WiFi_mode (List.filter is_radio_call log) = last_WiFi_mode log.
Proof.
  induction log as [|c log IH]; [reflexivity|].
  cbn [List.filter last_WiFi_mode].
  destruct c; cbn [is_radio_call last_WiFi_mode]; rewrite ?IH;
    destruct (last_WiFi_mode log); reflexivity.
Qed.

Lemma last_WiFi_mode_station_begin e : last_WiFi_mode (station_begin e) = None.
Proof.
  unfold station_begin.
  destruct (String.eqb _ _); [reflexivity|].
  destruct (negb _ || negb _); reflexivity.
Qed.

(** With the flag set and the redo timer within the redo timeout, the
    search timer just keeps counting. *)
Lemma ticks_flag_set_search_timer envs : forall s,
  admin_on_wifi s ->
  WIFI_RECONNECT_REDO_TIMEOUT < 2 ^ 32 - 1 ->
  _forceDisconnection s = true ->
  0 <= _connectRedoTimer s ->
  _connectRedoTimer s + seconds_counted envs s
    <= WIFI_RECONNECT_REDO_TIMEOUT ->
  0 <= _connectTimeoutTimer s ->
  _connectTimeoutTimer s + seconds_counted envs s < 2 ^ 32 ->
  Forall (fun e => isConnected e = false) envs ->
  _connectTimeoutTimer (ticks envs s)
  = _connectTimeoutTimer s + seconds_counted envs s.
Proof.
  induction envs as [|e envs IH]; intros s Hinv HR Hf Hr Hsum Ht Htsum Hall.
  - cbn. now rewrite Z.add_0_r.
  - apply Forall_cons in Hall as [He Hall].
    cbn [ticks fold_left seconds_counted] in *. fold (ticks envs (loop e s)).
    pose proof (seconds_counted_nonneg envs (loop e s)) as Hnn.
    assert (Hr2 : _connectRedoTimer (loop_timers e s)
                  = _connectRedoTimer s
                    + (if second_elapsed e s then 1 else 0)).
    { rewrite timers_connectRedoTimer. destruct (second_elapsed e s); [|lia].
      apply u32_small. lia. }
    assert (Ht2 : _connectTimeoutTimer (loop_timers e s)
                  = _connectTimeoutTimer s
                    + (if second_elapsed e s then 1 else 0)).
    { rewrite timers_connectTimeoutTimer.
      destruct (second_elapsed e s); [|lia]. apply u32_small. lia. }
    destruct (loop_backoff_quiet e s Hinv He) as (Hf' & Ht' & Hr' & _).
    { rewrite Hf. apply andb_false_r. }
    { rewrite Hr2. apply andb_false_iff. left.
      destruct (second_elapsed e s); lia. }
    rewrite IH; try assumption.
    + rewrite Ht', Ht2. lia.
    + now apply loop_keeps_admin_on_wifi.
    + congruence.
    + rewrite Hr', Hr2. destruct (second_elapsed e s); lia.
    + rewrite Hr', Hr2. lia.
    + rewrite Ht', Ht2. destruct (second_elapsed e s); lia.
    + rewrite Ht', Ht2. lia.
Qed.

(** Where the flag is left alone. *)
Lemma arbitrate_forceDisconnection e s :
  _forceDisconnection (loop_arbitrate e s) = _forceDisconnection s.
Proof. arbitrate_cases s; reflexivity. Qed.

Lemma NetworkEvent_forceDisconnection ev s :
  _forceDisconnection (NetworkEvent ev s) = _forceDisconnection s.
Proof.
  destruct ev; unfold NetworkEvent; cbv zeta; split_ifs; bus_fields;
    reflexivity.
Qed.

Lemma admin_keeps_set_flag e s :
  _forceDisconnection s = true ->
  isConnected e = true
  \/ _connectRedoTimer s <= WIFI_RECONNECT_REDO_TIMEOUT ->
  _forceDisconnection (loop_admin e s) = true.
Proof.
  intros Hf Hor. unfold loop_admin.
  destruct (_adminEnabled s); [|exact Hf]. cbv zeta.
  set (sa := if negb (isConnected e) then set_adminTimeoutCounter 0 s
             else s).
  assert (Ha : _forceDisconnection sa = true
               /\ _connectRedoTimer sa = _connectRedoTimer s)
    by (unfold sa; destruct (negb _); split; assumption || reflexivity).
  clearbody sa. destruct Ha as [Hfa Hra].
  set (sb := if _adminTimeoutCounter sa >? _adminTimeoutCounterMax sa
             then setupMode (set_adminEnabled false sa) else sa).
  assert (Hb : _forceDisconnection sb = true
               /\ _connectRedoTimer sb = _connectRedoTimer s)
    by (unfold sb; destruct (_ >? _); bus_fields; split; assumption).
  clearbody sb. destruct Hb as [Hfb Hrb].
  destruct (isConnected e).
  - member_simpl. exact Hfb.
  - destruct Hor as [Hc|Hr]; [discriminate|].
    rewrite Hfb. cbn [negb]. rewrite andb_false_r.
    assert (Hle : (_connectRedoTimer sb >? WIFI_RECONNECT_REDO_TIMEOUT)
                  = false) by lia.
    rewrite Hle. exact Hfb.
Qed.

(** C6, where the code falls short of it.  The search is suspended only
    while [_forceDisconnection] is clear (line 257), and the flag is cleared
    nowhere but where the search is resumed (line 268): connectivity resets
    the two timers and leaves the flag (lines 253-255), and neither a raw
    event nor the switch of interface (lines 210-225) nor [enableAdminMode]
    touches it.
    - A set flag survives every raw event, every invocation of [loop] with
      connectivity, and every invocation at which the redo timer, as
      counted there, is within the redo timeout; in any mode, the admin
      session enabled or not.
    - A set flag blocks the suspension.  With the admin session enabled,
      WiFi authoritative and the flag set, over any invocations of [loop]
      without connectivity during which the redo timer stays within the
      redo timeout (timers and timeout in the range of [uint32_t], no
      wrap-around), no radio call is made, the radio keeps the mode it has
      (AP+station after a fail-over, the station searching) and the flag
      stays set, while the search timer counts every second, however far
      past the search timeout. *)
Theorem stale_suspension_flag_blocks_backoff (envs : list Env) (s : State) :
  (forall st s0,
     _forceDisconnection s0 = true ->
     match st with
     | Raw _ => True
     | Tick e =>
         isConnected e = true
         \/ _connectRedoTimer (loop_timers e (loop_arbitrate e s0))
            <= WIFI_RECONNECT_REDO_TIMEOUT
     end ->
     _forceDisconnection (step st s0) = true)
  /\ (admin_on_wifi s ->
      _forceDisconnection s = true ->
      Forall (fun e => isConnected e = false) envs ->
      WIFI_RECONNECT_REDO_TIMEOUT < 2 ^ 32 - 1 ->
      0 <= _connectRedoTimer s ->
      _connectRedoTimer s + seconds_counted envs s
        <= WIFI_RECONNECT_REDO_TIMEOUT ->
      0 <= _connectTimeoutTimer s ->
      _connectTimeoutTimer s + seconds_counted envs s < 2 ^ 32 ->
      admin_on_wifi (ticks envs s)
      /\ _connectTimeoutTimer (ticks envs s)
         = _connectTimeoutTimer s + seconds_counted envs s
      /\ radio_calls (ticks envs s) = radio_calls s
      /\ last_WiFi_mode (calls (ticks envs s)) = last_WiFi_mode (calls s)
      /\ _forceDisconnection (ticks envs s) = true).
Proof.
  split.
  - intros [e|ev] s0 Hf0 Hst; cbn [step].
    + unfold loop. io_fields. apply admin_keeps_set_flag; [|exact Hst].
      destruct (timers_only_counters e (loop_arbitrate e s0))
        as (_ & _ & _ & -> & _).
      now rewrite arbitrate_forceDisconnection.
    + now rewrite NetworkEvent_forceDisconnection.
  - intros Hinv Hf Hall HR Hr Hsum Ht Htsum.
    destruct (ticks_suspended envs s Hinv HR Hf Hr Hsum Hall)
      as (Hinv' & Hf' & _ & Hr').
    split; [exact Hinv'|].
    split; [|split; [exact Hr'|split; [|exact Hf']]].
    + now apply ticks_flag_set_search_timer.
    + rewrite <- (last_WiFi_mode_radio (calls (ticks envs s))),
        <- (last_WiFi_mode_radio (calls s)).
      fold (radio_calls (ticks envs s)) (radio_calls s). now rewrite Hr'.
Qed.

(** ** Raw events, one by one *)

Lemma raise_entries_flags ev l : forall acc,
  _dnsServerStatus (fold_left (fun a en => raise_entry ev en a) l acc)
  = _dnsServerStatus acc
  /\ _lastMdnsEnabled (fold_left (fun a en => raise_entry ev en a) l acc)
     = _lastMdnsEnabled acc.
Proof.
  induction l as [|en l IH]; intros acc; [now split|].
  cbn [fold_left]. destruct (IH (raise_entry ev en acc)) as [-> ->].
  unfold raise_entry. destruct (cb en); [|now split].
  destruct (_ || _); now split.
Qed.

Lemma raiseEvent_flags ev s :
  _dnsServerStatus (raiseEvent ev s) = _dnsServerStatus s
  /\ _lastMdnsEnabled (raiseEvent ev s) = _lastMdnsEnabled s.
Proof. apply raise_entries_flags. Qed.

Lemma filter_callbacks_deliveries subs ev :
  List.filter is_callback (spec_deliveries subs ev) = spec_deliveries subs ev.
Proof.
  unfold spec_deliveries.
  induction (List.filter (spec_matches ev) subs) as [|sub l IH];
    [reflexivity|].
  cbn [map List.filter is_callback]. now rewrite IH.
Qed.

(** X1. [NetworkEvent] publishes a raw event of one interface only while
    that interface is authoritative.  For ETH start, stop, got-IP and
    disconnected, and for WiFi station connected, disconnected and got-IP:
    the callbacks run are those of the matching subscriptions for the
    corresponding lifecycle event when the mode is that interface's, and
    none otherwise.  Outside that mode (ETH disconnected apart, which still
    clears the link flag), and for any raw event the [switch] does not
    name, the object is left exactly as it was: no collaborator is called
    and no member changes. *)
Theorem NetworkEvent_gates_on_mode
    (ev : WiFiEvent_t) (m : network_mode) (lifecycle : network_event)
    (subs : list subscription) (s : State) :
  published_in ev = Some m ->
  normalized ev = Some lifecycle ->
  _cbEventList s = map entry_of subs ->
  List.filter is_callback (new_calls s (NetworkEvent ev s))
  = (if bool_decide (_networkMode s = m)
     then spec_deliveries subs lifecycle else [])
  /\ (_networkMode s <> m -> ev <> ARDUINO_EVENT_ETH_DISCONNECTED ->
      NetworkEvent ev s = s)
  /\ NetworkEvent ARDUINO_EVENT_OTHER s = s.
Proof.
  intros Hp Hn Hsubs. split; [|split; [|reflexivity]].
  - destruct ev; cbn [published_in normalized] in Hp, Hn;
      try discriminate; injection Hp as <-; injection Hn as <-;
      unfold NetworkEvent; cbv zeta; cbn [_networkMode set_ethConnected];
      destruct (bool_decide (_networkMode s = _));
      try (erewrite new_calls_app;
           [|rewrite (raiseEvent_calls subs)
               by (cbn [_cbEventList set_ethConnected emit]; exact Hsubs);
             cbn [calls set_ethConnected emit]; rewrite <- ?app_assoc;
             reflexivity]);
      try (erewrite new_calls_app;
           [|cbn [calls set_ethConnected]; symmetry; apply app_nil_r]);
      cbn [app List.filter is_callback];
      rewrite ?filter_callbacks_deliveries; reflexivity.
  - intros Hm Hev.
    destruct ev; cbn [published_in] in Hp; try discriminate;
      try congruence; injection Hp as <-; unfold NetworkEvent;
      rewrite bool_decide_eq_false_2 by exact Hm; reflexivity.
Qed.

(** X2. The two raw Ethernet link events are not symmetric.  Link-up sets
    [_ethConnected] and raises [NETWORK_CONNECTED] to the subscribers in
    every mode, WiFi and Undefined included.  Link-down clears
    [_ethConnected] in every mode but raises [NETWORK_DISCONNECTED] only
    when Ethernet is the authoritative mode; otherwise no callback runs. *)
Theorem ethernet_link_events (subs : list subscription) (s : State) :
  _cbEventList s = map entry_of subs ->
  (_ethConnected (NetworkEvent ARDUINO_EVENT_ETH_CONNECTED s) = true
   /\ new_calls s (NetworkEvent ARDUINO_EVENT_ETH_CONNECTED s)
      = spec_deliveries subs NETWORK_CONNECTED)
  /\ (_ethConnected (NetworkEvent ARDUINO_EVENT_ETH_DISCONNECTED s) = false
      /\ new_calls s (NetworkEvent ARDUINO_EVENT_ETH_DISCONNECTED s)
         = if bool_decide (_networkMode s = Ethernet)
           then spec_deliveries subs NETWORK_DISCONNECTED
           else []).
Proof.
  intros Hsubs. split; split.
  - now rewrite NetworkEvent_ethConnected.
  - apply new_calls_app. unfold NetworkEvent.
    now rewrite (raiseEvent_calls subs) by exact Hsubs.
  - now rewrite NetworkEvent_ethConnected.
  - apply new_calls_app. unfold NetworkEvent. cbv zeta.
    cbn [_networkMode set_ethConnected].
    destruct (bool_decide (_networkMode s = Ethernet)).
    + now rewrite (raiseEvent_calls subs) by exact Hsubs.
    + cbn. now rewrite app_nil_r.
Qed.

(** X3. When the WiFi station reports a disconnect while WiFi is
    authoritative, [NetworkEvent] first drops the station
    ([WiFi.disconnect(true, false)]), then starts a new connection attempt
    with the stored credentials ([WiFi.begin()] without arguments), and only
    then raises [NETWORK_DISCONNECTED] to the matching subscribers, in
    subscription order; no member changes. *)
Theorem wifi_disconnect_reconnects_first
    (subs : list subscription) (s : State) :
  _networkMode s = WiFi ->
  _cbEventList s = map entry_of subs ->
  new_calls s (NetworkEvent ARDUINO_EVENT_WIFI_STA_DISCONNECTED s)
  = [WiFi_disconnect true false; WiFi_begin]
    ++ spec_deliveries subs NETWORK_DISCONNECTED
  /\ only_io s (NetworkEvent ARDUINO_EVENT_WIFI_STA_DISCONNECTED s)
  /\ _dnsServerStatus (NetworkEvent ARDUINO_EVENT_WIFI_STA_DISCONNECTED s)
     = _dnsServerStatus s
  /\ _lastMdnsEnabled (NetworkEvent ARDUINO_EVENT_WIFI_STA_DISCONNECTED s)
     = _lastMdnsEnabled s.
Proof.
  intros Hm Hsubs. unfold NetworkEvent.
  rewrite bool_decide_eq_true_2 by exact Hm.
  split; [|split].
  - apply new_calls_app.
    rewrite (raiseEvent_calls subs) by exact Hsubs.
    cbn [calls emit]. now rewrite <- !app_assoc.
  - eapply only_io_trans; [|apply only_io_raiseEvent].
    eapply only_io_trans; apply only_io_emit.
  - destruct (raiseEvent_flags NETWORK_DISCONNECTED
                (emit WiFi_begin (emit (WiFi_disconnect true false) s)))
      as [-> ->].
    now split.
Qed.

Lemma NetworkEvent_flags ev s :
  _dnsServerStatus (NetworkEvent ev s) = _dnsServerStatus s
  /\ _lastMdnsEnabled (NetworkEvent ev s) = _lastMdnsEnabled s.
Proof.
  split; destruct ev; unfold NetworkEvent; cbv zeta;
    repeat match goal with
           | |- context [if ?b then _ else _] => destruct b
           end;
    rewrite ?(proj1 (raiseEvent_flags _ _)), ?(proj2 (raiseEvent_flags _ _));
    reflexivity.
Qed.

(** X4. Whatever the raw event, [NetworkEvent] performs no state-machine
    transition: the mode, the admin session, the back-off flag and timers,
    the clock stamp, the subscription list and the DNS and MDNS flags are as
    before; only the wired-link flag changes, and only on the two Ethernet
    link events; the log only grows. *)
Theorem NetworkEvent_only_sets_link_flag (ev : WiFiEvent_t) (s : State) :
  only_io (set_ethConnected (flag_after ev (_ethConnected s)) s)
    (NetworkEvent ev s)
  /\ _ethConnected (NetworkEvent ev s) = flag_after ev (_ethConnected s)
  /\ _dnsServerStatus (NetworkEvent ev s) = _dnsServerStatus s
  /\ _lastMdnsEnabled (NetworkEvent ev s) = _lastMdnsEnabled s
  /\ exists more, calls (NetworkEvent ev s) = calls s ++ more.
Proof.
  assert (Hio : only_io (set_ethConnected (flag_after ev (_ethConnected s)) s)
                  (NetworkEvent ev s)).
  { destruct ev; unfold NetworkEvent; cbv zeta; cbn [flag_after];
      cbn [_networkMode set_ethConnected];
      repeat match goal with
             | |- only_io _ (if ?b then _ else _) => destruct b
             end;
      try (eapply only_io_trans; [|apply only_io_raiseEvent]);
      try (eapply only_io_trans; [|apply only_io_emit]);
      try (eapply only_io_trans; [|apply only_io_emit]);
      unfold only_io; cbn; repeat split;
      exists []; now rewrite app_nil_r. }
  split; [exact Hio|]. split; [apply NetworkEvent_ethConnected|].
  split; [|split].
  - apply NetworkEvent_flags.
  - apply NetworkEvent_flags.
  - destruct Hio as (_ & _ & _ & _ & _ & _ & _ & _ & _ & _ & more & H).
    exists more. exact H.
Qed.

(** ** Switching the interface, call by call *)

Ltac log_norm :=
  cbn [calls emit set_networkMode set_ethConnected set_adminEnabled
       set_forceDisconnection set_adminTimeoutCounter
       set_adminTimeoutCounterMax set_connectTimeoutTimer
       set_connectRedoTimer set_lastTimerCall set_dnsServerStatus
       set_lastMdnsEnabled set_cbEventList
       _networkMode _ethConnected _adminEnabled _forceDisconnection
       _adminTimeoutCounter _adminTimeoutCounterMax _connectTimeoutTimer
       _connectRedoTimer _lastTimerCall _dnsServerStatus _lastMdnsEnabled
       _cbEventList];
  rewrite <- ?app_assoc; cbn [app].

(** X5. Choosing the interface is idempotent: once [loop] (or just its
    first block, lines 210-225) has run, running that block again, in any
    environment, changes nothing and calls nothing, and this stays so after
    any raw event other than the two Ethernet link events. *)
Theorem second_arbitration_does_nothing
    (e1 e2 : Env) (ev : WiFiEvent_t) (s : State) :
  loop_arbitrate e2 (loop_arbitrate e1 s) = loop_arbitrate e1 s
  /\ loop_arbitrate e2 (loop e1 s) = loop e1 s
  /\ (flag_after ev (_ethConnected (loop e1 s)) = _ethConnected (loop e1 s) ->
      loop_arbitrate e2 (NetworkEvent ev (loop e1 s))
      = NetworkEvent ev (loop e1 s)).
Proof.
  split; [apply arbitrate_settled, arbitrate_settles|].
  split; [apply arbitrate_settled, loop_settles|].
  intros Hflag. apply arbitrate_settled. unfold settled.
  rewrite NetworkEvent_networkMode, NetworkEvent_ethConnected.
  fold (flag_after ev (_ethConnected (loop e1 s))). rewrite Hflag.
  apply loop_settles.
Qed.

(** X6. When the wired link is up and Ethernet is not yet the mode, the
    first block of [loop] makes exactly three calls, in this order: radio
    off ([WiFi.mode(WIFI_MODE_NULL)]), address configuration of the
    Ethernet interface, hostname of the Ethernet interface.  It does not
    touch the admin session or the DNS flag: an enabled session stays
    enabled with its counter, and the captive DNS keeps being served. *)
Theorem switch_to_ethernet_calls (e : Env) (s : State) :
  _ethConnected s = true ->
  _networkMode s <> Ethernet ->
  new_calls s (loop_arbitrate e s)
  = [WiFi_mode WIFI_MODE_NULL; ETH_config (WiFi_Dhcp (Configuration e));
     ETH_setHostname (getHostname e)]
  /\ _networkMode (loop_arbitrate e s) = Ethernet
  /\ _adminEnabled (loop_arbitrate e s) = _adminEnabled s
  /\ _adminTimeoutCounter (loop_arbitrate e s) = _adminTimeoutCounter s
  /\ _adminTimeoutCounterMax (loop_arbitrate e s) = _adminTimeoutCounterMax s
  /\ _dnsServerStatus (loop_arbitrate e s) = _dnsServerStatus s.
Proof.
  intros He Hm. unfold loop_arbitrate. rewrite He.
  rewrite bool_decide_eq_false_2 by exact Hm. cbn [negb].
  unfold setHostname, setStaticIp. log_norm. simpl bool_decide. cbv iota.
  log_norm. split; [|repeat split].
  apply new_calls_app. log_norm. reflexivity.
Qed.

(** X7. When the wired link is down and WiFi is not yet the mode, the first
    block of [loop] arms the admin session (enabled, counter 0, timeout the
    configured minutes times 60 in [uint32_t]) and makes these calls, in
    this order: the access point and captive DNS are started, the hostname
    is set with the radio toggled through AP+station and station-only, the
    access point and captive DNS are started a second time, and, unless the
    configured SSID is empty, one station connection attempt and the WiFi
    address configuration follow. *)
Theorem switch_to_wifi_calls (e : Env) (s : State) :
  _ethConnected s = false ->
  _networkMode s <> WiFi ->
  new_calls s (loop_arbitrate e s)
  = [WiFi_mode WIFI_AP_STA; WiFi_softAPConfig; WiFi_softAP;
     DNS_setErrorReplyCode; DNS_start;
     WiFi_hostname (getHostname e);
     WiFi_mode WIFI_MODE_APSTA; WiFi_mode WIFI_MODE_STA;
     WiFi_mode WIFI_AP_STA; WiFi_softAPConfig; WiFi_softAP;
     DNS_setErrorReplyCode; DNS_start]
    ++ station_begin e
    ++ (if String.eqb (WiFi_Ssid (Configuration e)) "" then []
        else [WiFi_config (WiFi_Dhcp (Configuration e))])
  /\ _networkMode (loop_arbitrate e s) = WiFi
  /\ _adminEnabled (loop_arbitrate e s) = true
  /\ _adminTimeoutCounter (loop_arbitrate e s) = 0
  /\ _adminTimeoutCounterMax (loop_arbitrate e s)
     = u32 (WiFi_ApTimeout (Configuration e) * 60)
  /\ _dnsServerStatus (loop_arbitrate e s) = true.
Proof.
  intros He Hm. unfold loop_arbitrate. rewrite He.
  rewrite bool_decide_eq_false_2 by exact Hm. cbn [negb].
  unfold applyConfig, station_begin, setHostname, setStaticIp,
    enableAdminMode, setupMode.
  log_norm. simpl bool_decide. cbv iota. log_norm.
  destruct (String.eqb (WiFi_Ssid (Configuration e)) "").
  - split; [|repeat split]. apply new_calls_app. log_norm. reflexivity.
  - destruct (negb _ || negb _); log_norm; simpl bool_decide; cbv iota;
      log_norm; (split; [|repeat split]); apply new_calls_app; log_norm;
      reflexivity.
Qed.

(** ** The MDNS responder (lines 143-172) *)

(** X8. [handleMDNS] reconciles instead of restarting: when the configured
    MDNS flag equals the remembered one it calls nothing and changes
    nothing; otherwise it remembers the new flag and calls [MDNS.end],
    then, if MDNS is now enabled, [MDNS.begin] with the hostname and, only
    if that succeeded, the two services and the text record.  In
    particular a failed [MDNS.begin] is not retried: a further invocation
    with the same configured flag, whatever else the environment holds,
    does nothing. *)
Theorem handleMDNS_reconciles (e e' : Env) (s : State) :
  new_calls s (handleMDNS e s)
  = (if Bool.eqb (_lastMdnsEnabled s) (Mdns_Enabled (Configuration e))
     then [] else mdns_restart e)
  /\ _lastMdnsEnabled (handleMDNS e s) = Mdns_Enabled (Configuration e)
  /\ (Bool.eqb (_lastMdnsEnabled s) (Mdns_Enabled (Configuration e)) = true ->
      handleMDNS e s = s)
  /\ (Mdns_Enabled (Configuration e') = Mdns_Enabled (Configuration e) ->
      handleMDNS e' (handleMDNS e s) = handleMDNS e s).
Proof.
  assert (Hlast : _lastMdnsEnabled (handleMDNS e s)
                  = Mdns_Enabled (Configuration e)).
  { unfold handleMDNS.
    destruct (Bool.eqb _ _) eqn:Heq.
    - now apply Bool.eqb_prop in Heq.
    - cbv zeta. split_ifs; reflexivity. }
  split; [|split; [exact Hlast|split]].
  - apply new_calls_app. unfold handleMDNS, mdns_restart.
    destruct (Bool.eqb _ _); [now rewrite app_nil_r|].
    cbv zeta. split_ifs; log_norm; reflexivity.
  - intros Heq. unfold handleMDNS. now rewrite Heq.
  - intros Hcfg. unfold handleMDNS at 1.
    rewrite Hlast, Hcfg, Bool.eqb_reflx. reflexivity.
Qed.

(** ** The captive DNS flag *)

Lemma dns_follows_admin_setupMode s : dns_follows_admin (setupMode s).
Proof.
  unfold dns_follows_admin, setupMode.
  destruct (_adminEnabled s) eqn:Ha; cbv zeta; split_ifs; log_norm;
    congruence.
Qed.

Lemma dns_follows_admin_emit c s :
  dns_follows_admin s -> dns_follows_admin (emit c s).
Proof. exact (fun H => H). Qed.

Lemma dns_follows_admin_setStaticIp e s :
  dns_follows_admin s -> dns_follows_admin (setStaticIp e s).
Proof. intros H. unfold setStaticIp. split_ifs; exact H. Qed.

Lemma dns_follows_admin_setHostname e s :
  dns_follows_admin s -> dns_follows_admin (setHostname e s).
Proof.
  intros H. unfold setHostname.
  split_ifs; try exact H. apply dns_follows_admin_setupMode.
Qed.

Lemma dns_follows_admin_applyConfig e s :
  dns_follows_admin s -> dns_follows_admin (applyConfig e s).
Proof.
  intros H. unfold applyConfig. cbv zeta.
  split_ifs; try apply dns_follows_admin_setStaticIp;
    try apply dns_follows_admin_emit;
    now apply dns_follows_admin_setHostname.
Qed.

Lemma dns_follows_admin_arbitrate e s :
  dns_follows_admin s -> dns_follows_admin (loop_arbitrate e s).
Proof.
  intros H. unfold loop_arbitrate, enableAdminMode.
  split_ifs; try exact H;
    first [ apply dns_follows_admin_applyConfig, dns_follows_admin_setupMode
          | apply dns_follows_admin_setHostname,
              dns_follows_admin_setStaticIp; exact H ].
Qed.

Lemma dns_follows_admin_timers e s :
  dns_follows_admin s -> dns_follows_admin (loop_timers e s).
Proof. intros H. unfold loop_timers. cbv zeta. split_ifs; exact H. Qed.

Lemma dns_follows_admin_admin e s :
  dns_follows_admin s -> dns_follows_admin (loop_admin e s).
Proof.
  intros H. unfold loop_admin.
  destruct (_adminEnabled s) eqn:Ha; [|exact H].
  destruct (isConnected e); cbn [negb]; cbv zeta.
  - destruct (_adminTimeoutCounter s >? _adminTimeoutCounterMax s).
    + exact (dns_follows_admin_setupMode (set_adminEnabled false s)).
    + exact H.
  - assert (H0 : dns_follows_admin (set_adminTimeoutCounter 0 s)) by exact H.
    revert H0. generalize (set_adminTimeoutCounter 0 s) as s0. intros s0 H0.
    assert (H1 : dns_follows_admin
                   (if _adminTimeoutCounter s0 >? _adminTimeoutCounterMax s0
                    then setupMode (set_adminEnabled false s0) else s0)).
    { destruct (_ >? _); [apply dns_follows_admin_setupMode|exact H0]. }
    revert H1. generalize (if _adminTimeoutCounter s0
                                >? _adminTimeoutCounterMax s0
                           then setupMode (set_adminEnabled false s0)
                           else s0) as s1.
    intros s1 H1.
    assert (H2 : dns_follows_admin
                   (if (_connectTimeoutTimer s1 >? WIFI_RECONNECT_TIMEOUT)
                       && negb (_forceDisconnection s1)
                    then set_forceDisconnection true
                           (set_connectRedoTimer 0
                              (emit (WiFi_mode WIFI_AP) s1))
                    else s1)).
    { destruct (_ && _); exact H1. }
    revert H2. generalize (if (_connectTimeoutTimer s1
                               >? WIFI_RECONNECT_TIMEOUT)
                              && negb (_forceDisconnection s1)
                           then set_forceDisconnection true
                                  (set_connectRedoTimer 0
                                     (emit (WiFi_mode WIFI_AP) s1))
                           else s1) as s2.
    intros s2 H2. destruct (_ && _); [|exact H2].
    exact (dns_follows_admin_applyConfig e
             (emit (WiFi_mode WIFI_AP_STA) s2) H2).
Qed.

Lemma dns_follows_admin_loop e s :
  dns_follows_admin s -> dns_follows_admin (loop e s).
Proof.
  intros H. unfold loop.
  assert (H3 : dns_follows_admin
                 (loop_admin e (loop_timers e (loop_arbitrate e s))))
    by now apply dns_follows_admin_admin, dns_follows_admin_timers,
         dns_follows_admin_arbitrate.
  revert H3. generalize (loop_admin e (loop_timers e (loop_arbitrate e s))).
  intros s3 H3. unfold loop_dns, handleMDNS. cbv zeta.
  split_ifs; exact H3.
Qed.

Lemma dns_dispatches_emit c s :
  dns_dispatches (emit c s)
  = dns_dispatches s ++ (if is_dns_dispatch c then [c] else []).
Proof.
  unfold dns_dispatches, emit; simpl. rewrite List.filter_app. simpl.
  destruct (is_dns_dispatch c); reflexivity.
Qed.

Ltac dns_simpl :=
  repeat first
    [ rewrite dns_dispatches_emit; cbn [is_dns_dispatch]
    | rewrite app_nil_r
    | match goal with
      | |- context [dns_dispatches (?f ?v ?x)] =>
          progress change (dns_dispatches (f v x)) with (dns_dispatches x)
      end ].

Lemma dns_dispatches_setupMode s :
  dns_dispatches (setupMode s) = dns_dispatches s.
Proof. unfold setupMode. cbv zeta. split_ifs; dns_simpl; reflexivity. Qed.

Lemma dns_dispatches_setStaticIp e s :
  dns_dispatches (setStaticIp e s) = dns_dispatches s.
Proof. unfold setStaticIp. cbv zeta. split_ifs; dns_simpl; reflexivity. Qed.

Lemma dns_dispatches_setHostname e s :
  dns_dispatches (setHostname e s) = dns_dispatches s.
Proof.
  unfold setHostname. cbv zeta.
  split_ifs; rewrite ?dns_dispatches_setupMode; dns_simpl; reflexivity.
Qed.

Lemma dns_dispatches_applyConfig e s :
  dns_dispatches (applyConfig e s) = dns_dispatches s.
Proof.
  unfold applyConfig. cbv zeta.
  split_ifs; rewrite ?dns_dispatches_setStaticIp; dns_simpl;
    apply dns_dispatches_setHostname.
Qed.

Lemma dns_dispatches_arbitrate e s :
  dns_dispatches (loop_arbitrate e s) = dns_dispatches s.
Proof.
  unfold loop_arbitrate, enableAdminMode.
  split_ifs; rewrite ?dns_dispatches_applyConfig, ?dns_dispatches_setHostname,
               ?dns_dispatches_setStaticIp, ?dns_dispatches_setupMode;
    dns_simpl; reflexivity.
Qed.

Lemma dns_dispatches_timers e s :
  dns_dispatches (loop_timers e s) = dns_dispatches s.
Proof.
  unfold dns_dispatches.
  now destruct (timers_only_counters e s) as (_ & _ & _ & _ & _ & _ & ->).
Qed.

Lemma dns_dispatches_admin e s :
  dns_dispatches (loop_admin e s) = dns_dispatches s.
Proof.
  unfold loop_admin. cbv zeta.
  repeat match goal with
         | |- context [if ?b then _ else _] =>
             destruct b eqn:?;
             rewrite ?dns_dispatches_applyConfig, ?dns_dispatches_setupMode;
             dns_simpl
         end;
    reflexivity.
Qed.

Lemma dns_dispatches_handleMDNS e s :
  dns_dispatches (handleMDNS e s) = dns_dispatches s.
Proof. unfold handleMDNS. cbv zeta. split_ifs; dns_simpl; reflexivity. Qed.

(** X9. Once the DNS flag agrees with the admin flag (as after any
    [setupMode]; line 54 of [init] calls it), it agrees after every sequence of
    invocations of [loop] and raw events; and then each invocation of
    [loop] dispatches exactly one captive DNS request if the admin session
    is enabled when it returns, and none otherwise. *)
Theorem one_dns_dispatch_per_enabled_tick
    (steps : list Step) (e : Env) (s0 : State) :
  dns_follows_admin s0 ->
  dns_follows_admin (run steps s0)
  /\ dns_dispatches (loop e (run steps s0))
     = dns_dispatches (run steps s0)
       ++ (if _adminEnabled (loop e (run steps s0))
           then [DNS_processNextRequest] else [])
  /\ (forall s, dns_follows_admin (setupMode s)).
Proof.
  intros H0.
  assert (Hrun : dns_follows_admin (run steps s0)).
  { revert s0 H0. induction steps as [|st steps IH]; intros s0 H0;
      [exact H0|].
    cbn [run fold_left]. apply IH. destruct st as [e'|ev]; cbn [step].
    - now apply dns_follows_admin_loop.
    - unfold dns_follows_admin.
      destruct (NetworkEvent_flags ev s0) as (-> & _).
      destruct (NetworkEvent_admin ev s0) as (-> & _). exact H0. }
  split; [exact Hrun|]. split; [|apply dns_follows_admin_setupMode].
  revert Hrun. generalize (run steps s0). intros s H.
  unfold loop.
  assert (H3 : dns_follows_admin
                 (loop_admin e (loop_timers e (loop_arbitrate e s))))
    by now apply dns_follows_admin_admin, dns_follows_admin_timers,
         dns_follows_admin_arbitrate.
  rewrite dns_dispatches_handleMDNS. io_fields.
  rewrite <- (dns_dispatches_arbitrate e s).
  rewrite <- (dns_dispatches_timers e (loop_arbitrate e s)).
  rewrite <- (dns_dispatches_admin e (loop_timers e (loop_arbitrate e s))).
  revert H3. generalize (loop_admin e (loop_timers e (loop_arbitrate e s))).
  intros s3 H3. unfold loop_dns. rewrite H3.
  destruct (_adminEnabled s3); dns_simpl; reflexivity.
Qed.

(** ** Whole invocations, call by call *)

Lemma timers_flags e s :
  _dnsServerStatus (loop_timers e s) = _dnsServerStatus s
  /\ _lastMdnsEnabled (loop_timers e s) = _lastMdnsEnabled s
  /\ _lastTimerCall (loop_timers e s)
     = if second_elapsed e s then millis e else _lastTimerCall s.
Proof.
  unfold loop_timers. cbv zeta.
  destruct (second_elapsed e s); [|repeat split].
  split_ifs; repeat split.
Qed.

Lemma handleMDNS_calls e s :
  calls (handleMDNS e s)
  = calls s
    ++ (if Bool.eqb (_lastMdnsEnabled s) (Mdns_Enabled (Configuration e))
        then [] else mdns_restart e).
Proof.
  unfold handleMDNS, mdns_restart.
  destruct (Bool.eqb _ _); [now rewrite app_nil_r|].
  cbv zeta. split_ifs; log_norm; reflexivity.
Qed.


Lemma loop_settled_unfold e s :
  settled s ->
  loop e s = handleMDNS e (loop_dns (loop_admin e (loop_timers e s))).
Proof. intros Hs. unfold loop. now rewrite (arbitrate_settled e s Hs). Qed.

(** X11. With no switch due: while the admin session is enabled (and does
    not expire in this invocation), an invocation of [loop] with
    connectivity resets both back-off timers to 0 but leaves
    [_forceDisconnection] as it is, so a suspended station search stays
    suspended, and makes no radio call.  While the admin session is
    disabled the timers are never reset: they keep whatever the
    once-per-second block left, connectivity or not, and again no radio
    call is made. *)
Theorem backoff_timers_reset_only_when_enabled (e : Env) (s : State) :
  settled s ->
  (_adminEnabled s = true ->
   isConnected e = true ->
   _adminTimeoutCounter (loop_timers e s) <= _adminTimeoutCounterMax s ->
   _connectTimeoutTimer (loop e s) = 0
   /\ _connectRedoTimer (loop e s) = 0
   /\ _forceDisconnection (loop e s) = _forceDisconnection s
   /\ _adminEnabled (loop e s) = true
   /\ radio_calls (loop e s) = radio_calls s)
  /\ (_adminEnabled s = false ->
      _connectTimeoutTimer (loop e s) = _connectTimeoutTimer (loop_timers e s)
      /\ _connectRedoTimer (loop e s) = _connectRedoTimer (loop_timers e s)
      /\ _forceDisconnection (loop e s) = _forceDisconnection s
      /\ _adminEnabled (loop e s) = false
      /\ radio_calls (loop e s) = radio_calls s).
Proof.
  intros Hs. rewrite (loop_settled_unfold e s Hs).
  rewrite radio_calls_handleMDNS, radio_calls_loop_dns. io_fields.
  destruct (timers_only_counters e s)
    as (_ & _ & Ha2 & Hf2 & Hmax2 & _ & _).
  pose proof (radio_calls_loop_timers e s) as Hr2.
  split.
  - intros Ha Hc Hok. rewrite <- Hmax2 in Hok.
    assert (Hadmin :
              loop_admin e (loop_timers e s)
              = loop_timers e s ;> set_connectTimeoutTimer 0
                  ;> set_connectRedoTimer 0).
    { unfold loop_admin. rewrite Ha2, Ha, Hc. cbn [negb]. cbv zeta.
      assert (Hgt : (_adminTimeoutCounter (loop_timers e s)
                     >? _adminTimeoutCounterMax (loop_timers e s)) = false)
        by lia.
      now rewrite Hgt. }
    rewrite Hadmin. io_fields. radio_simpl.
    repeat split; congruence.
  - intros Ha. rewrite admin_disabled by congruence.
    repeat split; congruence.
Qed.

(** X12. The counters advance once per elapsed second, not once per
    invocation.  An invocation of [loop] stamps [_lastTimerCall] with its
    clock reading exactly when more than 1000 ms (in [uint32_t] arithmetic)
    have passed since the last stamp, and otherwise leaves the stamp and
    all counters of the once-per-second block alone.  Hence after an
    invocation that counted, no invocation whose clock is at most 1000 ms
    later counts; one exactly 1000 ms later does not, one 1001 ms later
    does. *)
Theorem counters_advance_once_per_second (e e' : Env) (s : State) :
  _lastTimerCall (loop e s)
  = (if second_elapsed e s then millis e else _lastTimerCall s)
  /\ (second_elapsed e s = false ->
      loop_timers e (loop_arbitrate e s) = loop_arbitrate e s)
  /\ (second_elapsed e s = true ->
      second_elapsed e' (loop e s) = (u32 (millis e' - millis e) >? 1000)).
Proof.
  assert (Hsame : second_elapsed e (loop_arbitrate e s) = second_elapsed e s)
    by (unfold second_elapsed; now rewrite arbitrate_lastTimerCall).
  assert (Hlast : _lastTimerCall (loop e s)
                  = if second_elapsed e s then millis e
                    else _lastTimerCall s).
  { unfold loop. io_fields.
    destruct (admin_keeps_link e (loop_timers e (loop_arbitrate e s)))
      as (_ & _ & _ & -> & _).
    destruct (timers_flags e (loop_arbitrate e s)) as (_ & _ & ->).
    now rewrite Hsame, arbitrate_lastTimerCall. }
  split; [exact Hlast|]. split.
  - intros Hno. unfold loop_timers. now rewrite Hsame, Hno.
  - intros Hyes. unfold second_elapsed at 1. now rewrite Hlast, Hyes.
Qed.

Lemma radio_calls_applyConfig_ethernet e s :
  _networkMode s = Ethernet ->
  radio_calls (applyConfig e s) = radio_calls s ++ station_begin e.
Proof.
  intros Hm. unfold applyConfig, station_begin, setHostname.
  rewrite Hm. simpl bool_decide. cbv iota zeta.
  destruct (String.eqb (WiFi_Ssid (Configuration e)) "").
  - radio_simpl. reflexivity.
  - rewrite radio_calls_setStaticIp.
    destruct (negb _ || negb _); radio_simpl; reflexivity.
Qed.

(** X17. The reconnect back-off does not look at the interface mode.  With
    Ethernet authoritative (wired link up, no switch due), the admin
    session enabled and no connectivity, an invocation of [loop] does to the
    WiFi radio what [_forceDisconnection] and the two timers, as counted in
    that invocation, decide:
    - flag clear, search timer past the search timeout: the radio is
      switched to AP-only, the flag is set and the redo timer zeroed;
    - flag clear, search timer within the search timeout: no radio call,
      the flag stays clear;
    - flag set, redo timer past the redo timeout: the radio is set to
      AP+station and, unless the SSID is empty, a WiFi station connection
      attempt is made; the flag and the search timer are cleared;
    - flag set, redo timer within the redo timeout: no radio call and the
      flag stays set, however far the search timer is past its timeout. *)
Theorem backoff_runs_in_ethernet_mode (e : Env) (s : State) :
  _ethConnected s = true ->
  _networkMode s = Ethernet ->
  _adminEnabled s = true ->
  0 <= _adminTimeoutCounterMax s ->
  0 <= WIFI_RECONNECT_REDO_TIMEOUT ->
  isConnected e = false ->
  (_forceDisconnection s = false ->
   _connectTimeoutTimer (loop_timers e s) > WIFI_RECONNECT_TIMEOUT ->
   _forceDisconnection (loop e s) = true
   /\ _connectRedoTimer (loop e s) = 0
   /\ radio_calls (loop e s) = radio_calls s ++ [WiFi_mode WIFI_AP])
  /\ (_forceDisconnection s = false ->
      _connectTimeoutTimer (loop_timers e s) <= WIFI_RECONNECT_TIMEOUT ->
      _forceDisconnection (loop e s) = false
      /\ radio_calls (loop e s) = radio_calls s)
  /\ (_forceDisconnection s = true ->
      _connectRedoTimer (loop_timers e s) > WIFI_RECONNECT_REDO_TIMEOUT ->
      _forceDisconnection (loop e s) = false
      /\ _connectTimeoutTimer (loop e s) = 0
      /\ radio_calls (loop e s)
         = radio_calls s ++ [WiFi_mode WIFI_AP_STA] ++ station_begin e)
  /\ (_forceDisconnection s = true ->
      _connectRedoTimer (loop_timers e s) <= WIFI_RECONNECT_REDO_TIMEOUT ->
      _forceDisconnection (loop e s) = true
      /\ radio_calls (loop e s) = radio_calls s).
Proof.
  intros He Hm Ha Hmax HR Hc.
  assert (Hs : settled s) by (unfold settled; now rewrite He).
  rewrite (loop_settled_unfold e s Hs).
  rewrite radio_calls_handleMDNS, radio_calls_loop_dns. io_fields.
  destruct (timers_only_counters e s)
    as (Hm2 & _ & Ha2 & Hf2 & Hmax2 & _ & _).
  pose proof (radio_calls_loop_timers e s) as Hr2.
  split; [|split; [|split]].
  - intros Hf Ht. rewrite backoff_suspends; try congruence.
    io_fields. radio_simpl. rewrite Hr2. auto.
  - intros Hf Ht. rewrite backoff_quiet; try congruence.
    + io_fields. radio_simpl. rewrite Hr2. split; congruence.
    + apply andb_false_iff. left. lia.
    + rewrite Hf2, Hf. apply andb_false_r.
  - intros Hf Hr. rewrite backoff_resumes; try congruence.
    io_fields. radio_simpl.
    rewrite radio_calls_applyConfig_ethernet by (io_fields; congruence).
    radio_simpl. rewrite Hr2, <- !app_assoc. auto.
  - intros Hf Hr. rewrite backoff_quiet; try congruence.
    + io_fields. radio_simpl. rewrite Hr2. split; congruence.
    + rewrite Hf2, Hf. apply andb_false_r.
    + apply andb_false_iff. left. lia.
Qed.

(** ** More on the hostname *)

Lemma hostname_charb_not_NUL c : hostname_charb c = true -> c <> NUL.
Proof. intros H ->. discriminate H. Qed.

Lemma spec_keep_clean c : hostname_charb c = true -> spec_keep c = Some c.
Proof.
  unfold hostname_charb, spec_keep. destruct (isalnum c); [reflexivity|].
  cbn [orb]. intros H. apply Ascii.eqb_eq in H. now subst c.
Qed.

Lemma omap_spec_keep_clean l :
  forallb hostname_charb l = true -> omap spec_keep l = l.
Proof.
  induction l as [|c l IH]; [reflexivity|].
  cbn [forallb]. intros H. apply andb_true_iff in H as [Hc Hl].
  rewrite omap_spec_keep_cons, (spec_keep_clean c Hc). now rewrite IH.
Qed.

Lemma spec_strip_trailing_clean l :
  last l <> Some hyphen -> spec_strip_trailing l = l.
Proof.
  destruct l as [|c l] using rev_ind; [reflexivity|].
  rewrite last_snoc. intros H.
  apply spec_strip_trailing_other. congruence.
Qed.

Lemma spec_sanitize_clean l :
  forallb hostname_charb l = true -> last l <> Some hyphen ->
  spec_sanitize l = l.
Proof.
  intros Hc Hl. unfold spec_sanitize.
  rewrite omap_spec_keep_clean by exact Hc.
  now apply spec_strip_trailing_clean.
Qed.

Lemma c_chars_clean l : forallb hostname_charb l = true -> c_chars l = l.
Proof.
  intros H. apply c_chars_no_NUL. apply Forall_forall. intros c Hc.
  apply hostname_charb_not_NUL.
  rewrite forallb_forall in H. apply H. now apply list_elem_of_In.
Qed.

(** X13. A template text that already is a hostname (not empty, at most
    [WIFI_MAX_HOSTNAME_STRLEN] characters, alphanumerics and hyphens only,
    no hyphen at the end) is returned by [getHostname] unchanged.  Hence
    sanitizing is idempotent: when a hostname that was not taken from the
    default template is used as the template text again, [getHostname]
    returns it again. *)
Theorem getHostname_keeps_hostnames (e e' : Env) :
  (WIFI_MAX_HOSTNAME_STRLEN <= 255)%nat ->
  let text := printf_text (WiFi_Hostname (Configuration e)) (getChipId e) in
  (text <> ""%string ->
   clean_hostname WIFI_MAX_HOSTNAME_STRLEN (list_ascii_of_string text) ->
   getHostname e = text)
  /\ (spec_sanitize (prepared_text e) <> [] ->
      printf_text (WiFi_Hostname (Configuration e')) (getChipId e')
      = getHostname e ->
      getHostname e' = getHostname e).
Proof.
  intros Hmax text.
  assert (Hfix : forall e0,
             printf_text (WiFi_Hostname (Configuration e0)) (getChipId e0)
             <> ""%string ->
             clean_hostname WIFI_MAX_HOSTNAME_STRLEN
               (list_ascii_of_string
                  (printf_text (WiFi_Hostname (Configuration e0))
                     (getChipId e0))) ->
             getHostname e0
             = printf_text (WiFi_Hostname (Configuration e0)) (getChipId e0)).
  { intros e0 Hne (Hlen & Hchars & Hlast).
    rewrite (getHostname_spec e0 Hmax). unfold spec_hostname, prepared_text.
    rewrite stored_text_fits
      by (now rewrite <- length_list_ascii_of_string).
    rewrite c_chars_clean by exact Hchars.
    rewrite spec_sanitize_clean by assumption.
    destruct (list_ascii_of_string _) as [|c l] eqn:Hl.
    - exfalso. apply Hne.
      rewrite <- (string_of_list_ascii_of_string (printf_text _ _)).
      now rewrite Hl.
    - rewrite <- Hl. apply string_of_list_ascii_of_string. }
  split; [apply Hfix|].
  intros Hmain Htext.
  assert (Hname : getHostname e
                  = string_of_list_ascii (spec_sanitize (prepared_text e))).
  { rewrite (getHostname_spec e Hmax). unfold spec_hostname.
    destruct (spec_sanitize (prepared_text e)); [contradiction|reflexivity]. }
  rewrite (Hfix e'); [exact Htext| |].
  - rewrite Htext, Hname. intros Hempty. apply Hmain.
    apply (f_equal list_ascii_of_string) in Hempty.
    now rewrite list_ascii_of_string_of_list_ascii in Hempty.
  - rewrite Htext, Hname, list_ascii_of_string_of_list_ascii.
    unfold spec_sanitize.
    destruct (spec_strip_trailing_prefix (omap spec_keep (prepared_text e)))
      as [dropped Hd].
    pose proof (length_omap_spec_keep (prepared_text e)) as Hlen'.
    pose proof (omap_spec_keep_chars (prepared_text e)) as Hchars.
    pose proof (length_stored_text (WiFi_Hostname (Configuration e))
                  (getChipId e)) as Hlen.
    fold (prepared_text e) in Hlen.
    rewrite Hd in Hlen', Hchars. rewrite length_app in Hlen'.
    apply Forall_app in Hchars as [Hchars _].
    split; [lia|]. split; [|apply spec_strip_trailing_last].
    apply forallb_forall. intros c Hc.
    rewrite Forall_forall in Hchars.
    apply list_elem_of_In in Hc. now apply Hchars.
Qed.

Lemma is_separator_not_alnum c : is_separator c = true -> isalnum c = false.
Proof.
  unfold is_separator. rewrite !orb_true_iff, !Ascii.eqb_eq.
  intros [[[[[[->| ->]| ->]| ->]| ->]| ->]| ->]; reflexivity.
Qed.

Lemma spec_strip_trailing_keeps l d :
  In d l -> d <> hyphen -> spec_strip_trailing l <> [].
Proof.
  induction l as [|c l IH]; [intros []|].
  intros [->|Hin] Hd; cbn [spec_strip_trailing].
  - destruct (spec_strip_trailing l); [|discriminate].
    destruct (Ascii.eqb_spec d hyphen); [contradiction|discriminate].
  - specialize (IH Hin Hd). destruct (spec_strip_trailing l);
      [contradiction|discriminate].
Qed.

(** X15. Every separator becomes a hyphen of its own, leading and repeated
    ones included; only trailing hyphens are removed.  When the stored
    template text ends with an alphanumeric character, the hostname is the
    text with its characters kept or mapped one by one and nothing
    stripped; and when the text starts with a separator and has an
    alphanumeric character somewhere, the hostname starts with a hyphen
    (the remark "no leading hyphens" at line 466 notwithstanding). *)
Theorem getHostname_keeps_leading_hyphens
    (e : Env) (c d : ascii) (rest : list ascii) :
  (WIFI_MAX_HOSTNAME_STRLEN <= 255)%nat ->
  isalnum d = true ->
  (last (prepared_text e) = Some d ->
   getHostname e = string_of_list_ascii (omap spec_keep (prepared_text e)))
  /\ (prepared_text e = c :: rest ->
      is_separator c = true ->
      In d rest ->
      exists tail, getHostname e = String hyphen tail).
Proof.
  intros Hmax Hd.
  assert (Hdh : d <> hyphen) by (intros ->; discriminate Hd).
  assert (Hkeep : spec_keep d = Some d)
    by (unfold spec_keep; now rewrite Hd).
  split.
  - intros Hlast. rewrite (getHostname_spec e Hmax).
    unfold spec_hostname, spec_sanitize.
    destruct (prepared_text e) as [|x l] using rev_ind; [discriminate|].
    rewrite last_snoc in Hlast. injection Hlast as ->.
    rewrite omap_app. cbn [omap list_omap]. rewrite Hkeep.
    cbn [from_option].
    change (omap spec_keep []) with (@nil ascii).
    rewrite spec_strip_trailing_other by exact Hdh.
    destruct (omap spec_keep l); reflexivity.
  - intros Htext Hc Hin. rewrite (getHostname_spec e Hmax).
    unfold spec_hostname, spec_sanitize. rewrite Htext.
    rewrite omap_spec_keep_cons.
    assert (Hk : spec_keep c = Some hyphen).
    { unfold spec_keep.
      now rewrite (is_separator_not_alnum c Hc), Hc. }
    rewrite Hk. cbn [spec_strip_trailing].
    assert (Hne : spec_strip_trailing (omap spec_keep rest) <> []).
    { apply (spec_strip_trailing_keeps _ d); [|exact Hdh].
      apply list_elem_of_In. apply list_elem_of_omap.
      exists d. split; [now apply list_elem_of_In|exact Hkeep]. }
    destruct (spec_strip_trailing (omap spec_keep rest)) as [|y l];
      [contradiction|].
    eexists. reflexivity.
Qed.

(** ** Station configuration, call by call *)

Lemma setStaticIp_calls e s :
  calls (setStaticIp e s) = calls s ++ address_calls e (_networkMode s).
Proof.
  unfold setStaticIp, address_calls.
  destruct (_networkMode s); simpl bool_decide; cbv iota zeta; log_norm;
    rewrite ?app_nil_r; reflexivity.
Qed.

(** X16. With a non-empty configured SSID, [applyConfig] makes, after the
    calls of [setHostname], exactly one station connection attempt and then
    the address application of the current mode (none in mode Undefined).
    The attempt reuses the credentials the radio has stored
    ([WiFi.begin()]) exactly when both the stored SSID and the stored
    password equal the configured ones, and passes the configured ones
    otherwise. *)
Theorem applyConfig_connects_once (e : Env) (s : State) :
  WiFi_Ssid (Configuration e) <> ""%string ->
  new_calls s (applyConfig e s)
  = new_calls s (setHostname e s)
    ++ station_begin e ++ address_calls e (_networkMode s)
  /\ length (station_begin e) = 1%nat
  /\ (station_begin e = [WiFi_begin]
      <-> WiFi_SSID e = WiFi_Ssid (Configuration e)
          /\ WiFi_psk e = WiFi_Password (Configuration e)).
Proof.
  intros Hssid.
  assert (Hne : String.eqb (WiFi_Ssid (Configuration e)) "" = false)
    by now apply String.eqb_neq.
  split; [|split].
  - destruct (setHostname_calls e s) as (more & Hcalls & _).
    rewrite (new_calls_app _ _ _ Hcalls). apply new_calls_app.
    unfold applyConfig, station_begin. cbv zeta. rewrite Hne.
    rewrite setStaticIp_calls.
    destruct (negb _ || negb _); log_norm;
      rewrite (only_io_networkMode _ _ (only_io_setHostname e s)), Hcalls,
        <- ?app_assoc;
      reflexivity.
  - unfold station_begin. rewrite Hne. now destruct (negb _ || negb _).
  - unfold station_begin. rewrite Hne.
    destruct (String.eqb_spec (WiFi_SSID e) (WiFi_Ssid (Configuration e)));
      destruct (String.eqb_spec (WiFi_psk e)
                  (WiFi_Password (Configuration e)));
      cbn [negb orb]; split;
      first [ discriminate
            | intros _; now split
            | intros [? ?]; contradiction
            | reflexivity ].
Qed.

(** ** Subscriptions *)

Lemma raise_entries_same_calls ev l : forall a b,
  calls a = calls b ->
  calls (fold_left (fun acc en => raise_entry ev en acc) l a)
  = calls (fold_left (fun acc en => raise_entry ev en acc) l b).
Proof.
  induction l as [|en l IH]; intros a b H; [exact H|].
  cbn [fold_left]. apply IH. unfold raise_entry.
  destruct (cb en); [|exact H]. destruct (_ || _); [|exact H].
  cbn [calls emit]. now rewrite H.
Qed.

(** X18. Subscribe, then publish: after [onEvent] accepts a callable [k]
    with filter [f] (it returns true and appends one entry, changing
    nothing else), [raiseEvent] makes the calls it made before and then,
    last, calls [k] if and only if [f] equals the event or is the wildcard.
    This holds for every subscription list, whatever it already holds. *)
Theorem onEvent_then_raiseEvent
    (k : nat) (f ev : network_event) (s : State) :
  fst (onEvent (Some k) f s) = true
  /\ _cbEventList (snd (onEvent (Some k) f s))
     = _cbEventList s ++ [mkEntry (Some k) f]
  /\ calls (snd (onEvent (Some k) f s)) = calls s
  /\ calls (raiseEvent ev (snd (onEvent (Some k) f s)))
     = calls (raiseEvent ev s)
       ++ (if spec_matches ev (k, f) then [Callback k ev] else []).
Proof.
  split; [reflexivity|]. split; [reflexivity|]. split; [reflexivity|].
  unfold raiseEvent, onEvent. cbn [snd _cbEventList set_cbEventList].
  rewrite fold_left_app. cbn [fold_left].
  pose proof (raise_entries_same_calls ev (_cbEventList s)
                (set_cbEventList (_cbEventList s ++ [mkEntry (Some k) f]) s)
                s eq_refl) as Hsame.
  revert Hsame.
  generalize (fold_left (fun acc en => raise_entry ev en acc)
                (_cbEventList s)
                (set_cbEventList (_cbEventList s ++ [mkEntry (Some k) f]) s)).
  intros a Hsame.
  unfold raise_entry, spec_matches. cbn [cb event snd].
  destruct (_ || _); cbn [calls emit]; rewrite Hsame, ?app_nil_r;
    reflexivity.
Qed.

Lemma loop_cbEventList e s : _cbEventList (loop e s) = _cbEventList s.
Proof.
  unfold loop. io_fields.
  destruct (admin_keeps_link e (loop_timers e (loop_arbitrate e s)))
    as (_ & _ & _ & _ & ->).
  destruct (timers_only_counters e (loop_arbitrate e s))
    as (_ & _ & _ & _ & _ & -> & _).
  apply arbitrate_cbEventList.
Qed.

(** X19. Who writes what, over whole executions: after any sequence of
    invocations of [loop] and raw events the subscription list is the one
    it started with (nothing unsubscribes or reorders), and the wired-link
    flag is the one the last raw Ethernet link event in the sequence set,
    or the initial one if there was none: [loop] only reads it. *)
Theorem run_keeps_subscriptions_and_tracks_link
    (steps : list Step) (s : State) :
  _cbEventList (run steps s) = _cbEventList s
  /\ _ethConnected (run steps s) = flag_after_steps steps (_ethConnected s).
Proof.
  revert s. induction steps as [|st steps IH]; intros s; [now split|].
  cbn [run fold_left flag_after_steps].
  fold (run steps (step st s)).
  fold (flag_after_steps steps
          (match st with
           | Raw ev => flag_after ev (_ethConnected s)
           | Tick _ => _ethConnected s
           end)).
  destruct (IH (step st s)) as [-> ->].
  destruct st as [e|ev]; cbn [step].
  - now rewrite loop_cbEventList, loop_ethConnected.
  - rewrite NetworkEvent_ethConnected. split; [|reflexivity].
    unfold NetworkEvent; destruct ev; cbv zeta; split_ifs; bus_fields;
      reflexivity.
Qed.

(** ** Accessors and names *)

Lemma isConnected_octets e :
  octet0 (WiFi_localIP e) <> 0 \/ octet0 (ETH_localIP e) <> 0 ->
  isConnected e = true.
Proof.
  unfold isConnected.
  rewrite orb_true_iff, !negb_true_iff, !Z.eqb_neq. auto.
Qed.

(** X20. [localIP] reports the authoritative interface: after any
    invocation of [loop] it is the Ethernet address if the wired link was
    up on entry and the WiFi station address otherwise, never the sentinel
    of mode Undefined.  And, the sentinel's first octet being zero, a
    [localIP] with a non-zero first octet implies [isConnected], in every
    mode. *)
Theorem localIP_follows_arbitration
    (INADDR_NONE : IPAddress) (e e' : Env) (s : State) :
  octet0 INADDR_NONE = 0 ->
  localIP INADDR_NONE e' (loop e s)
  = (if _ethConnected s then ETH_localIP e' else WiFi_localIP e')
  /\ NetworkMode (loop e s) <> Undefined
  /\ (octet0 (localIP INADDR_NONE e s) <> 0 -> isConnected e = true).
Proof.
  intros Hnone. unfold localIP, NetworkMode. rewrite loop_networkMode.
  split; [now destruct (_ethConnected s)|].
  split; [now destruct (_ethConnected s)|].
  intros H. apply isConnected_octets.
  destruct (_networkMode s); [now left|now right|contradiction].
Qed.

Lemma string_append_cancel (p a b : string) :
  (p ++ a)%string = (p ++ b)%string -> a = b.
Proof.
  induction p as [|c p IH]; cbn; [auto|]. intros [= H]. now apply IH.
Qed.

(** X21. The access-point name is the configured prefix followed by the
    chip id in decimal, so devices with different chip ids (as 32-bit
    values) broadcast different names. *)
Theorem getApName_injective (ACCESS_POINT_NAME : string) (e e' : Env) :
  0 <= getChipId e < 2 ^ 32 ->
  0 <= getChipId e' < 2 ^ 32 ->
  getApName ACCESS_POINT_NAME e = getApName ACCESS_POINT_NAME e' ->
  getChipId e = getChipId e'.
Proof.
  intros H H' Heq. unfold getApName, String_of_u32 in Heq.
  apply string_append_cancel in Heq.
  rewrite !u32_small in Heq by assumption.
  apply (f_equal NilEmpty.uint_of_string) in Heq.
  rewrite !NilEmpty.usu in Heq. injection Heq as Heq.
  apply (f_equal N.of_uint) in Heq.
  rewrite !DecimalN.Unsigned.of_to in Heq.
  apply (f_equal Z.of_N) in Heq. rewrite !Z2N.id in Heq by lia.
  exact Heq.
Qed.

(** ** The radio around a hostname change and a fail-over *)

(** X22. [setHostname] with WiFi authoritative hands the hostname to the
    WiFi driver, toggles the radio through AP+station and station-only,
    and then lets [setupMode] decide: the radio ends in AP+station when the
    admin session is enabled and in station-only when it is not, and the
    DNS flag agrees with the admin flag afterwards.  In the other modes it
    makes no radio call at all: with Ethernet authoritative its only call
    is [ETH.setHostname], in mode Undefined it does nothing. *)
Theorem setHostname_radio (e : Env) (s : State) :
  (_networkMode s = WiFi ->
   radio_calls (setHostname e s)
   = radio_calls s
     ++ [WiFi_mode WIFI_MODE_APSTA; WiFi_mode WIFI_MODE_STA;
         WiFi_mode (if _adminEnabled s then WIFI_AP_STA else WIFI_STA)]
   /\ In (WiFi_hostname (getHostname e)) (new_calls s (setHostname e s))
   /\ dns_follows_admin (setHostname e s))
  /\ (_networkMode s = Ethernet ->
      new_calls s (setHostname e s) = [ETH_setHostname (getHostname e)])
  /\ (_networkMode s = Undefined -> setHostname e s = s).
Proof.
  split; [|split].
  - intros Hm.
    assert (Hcalls : exists more,
               calls (setHostname e s)
               = calls s ++ WiFi_hostname (getHostname e) :: more).
    { unfold setHostname, setupMode. rewrite Hm. simpl bool_decide.
      cbv iota zeta. log_norm. rewrite Hm. simpl bool_decide.
      destruct (_adminEnabled s); cbv iota; log_norm; eexists;
        reflexivity. }
    destruct Hcalls as [more Hcalls].
    split; [|split].
    + unfold setHostname, setupMode. rewrite Hm. simpl bool_decide.
      cbv iota zeta. log_norm. rewrite Hm. simpl bool_decide.
      destruct (_adminEnabled s); cbv iota; radio_simpl;
        now rewrite <- !app_assoc.
    + rewrite (new_calls_app _ _ _ Hcalls). now left.
    + unfold setHostname. rewrite Hm. simpl bool_decide. cbv iota zeta.
      apply dns_follows_admin_setupMode.
  - intros Hm. apply new_calls_app. unfold setHostname. rewrite Hm.
    simpl bool_decide. cbv iota zeta. reflexivity.
  - intros Hm. unfold setHostname. rewrite Hm. reflexivity.
Qed.

Lemma radio_calls_switch_to_wifi e s :
  _ethConnected s = false ->
  _networkMode s <> WiFi ->
  radio_calls (loop_arbitrate e s)
  = radio_calls s
    ++ [WiFi_mode WIFI_AP_STA; WiFi_mode WIFI_MODE_APSTA;
        WiFi_mode WIFI_MODE_STA; WiFi_mode WIFI_AP_STA]
    ++ station_begin e.
Proof.
  intros He Hm. unfold loop_arbitrate. rewrite He.
  rewrite bool_decide_eq_false_2 by exact Hm. cbn [negb].
  rewrite radio_calls_applyConfig
    by (unfold enableAdminMode; bus_fields; reflexivity).
  unfold enableAdminMode.
  rewrite radio_calls_setupMode_admin by reflexivity.
  change (radio_calls
            (set_adminTimeoutCounterMax
               (u32 (WiFi_ApTimeout (Configuration e) * 60))
               (set_adminTimeoutCounter 0
                  (set_adminEnabled true (set_networkMode WiFi s)))))
    with (radio_calls s).
  now rewrite <- !app_assoc.
Qed.

(** X23. Re-arming the admin session resets neither the back-off timers
    nor [_forceDisconnection].  What they hold when the wired link goes
    down decides what the invocation of [loop] that fails over to WiFi
    does, without connectivity, after it has re-armed the session and made
    the station connection attempt:
    - flag clear and search timer already past the search timeout (it
      keeps counting while the session is disabled): the radio is switched
      to AP-only and the flag set, so the search just started is suspended
      until the redo timeout has passed;
    - flag clear and search timer below the search timeout: nothing more;
    - flag still set from an earlier suspension and redo timer already past
      the redo timeout: the radio is set to AP+station and [applyConfig]
      runs a second time, then the flag and the search timer are cleared;
    - flag still set and redo timer below the redo timeout: nothing more;
      the radio stays in AP+station with the flag set, however far the
      search timer is past the search timeout.
    In every case the session is enabled afterwards. *)
Theorem failover_inherits_backoff_state (e : Env) (s : State) :
  _ethConnected s = false ->
  _networkMode s <> WiFi ->
  0 <= WIFI_RECONNECT_TIMEOUT ->
  0 <= WIFI_RECONNECT_REDO_TIMEOUT ->
  isConnected e = false ->
  let rearm :=
    [WiFi_mode WIFI_AP_STA; WiFi_mode WIFI_MODE_APSTA;
     WiFi_mode WIFI_MODE_STA; WiFi_mode WIFI_AP_STA] ++ station_begin e in
  _adminEnabled (loop e s) = true
  /\ (_forceDisconnection s = false ->
      WIFI_RECONNECT_TIMEOUT < _connectTimeoutTimer s < 2 ^ 32 - 1 ->
      radio_calls (loop e s) = radio_calls s ++ rearm ++ [WiFi_mode WIFI_AP]
      /\ last_WiFi_mode (calls (loop e s)) = Some WIFI_AP
      /\ _forceDisconnection (loop e s) = true
      /\ _connectRedoTimer (loop e s) = 0)
  /\ (_forceDisconnection s = false ->
      0 <= _connectTimeoutTimer s < WIFI_RECONNECT_TIMEOUT ->
      radio_calls (loop e s) = radio_calls s ++ rearm
      /\ last_WiFi_mode (calls (loop e s)) = Some WIFI_AP_STA
      /\ _forceDisconnection (loop e s) = false)
  /\ (_forceDisconnection s = true ->
      WIFI_RECONNECT_REDO_TIMEOUT < _connectRedoTimer s < 2 ^ 32 - 1 ->
      radio_calls (loop e s) = radio_calls s ++ rearm ++ rearm
      /\ last_WiFi_mode (calls (loop e s)) = Some WIFI_AP_STA
      /\ _forceDisconnection (loop e s) = false
      /\ _connectTimeoutTimer (loop e s) = 0)
  /\ (_forceDisconnection s = true ->
      0 <= _connectRedoTimer s < WIFI_RECONNECT_REDO_TIMEOUT ->
      radio_calls (loop e s) = radio_calls s ++ rearm
      /\ last_WiFi_mode (calls (loop e s)) = Some WIFI_AP_STA
      /\ _forceDisconnection (loop e s) = true).
Proof.
  intros He Hm HT HR Hc. cbv zeta.
  pose proof (radio_calls_switch_to_wifi e s He Hm) as Hr1.
  assert (H1 : _adminEnabled (loop_arbitrate e s) = true
               /\ 0 <= _adminTimeoutCounterMax (loop_arbitrate e s)
               /\ _networkMode (loop_arbitrate e s) = WiFi
               /\ _forceDisconnection (loop_arbitrate e s)
                  = _forceDisconnection s
               /\ _connectTimeoutTimer (loop_arbitrate e s)
                  = _connectTimeoutTimer s
               /\ _connectRedoTimer (loop_arbitrate e s)
                  = _connectRedoTimer s).
  { unfold loop_arbitrate, enableAdminMode. rewrite He.
    rewrite bool_decide_eq_false_2 by exact Hm. cbn [negb].
    io_fields. repeat split; try reflexivity. apply u32_range. }
  destruct H1 as (Ha1 & Hmax1 & Hm1 & Hf1 & Ht1 & Hd1).
  rewrite <- (last_WiFi_mode_radio (calls (loop e s))).
  fold (radio_calls (loop e s)).
  unfold loop. rewrite radio_calls_handleMDNS, radio_calls_loop_dns.
  io_fields.
  revert Hr1 Ha1 Hmax1 Hm1 Hf1 Ht1 Hd1. generalize (loop_arbitrate e s) as s1.
  intros s1 Hr1 Ha1 Hmax1 Hm1 Hf1 Ht1 Hd1.
  destruct (timers_only_counters e s1)
    as (Hm2 & _ & Ha2 & Hf2 & Hmax2 & _ & _).
  pose proof (radio_calls_loop_timers e s1) as Hr2.
  pose proof (timers_connectTimeoutTimer e s1) as Ht2.
  pose proof (timers_connectRedoTimer e s1) as Hd2.
  assert (Hle : forall z, 0 <= z -> u32 (z + 1) <= z + 1)
    by (intros z Hz; unfold u32; apply Z.mod_le; lia).
  split; [|split; [|split; [|split]]].
  - destruct (admin_offline e (loop_timers e s1)) as [Ha3 _];
      congruence.
  - intros Hf Ht.
    assert (Hgt : _connectTimeoutTimer (loop_timers e s1)
                  > WIFI_RECONNECT_TIMEOUT).
    { rewrite Ht2, Ht1. destruct (second_elapsed e s1); [|lia].
      rewrite u32_small; lia. }
    rewrite backoff_suspends; try congruence.
    io_fields. radio_simpl. rewrite Hr2, Hr1, <- !app_assoc.
    split; [reflexivity|]. split; [|auto].
    rewrite !app_assoc, last_WiFi_mode_app. reflexivity.
  - intros Hf Ht.
    rewrite backoff_quiet; try congruence.
    + io_fields. radio_simpl. rewrite Hr2, Hr1.
      split; [reflexivity|]. split; [|congruence].
      now rewrite !last_WiFi_mode_app, last_WiFi_mode_station_begin.
    + apply andb_false_iff. left. rewrite Ht2, Ht1.
      destruct (second_elapsed e s1); [|lia].
      specialize (Hle (_connectTimeoutTimer s)). lia.
    + rewrite Hf2, Hf1, Hf. apply andb_false_r.
  - intros Hf Hd.
    assert (Hgt : _connectRedoTimer (loop_timers e s1)
                  > WIFI_RECONNECT_REDO_TIMEOUT).
    { rewrite Hd2, Hd1. destruct (second_elapsed e s1); [|lia].
      rewrite u32_small; lia. }
    rewrite backoff_resumes; try congruence.
    io_fields. radio_simpl.
    rewrite radio_calls_applyConfig by (io_fields; congruence).
    radio_simpl. rewrite Hr2, Hr1, <- !app_assoc.
    split; [reflexivity|]. split; [|auto].
    now rewrite !last_WiFi_mode_app, last_WiFi_mode_station_begin.
  - intros Hf Hd.
    rewrite backoff_quiet; try congruence.
    + io_fields. radio_simpl. rewrite Hr2, Hr1.
      split; [reflexivity|]. split; [|congruence].
      now rewrite !last_WiFi_mode_app, last_WiFi_mode_station_begin.
    + rewrite Hf2, Hf1, Hf. apply andb_false_r.
    + apply andb_false_iff. left. rewrite Hd2, Hd1.
      destruct (second_elapsed e s1); [|lia].
      specialize (Hle (_connectRedoTimer s)). lia.
Qed.

(** ** One back-off cycle, call by call *)

(** All the calls of the invocation that suspends the search, and of the
    one that resumes it. *)
Lemma loop_suspend_calls e s :
  admin_on_wifi s ->
  0 <= WIFI_RECONNECT_REDO_TIMEOUT ->
  isConnected e = false ->
  _connectTimeoutTimer (loop_timers e s) > WIFI_RECONNECT_TIMEOUT ->
  _forceDisconnection s = false ->
  new_calls s (loop e s)
  = [WiFi_mode WIFI_AP]
    ++ (if _dnsServerStatus s then [DNS_processNextRequest] else [])
    ++ (if Bool.eqb (_lastMdnsEnabled s) (Mdns_Enabled (Configuration e))
        then [] else mdns_restart e).
Proof.
  intros Hinv HR Hc Ht Hf. unfold loop.
  rewrite (arbitrate_settled e s (admin_on_wifi_settled s Hinv)).
  destruct Hinv as (He & Hm & Ha & Hmax).
  destruct (timers_only_counters e s)
    as (_ & _ & Ha2 & Hf2 & Hmax2 & _ & Hcalls2).
  destruct (timers_flags e s) as (Hdns2 & Hmdns2 & _).
  revert Ha2 Hf2 Hmax2 Hcalls2 Hdns2 Hmdns2 Ht.
  generalize (loop_timers e s) as s2.
  intros s2 Ha2 Hf2 Hmax2 Hcalls2 Hdns2 Hmdns2 Ht.
  rewrite backoff_suspends; try congruence.
  apply new_calls_app. rewrite handleMDNS_calls. unfold loop_dns. log_norm.
  rewrite Hdns2.
  destruct (_dnsServerStatus s); log_norm;
    rewrite Hmdns2, Hcalls2, <- ?app_assoc; reflexivity.
Qed.

Lemma loop_resume_calls e s :
  admin_on_wifi s ->
  isConnected e = false ->
  _connectRedoTimer (loop_timers e s) > WIFI_RECONNECT_REDO_TIMEOUT ->
  _forceDisconnection s = true ->
  new_calls s (loop e s)
  = [WiFi_mode WIFI_AP_STA;
     WiFi_hostname (getHostname e);
     WiFi_mode WIFI_MODE_APSTA; WiFi_mode WIFI_MODE_STA;
     WiFi_mode WIFI_AP_STA; WiFi_softAPConfig; WiFi_softAP;
     DNS_setErrorReplyCode; DNS_start]
    ++ station_begin e
    ++ (if String.eqb (WiFi_Ssid (Configuration e)) "" then []
        else [WiFi_config (WiFi_Dhcp (Configuration e))])
    ++ [DNS_processNextRequest]
    ++ (if Bool.eqb (_lastMdnsEnabled s) (Mdns_Enabled (Configuration e))
        then [] else mdns_restart e).
Proof.
  intros Hinv Hc Hr Hf. unfold loop.
  rewrite (arbitrate_settled e s (admin_on_wifi_settled s Hinv)).
  destruct Hinv as (He & Hm & Ha & Hmax).
  destruct (timers_only_counters e s)
    as (Hm2 & _ & Ha2 & Hf2 & Hmax2 & _ & Hcalls2).
  destruct (timers_flags e s) as (_ & Hmdns2 & _).
  revert Hm2 Ha2 Hf2 Hmax2 Hcalls2 Hmdns2 Hr.
  generalize (loop_timers e s) as s2.
  intros s2 Hm2 Ha2 Hf2 Hmax2 Hcalls2 Hmdns2 Hr.
  rewrite backoff_resumes; try congruence.
  apply new_calls_app. rewrite handleMDNS_calls.
  unfold loop_dns, applyConfig, station_begin, setHostname, setStaticIp,
    setupMode.
  log_norm. rewrite Hm2, Hm, Ha2, Ha. simpl bool_decide. cbv iota.
  log_norm.
  destruct (String.eqb (WiFi_Ssid (Configuration e)) "").
  - log_norm. rewrite Hmdns2, Hcalls2, <- ?app_assoc. reflexivity.
  - destruct (negb _ || negb _); log_norm; rewrite ?Hm2, ?Hm;
      simpl bool_decide; cbv iota; log_norm;
      rewrite Hmdns2, Hcalls2, <- ?app_assoc; reflexivity.
Qed.

(** X24. One back-off cycle of a station search that starts with the flag
    clear.  With the admin session armed, WiFi authoritative,
    [_forceDisconnection] clear, and over consecutive invocations of [loop]
    without connectivity (no raw event in between):
    - until the search timer holds [WIFI_RECONNECT_TIMEOUT] the radio is
      left alone;
    - the invocation that counts the next second, by which the timer
      exceeds the search timeout, switches the radio to AP-only, sets
      [_forceDisconnection] and resets the redo timer to 0; besides the
      DNS dispatch and the MDNS reconciliation of every invocation this is
      its only call;
    - through [WIFI_RECONNECT_REDO_TIMEOUT] further counted seconds the
      radio is left alone again and [_forceDisconnection] stays set;
    - the invocation that counts the next second returns the radio to
      AP+station and runs [applyConfig] once: hostname, radio toggle,
      access point and captive DNS restarted, one station connection
      attempt and the address application (neither for an empty SSID);
      then it clears [_forceDisconnection] and resets the search timer
      to 0. *)
Theorem backoff_cycle_from_fresh_search
    (s : State) (searching : list Env) (e1 : Env)
    (suspended : list Env) (e2 : Env) :
  0 <= WIFI_RECONNECT_TIMEOUT < 2 ^ 32 - 1 ->
  0 <= WIFI_RECONNECT_REDO_TIMEOUT < 2 ^ 32 - 1 ->
  admin_on_wifi s ->
  _forceDisconnection s = false ->
  0 <= _connectTimeoutTimer s ->
  Forall (fun e => isConnected e = false)
    (searching ++ e1 :: suspended ++ [e2]) ->
  _connectTimeoutTimer s + seconds_counted searching s
  = WIFI_RECONNECT_TIMEOUT ->
  second_elapsed e1 (ticks searching s) = true ->
  seconds_counted suspended (loop e1 (ticks searching s))
    = WIFI_RECONNECT_REDO_TIMEOUT ->
  second_elapsed e2 (ticks suspended (loop e1 (ticks searching s))) = true ->
  let s0 := ticks searching s in
  let s1 := loop e1 s0 in
  let s1' := ticks suspended s1 in
  let s2 := loop e2 s1' in
  (_forceDisconnection s0 = false /\ radio_calls s0 = radio_calls s)
  /\ (_forceDisconnection s1 = true
      /\ _connectRedoTimer s1 = 0
      /\ new_calls s0 s1
         = [WiFi_mode WIFI_AP]
           ++ (if _dnsServerStatus s0 then [DNS_processNextRequest] else [])
           ++ (if Bool.eqb (_lastMdnsEnabled s0)
                    (Mdns_Enabled (Configuration e1))
               then [] else mdns_restart e1)
      /\ last_WiFi_mode (calls s1) = Some WIFI_AP)
  /\ (_forceDisconnection s1' = true /\ radio_calls s1' = radio_calls s1)
  /\ (_forceDisconnection s2 = false
      /\ _connectTimeoutTimer s2 = 0
      /\ new_calls s1' s2
         = [WiFi_mode WIFI_AP_STA;
            WiFi_hostname (getHostname e2);
            WiFi_mode WIFI_MODE_APSTA; WiFi_mode WIFI_MODE_STA;
            WiFi_mode WIFI_AP_STA; WiFi_softAPConfig; WiFi_softAP;
            DNS_setErrorReplyCode; DNS_start]
           ++ station_begin e2
           ++ (if String.eqb (WiFi_Ssid (Configuration e2)) "" then []
               else [WiFi_config (WiFi_Dhcp (Configuration e2))])
           ++ [DNS_processNextRequest]
           ++ (if Bool.eqb (_lastMdnsEnabled s1')
                    (Mdns_Enabled (Configuration e2))
               then [] else mdns_restart e2)
      /\ last_WiFi_mode (calls s2) = Some WIFI_AP_STA).
Proof.
  intros HT HR Hinv Hf Ht Hall. cbv zeta.
  set (s0 := ticks searching s). set (s1 := loop e1 s0).
  set (s1' := ticks suspended s1). set (s2 := loop e2 s1').
  intros Hn1 Hd1 Hn2 Hd2.
  apply Forall_app in Hall as [Hall0 Hall].
  apply Forall_cons in Hall as [He1 Hall].
  apply Forall_app in Hall as [Hall1 Hall2].
  apply Forall_cons in Hall2 as [He2 _].
  destruct (ticks_searching searching s Hinv) as (Hinv0 & Hf0 & Ht0 & Hr0);
    try assumption; try lia.
  fold s0 in Hinv0, Hf0, Ht0, Hr0.
  rewrite Hn1 in Ht0.
  assert (Ht1 : _connectTimeoutTimer (loop_timers e1 s0)
                > WIFI_RECONNECT_TIMEOUT).
  { rewrite timers_connectTimeoutTimer, Hd1, Ht0, u32_small; lia. }
  destruct (loop_backoff_suspends e1 s0 Hinv0 ltac:(lia) He1 Ht1 Hf0)
    as (Hf1 & _ & Hredo1 & Hr1).
  pose proof (loop_suspend_calls e1 s0 Hinv0 ltac:(lia) He1 Ht1 Hf0)
    as Hc1.
  pose proof (loop_keeps_admin_on_wifi e1 s0 Hinv0 He1) as Hinv1.
  fold s1 in Hf1, Hredo1, Hr1, Hinv1, Hc1.
  destruct (ticks_suspended suspended s1 Hinv1)
    as (Hinv1' & Hf1' & Hredo1' & Hr1'); try assumption; try lia.
  fold s1' in Hinv1', Hf1', Hredo1', Hr1'.
  rewrite Hredo1, Hn2, Z.add_0_l in Hredo1'.
  assert (Hredo2 : _connectRedoTimer (loop_timers e2 s1')
                   > WIFI_RECONNECT_REDO_TIMEOUT).
  { rewrite timers_connectRedoTimer, Hd2, Hredo1', u32_small; lia. }
  destruct (loop_backoff_resumes e2 s1' Hinv1' He2 Hredo2 Hf1')
    as (Hf2 & Ht2 & Hr2).
  pose proof (loop_resume_calls e2 s1' Hinv1' He2 Hredo2 Hf1') as Hc2.
  fold s2 in Hf2, Ht2, Hr2, Hc2.
  split; [now split|]. split; [|split; [now split|]].
  - split; [exact Hf1|]. split; [exact Hredo1|]. split; [exact Hc1|].
    rewrite <- last_WiFi_mode_radio. fold (radio_calls s1).
    rewrite Hr1, last_WiFi_mode_app. reflexivity.
  - split; [exact Hf2|]. split; [exact Ht2|]. split; [exact Hc2|].
    rewrite <- last_WiFi_mode_radio. fold (radio_calls s2).
    rewrite Hr2, !last_WiFi_mode_app, last_WiFi_mode_station_begin.
    reflexivity.
Qed.

End NetworkSettings.

(** * The hostname across executions *)

(** X14. [getHostname] reads no cell of its two arrays before it has
    written it, and nothing of its environment but the text [snprintf]
    makes of the configured template and, when nothing of that text is
    left, of the default template.  Take two executions, each with its own
    behaviour of [printf], its own template, chip id, stack content and
    collaborator readings: when [snprintf] produced the same text for the
    configured template in both and, should that text sanitize to nothing,
    the same text for the default template, both return the same hostname.
    (What text the C library makes of a template is left open: one with a
    second conversion reads an argument that was not passed.) *)
Theorem getHostname_ignores_stack_content
    (maxlen : nat) (app_hostname : string)
    (printf_text printf_text' : string -> Z -> string) (e e' : Env) :
  (maxlen <= 255)%nat ->
  printf_text' (WiFi_Hostname (Configuration e')) (getChipId e')
  = printf_text (WiFi_Hostname (Configuration e)) (getChipId e) ->
  (spec_sanitize (prepared_text maxlen printf_text e) = [] ->
   printf_text' app_hostname (getChipId e')
   = printf_text app_hostname (getChipId e)) ->
  getHostname maxlen app_hostname printf_text' e'
  = getHostname maxlen app_hostname printf_text e.
Proof.
  intros Hmax Htext Hdefault.
  rewrite (getHostname_spec maxlen app_hostname printf_text e Hmax),
    (getHostname_spec maxlen app_hostname printf_text' e' Hmax).
  f_equal. unfold spec_hostname.
  assert (Hprep : prepared_text maxlen printf_text' e'
                  = prepared_text maxlen printf_text e)
    by (unfold prepared_text, stored_text; now rewrite Htext).
  rewrite Hprep.
  destruct (spec_sanitize (prepared_text maxlen printf_text e)) eqn:Hs;
    [|reflexivity].
  unfold default_text, stored_text. now rewrite Hdefault.
Qed.

(** * The statements on concrete inputs

    The build: hostnames of up to 31 characters, default template
    "OpenDTU-%06X", search timeout 30 s, redo timeout 600 s. *)

Abbreviation at_build f :=
  (f 31%nat "OpenDTU-%06X"%string 30 600 printf_hex6) (only parsing).

Abbreviation at_hostname_build f :=
  (f 31%nat "OpenDTU-%06X"%string printf_hex6) (only parsing).

Lemma Forall_of_forallb {A} (p : A -> bool) (P : A -> Prop) l :
  (forall x, p x = true -> P x) -> forallb p l = true -> Forall P l.
Proof.
  intros Hp H. apply Forall_forall. intros x Hx.
  apply Hp. rewrite forallb_forall in H. apply H.
  now apply list_elem_of_In.
Defined.

Lemma wired_link_forces_ethernet_witness :
  _ethConnected (at_build run link_up wifi_state) = true
  /\ _networkMode
       (at_build run
          (link_up ++ [Tick (online_env home_config 1001)])
          wifi_state)
     = Ethernet.
Proof.
  split; [reflexivity|].
  exact (proj1 (wired_link_forces_ethernet 31 "OpenDTU-%06X" 30 600
                  printf_hex6 link_up
                  (online_env home_config 1001)
                  [Raw ARDUINO_EVENT_WIFI_STA_CONNECTED] wifi_state
                  eq_refl)).
Defined.

Lemma isConnected_nonzero_address_counterexample :
  ~ (isConnected odd_env = true
     <-> zero_ip (WiFi_localIP odd_env) = false
         \/ zero_ip (ETH_localIP odd_env) = false).
Proof.
  intros [_ H]. discriminate (H (or_introl eq_refl)).
Qed.

Lemma getHostname_sanitizes_witness :
  printf_hex6 (WiFi_Hostname home_config) 11259375 = "My Router!!"%string
  /\ at_hostname_build getHostname (online_env home_config 0)
     = "My-Router"%string.
Proof.
  split; [reflexivity|].
  apply (getHostname_sanitizes 31 "OpenDTU-%06X" printf_hex6
           (online_env home_config 0));
    [lia|reflexivity|lia].
Defined.

Lemma admin_session_survives_offline_witness :
  0 < _adminTimeoutCounterMax wifi_state
  /\ _adminEnabled (at_build run offline_steps wifi_state) = true.
Proof.
  split; [reflexivity|].
  refine (proj1 (admin_session_survives_offline 31 "OpenDTU-%06X" 30 600
                   printf_hex6 offline_steps wifi_state
                   eq_refl eq_refl _)).
  intros e [H|[H|[H|[H|[H|[]]]]]];
    first [discriminate H | injection H as <-; reflexivity].
Defined.

Lemma admin_session_alive_at_timeout_counterexample :
  _adminEnabled armed_state = true
  /\ _adminTimeoutCounter armed_state = 0
  /\ _adminTimeoutCounterMax armed_state = 60
  /\ forallb isConnected (seconds home_config lan_ip 1 60) = true
  /\ at_build seconds_counted (seconds home_config lan_ip 1 60) armed_state
     = 60
  /\ _adminEnabled
       (at_build ticks (seconds home_config lan_ip 1 60) armed_state)
     = true
  /\ falling_edges
       (at_build enabled_history (seconds home_config lan_ip 1 60)
          armed_state)
     = 0%nat.
Proof. vm_compute. repeat split. Qed.

Lemma admin_session_expires_past_timeout_witness :
  at_build seconds_counted (seconds home_config lan_ip 1 61) armed_state
  = 61
  /\ _adminEnabled
       (at_build ticks (seconds home_config lan_ip 1 61) armed_state)
     = false
  /\ falling_edges
       (at_build enabled_history (seconds home_config lan_ip 1 61)
          armed_state)
     = 1%nat.
Proof.
  destruct (admin_session_expires_past_timeout 31 "OpenDTU-%06X" 30 600
              printf_hex6 (seconds home_config lan_ip 1 61) armed_state)
    as (H1 & H2 & _).
  - reflexivity.
  - reflexivity.
  - reflexivity.
  - split; reflexivity.
  - apply (Forall_of_forallb isConnected); [auto|]. vm_compute. reflexivity.
  - rewrite H1, H2. vm_compute. repeat split.
Defined.

Lemma stale_suspension_flag_blocks_backoff_witness :
  let s := at_build run stale_flag_steps undefined_state in
  let s' := at_build ticks still_searching s in
  (_networkMode s = WiFi /\ _adminEnabled s = true
   /\ _forceDisconnection s = true
   /\ last_WiFi_mode (calls s) = Some WIFI_AP_STA)
  /\ at_build seconds_counted still_searching s = 100
  /\ _connectTimeoutTimer s' = 101
  /\ radio_calls s' = radio_calls s
  /\ last_WiFi_mode (calls s') = Some WIFI_AP_STA
  /\ _forceDisconnection s' = true.
Proof.
  cbv zeta.
  destruct (stale_suspension_flag_blocks_backoff 31 "OpenDTU-%06X" 30 600
              printf_hex6 still_searching
              (at_build run stale_flag_steps undefined_state))
    as [_ H].
  destruct H as (_ & Ht & Hr & Hl & Hf).
  - repeat split. vm_compute. discriminate.
  - vm_compute. reflexivity.
  - apply (Forall_of_forallb (fun e => negb (isConnected e))).
    + intros e He. now apply negb_true_iff.
    + vm_compute. reflexivity.
  - lia.
  - vm_compute. discriminate.
  - vm_compute. discriminate.
  - vm_compute. discriminate.
  - vm_compute. reflexivity.
  - split; [repeat split; vm_compute; reflexivity|].
    split; [vm_compute; reflexivity|].
    split; [rewrite Ht; vm_compute; reflexivity|].
    split; [exact Hr|]. split; [|exact Hf].
    rewrite Hl. vm_compute. reflexivity.
Defined.

Lemma raiseEvent_delivers_matching_witness :
  _cbEventList bus_state = map entry_of bus_subscriptions
  /\ received_by 2 (new_calls bus_state (publish bus_events bus_state))
     = bus_events
  /\ ~ In NETWORK_DISCONNECTED
         (received_by 1 (new_calls bus_state (publish bus_events bus_state))).
Proof.
  split; [reflexivity|]. split.
  - refine (proj2 (proj2 (raiseEvent_delivers_matching bus_subscriptions
                            bus_events 2 bus_state eq_refl))
              [(1%nat, NETWORK_CONNECTED)] [(3%nat, NETWORK_GOT_IP)]
              eq_refl _).
    intros sub [<-|[<-|[]]]; discriminate.
  - refine (proj1 (proj1 (proj2 (raiseEvent_delivers_matching
                                   bus_subscriptions bus_events 1 bus_state
                                   eq_refl)) _)).
    intros sub [<-|[<-|[<-|[]]]]; first [reflexivity | discriminate].
Defined.

Lemma empty_ssid_short_circuits_witness :
  WiFi_Ssid (Configuration (offline_env open_config 0)) = ""%string
  /\ List.filter is_station_begin
       (new_calls wifi_state
          (at_hostname_build applyConfig (offline_env open_config 0)
             wifi_state))
     = []
  /\ List.filter is_address_config
       (new_calls wifi_state
          (at_hostname_build applyConfig (offline_env open_config 0)
             wifi_state))
     = [].
Proof.
  split; [reflexivity|].
  destruct (empty_ssid_short_circuits 31 "OpenDTU-%06X" printf_hex6
              (offline_env open_config 0) wifi_state NETWORK_START eq_refl)
    as (_ & H1 & H2 & _).
  split; [exact H1|exact H2].
Defined.

Lemma zero_timeout_never_disables_witness :
  _adminTimeoutCounterMax wifi_state_no_timeout = 0
  /\ _adminEnabled (at_build run no_timeout_steps wifi_state_no_timeout)
     = true.
Proof.
  split; [reflexivity|].
  refine (proj1 (proj1 (zero_timeout_never_disables 31 "OpenDTU-%06X" 30 600
                          printf_hex6 no_timeout_steps
                          (online_env open_config 0) wifi_state_no_timeout
                          eq_refl eq_refl eq_refl _))).
  intros e [H|[H|[H|[H|[H|[H|[]]]]]]];
    first [discriminate H | injection H as <-; reflexivity].
Defined.

Lemma getHostname_clean_witness :
  at_hostname_build getHostname (online_env messy_config 0)
  = "-abc--dABCDEF"%string
  /\ clean_hostname 31
       (list_ascii_of_string
          (at_hostname_build getHostname (online_env messy_config 0))).
Proof.
  split; [vm_compute; reflexivity|].
  refine (proj2 (getHostname_clean 31 "OpenDTU-%06X" printf_hex6
                   (online_env messy_config 0) _ _)).
  - lia.
  - unfold clean_hostname. split; [vm_compute; lia|].
    split; [vm_compute; reflexivity|vm_compute; discriminate].
Defined.

(** ** Further statements on concrete inputs *)

Lemma NetworkEvent_gates_on_mode_witness :
  _networkMode bus_state = WiFi
  /\ List.filter is_callback
       (new_calls bus_state
          (NetworkEvent ARDUINO_EVENT_WIFI_STA_GOT_IP bus_state))
     = [Callback 2 NETWORK_GOT_IP; Callback 3 NETWORK_GOT_IP]
  /\ NetworkEvent ARDUINO_EVENT_ETH_GOT_IP bus_state = bus_state.
Proof.
  split; [reflexivity|]. split.
  - exact (proj1 (NetworkEvent_gates_on_mode ARDUINO_EVENT_WIFI_STA_GOT_IP
                    WiFi NETWORK_GOT_IP bus_subscriptions bus_state
                    eq_refl eq_refl eq_refl)).
  - refine (proj1 (proj2 (NetworkEvent_gates_on_mode ARDUINO_EVENT_ETH_GOT_IP
                            Ethernet NETWORK_GOT_IP bus_subscriptions
                            bus_state eq_refl eq_refl eq_refl)) _ _);
      discriminate.
Defined.

Lemma ethernet_link_events_witness :
  new_calls bus_state (NetworkEvent ARDUINO_EVENT_ETH_CONNECTED bus_state)
  = [Callback 1 NETWORK_CONNECTED; Callback 2 NETWORK_CONNECTED]
  /\ new_calls bus_state
       (NetworkEvent ARDUINO_EVENT_ETH_DISCONNECTED bus_state)
     = [].
Proof.
  destruct (ethernet_link_events bus_subscriptions bus_state eq_refl)
    as ((_ & H1) & (_ & H2)).
  split; [exact H1|exact H2].
Defined.

Lemma wifi_disconnect_reconnects_first_witness :
  new_calls bus_state
    (NetworkEvent ARDUINO_EVENT_WIFI_STA_DISCONNECTED bus_state)
  = [WiFi_disconnect true false; WiFi_begin;
     Callback 2 NETWORK_DISCONNECTED].
Proof.
  exact (proj1 (wifi_disconnect_reconnects_first bus_subscriptions bus_state
                  eq_refl eq_refl)).
Defined.

Lemma second_arbitration_does_nothing_witness :
  at_hostname_build loop_arbitrate (online_env home_config 2002)
    (NetworkEvent ARDUINO_EVENT_WIFI_STA_CONNECTED
       (at_build loop (online_env home_config 1001) undefined_state))
  = NetworkEvent ARDUINO_EVENT_WIFI_STA_CONNECTED
      (at_build loop (online_env home_config 1001) undefined_state).
Proof.
  exact (proj2 (proj2 (second_arbitration_does_nothing 31 "OpenDTU-%06X"
                         30 600 printf_hex6 (online_env home_config 1001)
                         (online_env home_config 2002)
                         ARDUINO_EVENT_WIFI_STA_CONNECTED undefined_state))
           eq_refl).
Defined.

Lemma switch_to_ethernet_calls_witness :
  new_calls wired_state
    (at_hostname_build loop_arbitrate (online_env home_config 1001)
       wired_state)
  = [WiFi_mode WIFI_MODE_NULL; ETH_config true;
     ETH_setHostname "My-Router"].
Proof.
  refine (proj1 (switch_to_ethernet_calls 31 "OpenDTU-%06X" printf_hex6
                   (online_env home_config 1001) wired_state eq_refl _)).
  discriminate.
Defined.

Lemma switch_to_wifi_calls_witness :
  _adminTimeoutCounterMax
    (at_hostname_build loop_arbitrate (online_env home_config 1001)
       undefined_state)
  = 60
  /\ List.filter is_station_begin
       (new_calls undefined_state
          (at_hostname_build loop_arbitrate (online_env home_config 1001)
             undefined_state))
     = [WiFi_begin_with "home" "secret"].
Proof.
  destruct (switch_to_wifi_calls 31 "OpenDTU-%06X" printf_hex6
              (online_env home_config 1001) undefined_state eq_refl)
    as (H1 & _ & _ & _ & H2 & _).
  - discriminate.
  - split; [exact H2|]. rewrite H1. reflexivity.
Defined.

Lemma handleMDNS_reconciles_witness :
  new_calls wifi_state
    (at_hostname_build handleMDNS mdns_failing_env wifi_state)
  = [MDNS_end; MDNS_begin "My-Router"]
  /\ at_hostname_build handleMDNS mdns_failing_env
       (at_hostname_build handleMDNS mdns_failing_env wifi_state)
     = at_hostname_build handleMDNS mdns_failing_env wifi_state.
Proof.
  destruct (handleMDNS_reconciles 31 "OpenDTU-%06X" printf_hex6
              mdns_failing_env mdns_failing_env wifi_state)
    as (H1 & _ & _ & H2).
  split; [exact H1|exact (H2 eq_refl)].
Defined.

Lemma one_dns_dispatch_per_enabled_tick_witness :
  dns_follows_admin armed_state
  /\ dns_dispatches
       (at_build loop (offline_env home_config 4004)
          (at_build run offline_steps armed_state))
     = dns_dispatches (at_build run offline_steps armed_state)
       ++ [DNS_processNextRequest].
Proof.
  split; [reflexivity|].
  exact (proj1 (proj2 (one_dns_dispatch_per_enabled_tick 31 "OpenDTU-%06X"
                         30 600 printf_hex6 offline_steps
                         (offline_env home_config 4004) armed_state
                         eq_refl))).
Defined.


Lemma backoff_timers_reset_only_when_enabled_witness :
  _connectTimeoutTimer
    (at_build loop (online_env home_config 1001) searching_state) = 0
  /\ _connectTimeoutTimer
       (at_build loop (online_env home_config 1001) disabled_state) = 8.
Proof.
  destruct (backoff_timers_reset_only_when_enabled 31 "OpenDTU-%06X" 30 600
              printf_hex6 (online_env home_config 1001) searching_state
              eq_refl) as [H1 _].
  destruct (backoff_timers_reset_only_when_enabled 31 "OpenDTU-%06X" 30 600
              printf_hex6 (online_env home_config 1001) disabled_state
              eq_refl) as [_ H2].
  split.
  - refine (proj1 (H1 eq_refl eq_refl _)). vm_compute. discriminate.
  - rewrite (proj1 (H2 eq_refl)). reflexivity.
Defined.

Lemma counters_advance_once_per_second_witness :
  second_elapsed (online_env home_config 1001) wifi_state = true
  /\ second_elapsed (online_env home_config 2001)
       (at_build loop (online_env home_config 1001) wifi_state)
     = false
  /\ second_elapsed (online_env home_config 2002)
       (at_build loop (online_env home_config 1001) wifi_state)
     = true.
Proof.
  split; [reflexivity|]. split.
  - exact (proj2 (proj2 (counters_advance_once_per_second 31 "OpenDTU-%06X"
                           30 600 printf_hex6 (online_env home_config 1001)
                           (online_env home_config 2001) wifi_state))
             eq_refl).
  - exact (proj2 (proj2 (counters_advance_once_per_second 31 "OpenDTU-%06X"
                           30 600 printf_hex6 (online_env home_config 1001)
                           (online_env home_config 2002) wifi_state))
             eq_refl).
Defined.

Lemma getHostname_keeps_hostnames_witness :
  at_hostname_build getHostname (online_env tidy_config 0)
  = "opendtu-1"%string
  /\ at_hostname_build getHostname
       (online_env (sample_config "home" "My-Router" 1) 0)
     = at_hostname_build getHostname (online_env home_config 0).
Proof.
  split.
  - refine (proj1 (getHostname_keeps_hostnames 31 "OpenDTU-%06X" printf_hex6
                     (online_env tidy_config 0) (online_env tidy_config 0)
                     _) _ _).
    + lia.
    + discriminate.
    + unfold clean_hostname. split; [vm_compute; lia|].
      split; [vm_compute; reflexivity|vm_compute; discriminate].
  - refine (proj2 (getHostname_keeps_hostnames 31 "OpenDTU-%06X" printf_hex6
                     (online_env home_config 0)
                     (online_env (sample_config "home" "My-Router" 1) 0)
                     _) _ _).
    + lia.
    + vm_compute. discriminate.
    + vm_compute. reflexivity.
Defined.

Lemma getHostname_ignores_stack_content_witness :
  junk_result other_stack_env <> junk_result (online_env home_config 0)
  /\ getHostname 31 "OpenDTU-%06X" printf_literal other_stack_env
     = getHostname 31 "OpenDTU-%06X" printf_hex6 (online_env home_config 0).
Proof.
  split; [discriminate|].
  apply getHostname_ignores_stack_content;
    [lia|reflexivity|intros H; vm_compute in H; discriminate].
Defined.

Lemma getHostname_keeps_leading_hyphens_witness :
  prepared_text 31 printf_hex6 (online_env messy_config 0)
  = list_ascii_of_string "-a.b.c..--dABCDEF@@@__"
  /\ exists tail,
       at_hostname_build getHostname (online_env messy_config 0)
       = String hyphen tail.
Proof.
  split; [vm_compute; reflexivity|].
  refine (proj2 (getHostname_keeps_leading_hyphens 31 "OpenDTU-%06X"
                   printf_hex6 (online_env messy_config 0)
                   "-"%char "a"%char
                   (list_ascii_of_string "a.b.c..--dABCDEF@@@__") _ _)
            _ _ _).
  - lia.
  - reflexivity.
  - vm_compute. reflexivity.
  - reflexivity.
  - left. reflexivity.
Defined.

Lemma applyConfig_connects_once_witness :
  List.filter is_station_begin
    (new_calls wifi_state
       (at_hostname_build applyConfig (online_env home_config 0)
          wifi_state))
  = [WiFi_begin_with "home" "secret"]
  /\ List.filter is_address_config
       (new_calls wifi_state
          (at_hostname_build applyConfig (online_env home_config 0)
             wifi_state))
     = [WiFi_config true].
Proof.
  destruct (applyConfig_connects_once 31 "OpenDTU-%06X" printf_hex6
              (online_env home_config 0) wifi_state) as (H & _).
  - discriminate.
  - rewrite H. split; reflexivity.
Defined.

Lemma backoff_runs_in_ethernet_mode_witness :
  _networkMode wired_searching_state = Ethernet
  /\ _forceDisconnection
       (at_build loop (offline_env home_config 1001) wired_searching_state)
     = true
  /\ radio_calls
       (at_build loop (offline_env home_config 1001) wired_searching_state)
     = [WiFi_mode WIFI_AP]
  /\ _connectTimeoutTimer
       (loop_timers (offline_env home_config 1001) wired_stale_state)
     = 40
  /\ _forceDisconnection
       (at_build loop (offline_env home_config 1001) wired_stale_state)
     = true
  /\ radio_calls
       (at_build loop (offline_env home_config 1001) wired_stale_state)
     = [].
Proof.
  split; [reflexivity|].
  assert (Hmax : 0 <= _adminTimeoutCounterMax wired_searching_state)
    by (vm_compute; discriminate).
  assert (Hmax' : 0 <= _adminTimeoutCounterMax wired_stale_state)
    by (vm_compute; discriminate).
  assert (Hredo : 0 <= 600) by lia.
  destruct (backoff_runs_in_ethernet_mode 31 "OpenDTU-%06X" 30 600
              printf_hex6 (offline_env home_config 1001)
              wired_searching_state eq_refl eq_refl eq_refl Hmax Hredo
              eq_refl) as [H _].
  destruct (backoff_runs_in_ethernet_mode 31 "OpenDTU-%06X" 30 600
              printf_hex6 (offline_env home_config 1001)
              wired_stale_state eq_refl eq_refl eq_refl Hmax' Hredo
              eq_refl) as (_ & _ & _ & H').
  destruct H as (H1 & _ & H2); [reflexivity|vm_compute; reflexivity|].
  destruct H' as (H3 & H4); [reflexivity|vm_compute; discriminate|].
  split; [exact H1|]. split; [exact H2|]. split; [reflexivity|].
  split; [exact H3|exact H4].
Defined.

Lemma localIP_follows_arbitration_witness :
  localIP no_ip (online_env home_config 2002)
    (at_build loop (online_env home_config 1001) undefined_state)
  = lan_ip.
Proof.
  exact (proj1 (localIP_follows_arbitration 31 "OpenDTU-%06X" 30 600
                  printf_hex6 no_ip (online_env home_config 1001)
                  (online_env home_config 2002) undefined_state eq_refl)).
Defined.

Lemma getApName_injective_witness :
  getApName "OpenDTU-" (online_env home_config 0) = "OpenDTU-11259375"%string
  /\ getChipId (online_env home_config 0) = getChipId other_stack_env.
Proof.
  split; [vm_compute; reflexivity|].
  apply (getApName_injective "OpenDTU-");
    [vm_compute; split; [discriminate|reflexivity]
    |vm_compute; split; [discriminate|reflexivity]
    |reflexivity].
Defined.

Lemma setHostname_radio_witness :
  radio_calls
    (at_hostname_build setHostname (online_env home_config 0) wifi_state)
  = [WiFi_mode WIFI_MODE_APSTA; WiFi_mode WIFI_MODE_STA;
     WiFi_mode WIFI_AP_STA]
  /\ radio_calls
       (at_hostname_build setHostname (online_env home_config 0)
          disabled_state)
     = [WiFi_mode WIFI_MODE_APSTA; WiFi_mode WIFI_MODE_STA;
        WiFi_mode WIFI_STA].
Proof.
  split.
  - exact (proj1 (proj1 (setHostname_radio 31 "OpenDTU-%06X" printf_hex6
                           (online_env home_config 0) wifi_state)
                    eq_refl)).
  - exact (proj1 (proj1 (setHostname_radio 31 "OpenDTU-%06X" printf_hex6
                           (online_env home_config 0) disabled_state)
                    eq_refl)).
Defined.

Lemma failover_inherits_backoff_state_witness :
  _adminEnabled unplugged_state = false
  /\ radio_calls
       (at_build loop (offline_env home_config 1001) unplugged_state)
     = [WiFi_mode WIFI_AP_STA; WiFi_mode WIFI_MODE_APSTA;
        WiFi_mode WIFI_MODE_STA; WiFi_mode WIFI_AP_STA;
        WiFi_begin_with "home" "secret"; WiFi_mode WIFI_AP]
  /\ _forceDisconnection
       (at_build loop (offline_env home_config 1001) unplugged_state)
     = true
  /\ radio_calls
       (at_build loop (offline_env home_config 1001) unplugged_stale_state)
     = [WiFi_mode WIFI_AP_STA; WiFi_mode WIFI_MODE_APSTA;
        WiFi_mode WIFI_MODE_STA; WiFi_mode WIFI_AP_STA;
        WiFi_begin_with "home" "secret"]
  /\ _forceDisconnection
       (at_build loop (offline_env home_config 1001) unplugged_stale_state)
     = true.
Proof.
  split; [reflexivity|].
  assert (Ht : 30 < _connectTimeoutTimer unplugged_state < 2 ^ 32 - 1)
    by (vm_compute; split; reflexivity).
  assert (Hd : 0 <= _connectRedoTimer unplugged_stale_state < 600)
    by (vm_compute; split; [discriminate|reflexivity]).
  assert (Hm : _networkMode unplugged_state <> WiFi) by discriminate.
  assert (Hm' : _networkMode unplugged_stale_state <> WiFi) by discriminate.
  assert (HT : 0 <= 30) by lia.
  assert (HR : 0 <= 600) by lia.
  destruct (failover_inherits_backoff_state 31 "OpenDTU-%06X" 30 600
              printf_hex6 (offline_env home_config 1001)
              unplugged_state eq_refl Hm HT HR eq_refl)
    as (_ & H & _).
  destruct (failover_inherits_backoff_state 31 "OpenDTU-%06X" 30 600
              printf_hex6 (offline_env home_config 1001)
              unplugged_stale_state eq_refl Hm' HT HR eq_refl)
    as (_ & _ & _ & _ & H').
  destruct (H eq_refl Ht) as (H1 & _ & H2 & _).
  destruct (H' eq_refl Hd) as (H3 & _ & H4).
  split; [exact H1|]. split; [exact H2|]. split; [exact H3|exact H4].
Defined.

Lemma backoff_cycle_from_fresh_search_witness :
  at_build seconds_counted cycle_searching wifi_state = 30
  /\ _forceDisconnection (at_build ticks cycle_searching wifi_state) = false
  /\ _forceDisconnection
       (at_build loop cycle_suspend
          (at_build ticks cycle_searching wifi_state))
     = true
  /\ new_calls
       (at_build ticks cycle_searching wifi_state)
       (at_build loop cycle_suspend
          (at_build ticks cycle_searching wifi_state))
     = [WiFi_mode WIFI_AP]
  /\ new_calls
       (at_build ticks cycle_suspended
          (at_build loop cycle_suspend
             (at_build ticks cycle_searching wifi_state)))
       (at_build loop cycle_resume
          (at_build ticks cycle_suspended
             (at_build loop cycle_suspend
                (at_build ticks cycle_searching wifi_state))))
     = [WiFi_mode WIFI_AP_STA; WiFi_hostname "My-Router";
        WiFi_mode WIFI_MODE_APSTA; WiFi_mode WIFI_MODE_STA;
        WiFi_mode WIFI_AP_STA; WiFi_softAPConfig; WiFi_softAP;
        DNS_setErrorReplyCode; DNS_start; WiFi_begin_with "home" "secret";
        WiFi_config true; DNS_processNextRequest]
  /\ last_WiFi_mode
       (calls
          (at_build loop cycle_resume
             (at_build ticks cycle_suspended
                (at_build loop cycle_suspend
                   (at_build ticks cycle_searching wifi_state)))))
     = Some WIFI_AP_STA.
Proof.
  destruct (backoff_cycle_from_fresh_search 31 "OpenDTU-%06X" 30 600
              printf_hex6 wifi_state cycle_searching cycle_suspend
              cycle_suspended cycle_resume)
    as ((H0 & _) & (H1 & _ & Hc1 & _) & _ & (_ & _ & Hc2 & H2)).
  - lia.
  - lia.
  - repeat split. vm_compute. discriminate.
  - reflexivity.
  - vm_compute. discriminate.
  - apply (Forall_of_forallb (fun e => negb (isConnected e))).
    + intros e He. now apply negb_true_iff.
    + vm_compute. reflexivity.
  - vm_compute. reflexivity.
  - vm_compute. reflexivity.
  - vm_compute. reflexivity.
  - vm_compute. reflexivity.
  - split; [vm_compute; reflexivity|]. split; [exact H0|].
    split; [exact H1|].
    split; [rewrite Hc1; vm_compute; reflexivity|].
    split; [rewrite Hc2; vm_compute; reflexivity|exact H2].
Defined.
